(** * A shallow embedding of the relay engine of [src/server.js]

    The server keeps a registry of producer connections ([senders], a JS
    [Map] iterated in insertion order), a set of consumer connections
    ([browserClients], a JS [Set]), two bounded buffers and a handful of
    timers.  All callbacks run to completion on one event loop, so the
    engine is a deterministic state machine driven by transport events
    and timer expirations.  Every callback below is a function from the
    engine state to the new state and the list of frames it sends.

    Conventions of the embedding:
    - [Date.now()] and [Math.random()] are inputs of the callback that
      reads them; one callback sees one value of the clock;
    - a guarded [ws.send] is recorded as a sent frame exactly when
      [readyState] is [OPEN]; the [try]/[catch] around it has nothing
      left to catch;
    - [console.log] and the counters that only feed it are left out;
    - the liveness monitor (lines 30-37) acts on the engine only by
      terminating a connection, which arrives here as a close event. *)

From stdpp Require Import gmap strings list pretty.

Open Scope Z_scope.

(** ** Constants of the source *)

Definition MAX_BUFFER_SIZE : nat := 100.
Definition MESSAGE_TTL_MS : Z := 3 * 60 * 60 * 1000.
Definition CLEAN_INTERVAL_MS : Z := 10 * 60 * 1000.
Definition REGISTER_DELAY_MS : Z := 800.
Definition SETTLE_DELAY_MS : Z := 200.
Definition PACE_MS : Z := 50.
Definition CLEAR_SLACK_MS : Z := 100.

(** [readyState] values of the transport. *)
Definition OPEN : Z := 1.
Definition CLOSING : Z := 2.
Definition CLOSED : Z := 3.

(** ** Data *)

(** A connection is the identity of one [ws] object. *)
Abbreviation Conn := nat (only parsing).
Abbreviation TimerId := nat (only parsing).

(** JSON values carried in the [data] field are opaque to the engine. *)
Abbreviation Payload := string (only parsing).

(** The part of [ws._socket] the engine reads; a field is [None] when it
    is [undefined]. *)
Record Socket := mkSocket {
  remoteAddress : option string;
  remotePort : option Z;
}.

(** The fields of a [ws] object the engine reads or writes. *)
Record WebSocket := mkWebSocket {
  readyState : Z;
  _isBrowser : bool;
  _registerTimer : option TimerId;
  _socket : option Socket;
}.

(** The value stored in [senders]: [{ id, addr }]. *)
Record SenderInfo := mkSenderInfo {
  id : string;
  addr : string;
}.

(** An entry of [screenshotBuffer]: [{ type: 'screenshot', data, senderId,
    timestamp }]. *)
Record ScreenshotEntry := mkScreenshotEntry {
  s_data : Payload;
  senderId : option string;
  s_timestamp : Z;
}.

(** An entry of [codeBuffer]: [{ data, timestamp }]. *)
Record CodeEntry := mkCodeEntry {
  c_data : Payload;
  c_timestamp : Z;
}.

(** An inbound frame: its text and the result of [JSON.parse] on it.
    [parsed = None] stands for a frame on which [JSON.parse] or the read
    of [data.type] throws; the handler's [catch] then drops the frame. *)
Record Json := mkJson {
  type : string;
  data : Payload;
}.

Record Frame := mkFrame {
  raw : string;
  parsed : option Json;
}.

(** The frames the engine sends, before [JSON.stringify].  [screenshot]
    carries a timestamp when it is a buffered entry (line 190 serialises
    the entry as stored) and none when it is forwarded live (line 113).
    [code] is a buffered command re-serialised by the flush of line 62;
    [relayed] is the text of an inbound command passed on unchanged by
    line 130. *)
Inductive Outbound :=
  | sender_connected (info : SenderInfo)
  | sender_disconnected (info : SenderInfo)
  | screenshot (d : Payload) (sid : option string) (ts : option Z)
  | code (d : Payload)
  | relayed (text : string)
  | no_senders
  | current_senders (current : list SenderInfo).

(** One call of [ws.send]: the recipient and the frame. *)
Abbreviation Send := (nat * Outbound)%type (only parsing).

(** The callbacks handed to [setTimeout] and [setInterval], each with the
    variables its closure captures. *)
Inductive Task :=
  | registerTimer (ws : Conn)
  | flushBuffered (ws : Conn)
  | sendBuffered (ws : Conn) (msg : ScreenshotEntry)
  | clearBuffer
  | cleanExpired.

Record Timer := mkTimer {
  timer_id : TimerId;
  due : Z;
  task : Task;
}.

#[global] Instance Socket_eq_dec : EqDecision Socket.
Proof. solve_decision. Defined.
#[global] Instance WebSocket_eq_dec : EqDecision WebSocket.
Proof. solve_decision. Defined.
#[global] Instance SenderInfo_eq_dec : EqDecision SenderInfo.
Proof. solve_decision. Defined.
#[global] Instance ScreenshotEntry_eq_dec : EqDecision ScreenshotEntry.
Proof. solve_decision. Defined.
#[global] Instance CodeEntry_eq_dec : EqDecision CodeEntry.
Proof. solve_decision. Defined.
#[global] Instance Outbound_eq_dec : EqDecision Outbound.
Proof. solve_decision. Defined.
#[global] Instance Task_eq_dec : EqDecision Task.
Proof. solve_decision. Defined.
#[global] Instance Timer_eq_dec : EqDecision Timer.
Proof. solve_decision. Defined.

(** ** The JS [Map] and [Set] keyed by connection

    Both iterate in insertion order, and the order decides the order of
    the sends, so they are kept as lists. *)

Module JsMap.
Section ops.
Context {V : Type}.

Definition has (k : Conn) (m : list (Conn * V)) : bool :=
  bool_decide (k ∈ m.*1).

Fixpoint get (k : Conn) (m : list (Conn * V)) : option V :=
  match m with
  | [] => None
  | (k', v) :: m' => if decide (k' = k) then Some v else get k m'
  end.

Definition set (k : Conn) (v : V) (m : list (Conn * V)) : list (Conn * V) :=
  if has k m
  then (λ p : Conn * V, if decide (p.1 = k) then (k, v) else p) <$> m
  else m ++ [(k, v)].

Definition delete (k : Conn) (m : list (Conn * V)) : list (Conn * V) :=
  filter (λ p : Conn * V, p.1 ≠ k) m.

Definition values (m : list (Conn * V)) : list V := m.*2.

Definition keys (m : list (Conn * V)) : list Conn := m.*1.
End ops.
End JsMap.

Module JsSet.
Definition has (k : Conn) (l : list Conn) : bool := bool_decide (k ∈ l).

Definition add (k : Conn) (l : list Conn) : list Conn :=
  if has k l then l else l ++ [k].

Definition delete (k : Conn) (l : list Conn) : list Conn :=
  filter (λ k' : Conn, k' ≠ k) l.
End JsSet.

(** ** Engine state *)

Record State := mkState {
  clients : gmap nat WebSocket;
  senders : list (Conn * SenderInfo);
  browserClients : list Conn;
  screenshotBuffer : list ScreenshotEntry;
  codeBuffer : list CodeEntry;
  timers : list Timer;
  nextTimer : TimerId;
  clock : Z;
}.

Definition set_clients (v : gmap nat WebSocket) (s : State) : State :=
  mkState v (senders s) (browserClients s) (screenshotBuffer s) (codeBuffer s)
          (timers s) (nextTimer s) (clock s).
Definition set_senders (v : list (Conn * SenderInfo)) (s : State) : State :=
  mkState (clients s) v (browserClients s) (screenshotBuffer s) (codeBuffer s)
          (timers s) (nextTimer s) (clock s).
Definition set_browserClients (v : list Conn) (s : State) : State :=
  mkState (clients s) (senders s) v (screenshotBuffer s) (codeBuffer s)
          (timers s) (nextTimer s) (clock s).
Definition set_screenshotBuffer (v : list ScreenshotEntry) (s : State) : State :=
  mkState (clients s) (senders s) (browserClients s) v (codeBuffer s)
          (timers s) (nextTimer s) (clock s).
Definition set_codeBuffer (v : list CodeEntry) (s : State) : State :=
  mkState (clients s) (senders s) (browserClients s) (screenshotBuffer s) v
          (timers s) (nextTimer s) (clock s).
Definition set_timers (v : list Timer) (s : State) : State :=
  mkState (clients s) (senders s) (browserClients s) (screenshotBuffer s)
          (codeBuffer s) v (nextTimer s) (clock s).
Definition set_nextTimer (v : TimerId) (s : State) : State :=
  mkState (clients s) (senders s) (browserClients s) (screenshotBuffer s)
          (codeBuffer s) (timers s) v (clock s).
Definition set_clock (v : Z) (s : State) : State :=
  mkState (clients s) (senders s) (browserClients s) (screenshotBuffer s)
          (codeBuffer s) (timers s) (nextTimer s) v.

(** Reads of the fields of the [ws] object of connection [c]. *)
Definition ws_readyState (s : State) (c : Conn) : option Z :=
  readyState <$> clients s !! c.
Definition is_open (s : State) (c : Conn) : bool :=
  bool_decide (ws_readyState s c = Some OPEN).
Definition ws_isBrowser (s : State) (c : Conn) : bool :=
  default false (_isBrowser <$> clients s !! c).
Definition ws_registerTimer (s : State) (c : Conn) : option TimerId :=
  clients s !! c ≫= _registerTimer.
Definition ws_socket (s : State) (c : Conn) : option Socket :=
  clients s !! c ≫= _socket.

(** Writes to them. *)
Definition write_isBrowser (b : bool) (w : WebSocket) : WebSocket :=
  mkWebSocket (readyState w) b (_registerTimer w) (_socket w).
Definition write_registerTimer (t : option TimerId) (w : WebSocket) : WebSocket :=
  mkWebSocket (readyState w) (_isBrowser w) t (_socket w).
Definition write_transport (rs : Z) (sock : option Socket) (w : WebSocket) : WebSocket :=
  mkWebSocket rs (_isBrowser w) (_registerTimer w) sock.

(** ** Timers *)

(** [setTimeout(task, delay)] called at time [now]. *)
Definition setTimeout (t : Task) (delay : Z) (now : Z) (s : State) : State :=
  set_nextTimer (S (nextTimer s))
    (set_timers (timers s ++ [mkTimer (nextTimer s) (now + delay) t]) s).

Definition clearTimeout (h : TimerId) (s : State) : State :=
  set_timers (filter (λ t : Timer, timer_id t ≠ h) (timers s)) s.

(** The timer the event loop runs next: the earliest due one, the one
    armed first among those due at the same time. *)
Fixpoint next_due (ts : list Timer) : option Timer :=
  match ts with
  | [] => None
  | t :: ts' =>
      match next_due ts' with
      | Some t' => if decide (due t' < due t) then Some t' else Some t
      | None => Some t
      end
  end.

(** ** Sending *)

(** [if (ws.readyState === 1) ws.send(...)]. *)
Definition send_if_open (s : State) (c : Conn) (m : Outbound) : list Send :=
  if is_open s c then [(c, m)] else [].

(** [broadcastToBrowsers(payload)]: the open members of [browserClients],
    in insertion order. *)
Definition broadcastToBrowsers (payload : Outbound) (s : State) : list Send :=
  c ← browserClients s; send_if_open s c payload.

(** ** Sender identities *)

Definition truthy_string (o : option string) : bool :=
  match o with Some a => negb (bool_decide (a = EmptyString)) | None => false end.
Definition truthy_number (o : option Z) : bool :=
  match o with Some p => negb (bool_decide (p = 0)) | None => false end.

(** The address expression of lines 49-51 and 96-98. *)
Definition peer_addr (sock : option Socket) : string :=
  match sock with
  | Some sk =>
      if truthy_string (remoteAddress sk) || truthy_number (remotePort sk)
      then (if truthy_string (remoteAddress sk)
            then default EmptyString (remoteAddress sk) else "unknown")
           +:+ ":" +:+
           (if truthy_number (remotePort sk)
            then pretty (default 0 (remotePort sk)) else "0")
      else "unknown"
  | None => "unknown"
  end.

(** [`sender-${Date.now()}-${Math.random().toString(36).slice(2, 7)}`];
    [rnd] is the random suffix. *)
Definition fresh_id (now : Z) (rnd : string) : string :=
  "sender-" +:+ pretty now +:+ "-" +:+ rnd.

Definition new_sender (s : State) (c : Conn) (now : Z) (rnd : string) : SenderInfo :=
  mkSenderInfo (fresh_id now rnd) (peer_addr (ws_socket s c)).

(** ** The callbacks of the source *)

(** [cleanExpiredBuffers] (lines 22-26), with [Date.now() = now]. *)
Definition cleanExpiredBuffers (now : Z) (s : State) : State :=
  set_codeBuffer
    (filter (λ msg : CodeEntry, now - c_timestamp msg < MESSAGE_TTL_MS) (codeBuffer s))
    (set_screenshotBuffer
       (filter (λ msg : ScreenshotEntry, now - s_timestamp msg < MESSAGE_TTL_MS)
               (screenshotBuffer s))
       s).

(** [if (buffer.length >= MAX_BUFFER_SIZE) buffer.shift(); buffer.push(x)]
    (lines 116-117 and 138-139). *)
Definition push_bounded {A : Type} (x : A) (buffer : list A) : list A :=
  (if decide (MAX_BUFFER_SIZE ≤ length buffer)%nat then tail buffer else buffer)
  ++ [x].

(** The [registerTimer] callback (lines 46-72) of connection [c]. *)
Definition on_registerTimer (c : Conn) (now : Z) (rnd : string) (s : State)
  : State * list Send :=
  if negb (ws_isBrowser s c) && negb (JsMap.has c (senders s)) then
    let info := new_sender s c now rnd in
    let s1 := set_senders (JsMap.set c info (senders s)) s in
    let out1 := broadcastToBrowsers (sender_connected info) s1 in
    let out2 := msg ← codeBuffer s1; send_if_open s1 c (code (c_data msg)) in
    (set_codeBuffer [] s1, out1 ++ out2)
  else (s, []).

(** The ['screenshot'] branch of the message handler (lines 94-120). *)
Definition on_screenshot (c : Conn) (d : Json) (now : Z) (rnd : string) (s : State)
  : State * list Send :=
  let '(s1, out1) :=
    if negb (JsMap.has c (senders s)) then
      let info := new_sender s c now rnd in
      let s1 := set_senders (JsMap.set c info (senders s)) s in
      (s1, broadcastToBrowsers (sender_connected info) s1)
    else (s, []) in
  let senderInfo := JsMap.get c (senders s1) in
  if decide (0 < length (browserClients s1))%nat then
    (s1, out1 ++ broadcastToBrowsers (screenshot (data d) (id <$> senderInfo) None) s1)
  else
    (set_screenshotBuffer
       (push_bounded (mkScreenshotEntry (data d) (id <$> senderInfo) now)
                     (screenshotBuffer s1)) s1,
     out1).

(** The ['code'] branch (lines 123-147). *)
Definition on_code (c : Conn) (m : Frame) (d : Json) (now : Z) (s : State)
  : State * list Send :=
  if decide (0 < length (senders s))%nat then
    (s, '(r, _) ← senders s;
        if bool_decide (r ≠ c) && is_open s r then [(r, relayed (raw m))] else [])
  else
    let s1 := set_codeBuffer (push_bounded (mkCodeEntry (data d) now) (codeBuffer s)) s in
    (s1, send_if_open s1 c no_senders).

(** [if (ws._registerTimer) { clearTimeout(ws._registerTimer);
    ws._registerTimer = null; }] (lines 152-155 and 220-223). *)
Definition cancel_registerTimer (c : Conn) (s : State) : State :=
  match ws_registerTimer s c with
  | Some h =>
      set_clients (alter (write_registerTimer None) c (clients s)) (clearTimeout h s)
  | None => s
  end.

(** [if (senders.has(ws)) { const info = senders.get(ws);
    senders.delete(ws); broadcastToBrowsers({ type:
    'sender_disconnected', ... }); }] (lines 161-166 and 224-229). *)
Definition drop_sender (c : Conn) (s : State) : State * list Send :=
  match JsMap.get c (senders s) with
  | Some info =>
      let s1 := set_senders (JsMap.delete c (senders s)) s in
      (s1, broadcastToBrowsers (sender_disconnected info) s1)
  | None => (s, [])
  end.

(** The ['register_browser'] branch (lines 150-211). *)
Definition on_register_browser (c : Conn) (now : Z) (s : State) : State * list Send :=
  let s1 := set_clients (alter (write_isBrowser true) c (clients s)) s in
  let s2 := cancel_registerTimer c s1 in
  let s3 := set_browserClients (JsSet.add c (browserClients s2)) s2 in
  let s4 := (drop_sender c s3).1 in
  let out1 := (drop_sender c s3).2 in
  let current := JsMap.values (senders s4) in
  if is_open s4 c then
    let out2 := [(c, current_senders current)] in
    if decide (0 < length (screenshotBuffer s4))%nat
    then (setTimeout (flushBuffered c) SETTLE_DELAY_MS now s4, out1 ++ out2)
    else (s4, out1 ++ out2)
  else (s4, out1).

(** The message handler (lines 89-215). *)
Definition on_message (c : Conn) (m : Frame) (now : Z) (rnd : string) (s : State)
  : State * list Send :=
  match parsed m with
  | None => (s, [])
  | Some d =>
      if decide (type d = "screenshot") then on_screenshot c d now rnd s
      else if decide (type d = "code") then on_code c m d now s
      else if decide (type d = "register_browser") then on_register_browser c now s
      else (s, [])
  end.

(** The close handler (lines 218-234). *)
Definition on_close (c : Conn) (s : State) : State * list Send :=
  let s1 := cancel_registerTimer c s in
  let s2 := (drop_sender c s1).1 in
  let out := (drop_sender c s1).2 in
  if JsSet.has c (browserClients s2)
  then (set_browserClients (JsSet.delete c (browserClients s2)) s2, out)
  else (s2, out).

(** The connection handler (lines 40-74): a new [ws] object whose
    [registerTimer] is armed. *)
Definition on_connection (c : Conn) (sock : option Socket) (now : Z) (s : State) : State :=
  let h := nextTimer s in
  let s1 := setTimeout (registerTimer c) REGISTER_DELAY_MS now s in
  set_clients (<[c := mkWebSocket OPEN false (Some h) sock]> (clients s1)) s1.

(** The loop of lines 185-198: one [setTimeout] per entry of the copy,
    [index * 50] ms ahead. *)
Fixpoint schedule_sends (c : Conn) (now : Z) (index : nat)
    (toSend : list ScreenshotEntry) (s : State) : State :=
  match toSend with
  | [] => s
  | msg :: rest =>
      schedule_sends c now (S index) rest
        (setTimeout (sendBuffered c msg) (Z.of_nat index * PACE_MS) now s)
  end.

(** The settle callback (lines 180-205). *)
Definition on_flushBuffered (c : Conn) (now : Z) (s : State) : State :=
  let toSend := screenshotBuffer s in
  let s1 := schedule_sends c now 0 toSend s in
  setTimeout clearBuffer (Z.of_nat (length toSend) * PACE_MS + CLEAR_SLACK_MS) now s1.

(** The paced send (lines 187-197). *)
Definition on_sendBuffered (c : Conn) (msg : ScreenshotEntry) (s : State) : list Send :=
  send_if_open s c (screenshot (s_data msg) (senderId msg) (Some (s_timestamp msg))).

(** The trailing clear (lines 201-204). *)
Definition on_clearBuffer (s : State) : State := set_screenshotBuffer [] s.

(** Running one expired timer. *)
Definition run_task (t : Task) (now : Z) (rnd : string) (s : State) : State * list Send :=
  match t with
  | registerTimer c => on_registerTimer c now rnd s
  | flushBuffered c => (on_flushBuffered c now s, [])
  | sendBuffered c msg => (s, on_sendBuffered c msg s)
  | clearBuffer => (on_clearBuffer s, [])
  | cleanExpired =>
      (setTimeout cleanExpired CLEAN_INTERVAL_MS now (cleanExpiredBuffers now s), [])
  end.

(** ** The event loop *)

(** What the environment can do: open a connection, deliver a frame on
    a connection, start closing one (the transport leaves [OPEN] before
    the close handler runs), close one, or let the next due timer
    expire.  [rnd] is the value [Math.random] yields in the callback.
    The liveness monitor of lines 30-37 only pings and terminates
    connections; a termination reaches the engine as [closing] and
    [close]. *)
Inductive Event :=
  | connection (c : Conn) (sock : option Socket)
  | message (c : Conn) (m : Frame) (rnd : string)
  | closing (c : Conn) (sock : option Socket)
  | close (c : Conn)
  | timeout (rnd : string).

(** One turn of the loop at time [now]; [None] when the event cannot
    happen in this state. *)
Definition step (now : Z) (e : Event) (s : State) : option (State * list Send) :=
  if decide (now < clock s) then None else
  let s := set_clock now s in
  match e with
  | connection c sock =>
      match clients s !! c with
      | None => Some (on_connection c sock now s, [])
      | Some _ => None
      end
  | message c m rnd =>
      match ws_readyState s c with
      | Some rs => if decide (rs = CLOSED) then None else Some (on_message c m now rnd s)
      | None => None
      end
  | closing c sock =>
      if is_open s c
      then Some (set_clients (alter (write_transport CLOSING sock) c (clients s)) s, [])
      else None
  | close c =>
      match clients s !! c with
      | Some w =>
          if decide (readyState w = CLOSED) then None
          else Some (on_close c
                 (set_clients (alter (write_transport CLOSED (_socket w)) c (clients s)) s))
      | None => None
      end
  | timeout rnd =>
      match next_due (timers s) with
      | Some t =>
          if decide (due t ≤ now)
          then Some (run_task (task t) now rnd (clearTimeout (timer_id t) s))
          else None
      | None => None
      end
  end.

(** A run: the events in order, with the frames sent. *)
Fixpoint run (tr : list (Z * Event)) (s : State) : option (State * list Send) :=
  match tr with
  | [] => Some (s, [])
  | (now, e) :: tr' =>
      match step now e s with
      | Some (s1, out1) =>
          match run tr' s1 with
          | Some (s2, out2) => Some (s2, out1 ++ out2)
          | None => None
          end
      | None => None
      end
  end.

(** The state when the server starts at time [t0]: nothing registered,
    and the sweep of line 27 armed. *)
Definition init (t0 : Z) : State :=
  mkState ∅ [] [] [] [] [mkTimer 0 (t0 + CLEAN_INTERVAL_MS) cleanExpired] 1 t0.

Definition reachable (s : State) : Prop :=
  ∃ t0 tr out, run tr (init t0) = Some (s, out).


(** ** Vocabulary of the statements *)

(** The recipients of a relayed command from [c]: the registered senders
    other than [c] whose transport is open, in registry order. *)
Definition relay_targets (s : State) (c : Conn) : list Conn :=
  filter (λ r : Conn, r ≠ c ∧ is_open s r) (JsMap.keys (senders s)).

(** Frames as the peers send them. *)
Definition code_frame (d : Payload) : Frame := mkFrame d (Some (mkJson "code" d)).
Definition screenshot_frame (d : Payload) : Frame :=
  mkFrame d (Some (mkJson "screenshot" d)).
Definition register_frame : Frame :=
  mkFrame "register_browser" (Some (mkJson "register_browser" EmptyString)).

(** [out] delivers no buffered command: it holds no [code] frame. *)
Definition no_code_frames (out : list Send) : Prop :=
  Forall (λ x : Send, ∀ d, x.2 ≠ code d) out.

(** The transport gives no peer address: [ws._socket] is null, or both
    of its address fields are undefined. *)
Definition peer_unavailable (sock : option Socket) : Prop :=
  match sock with
  | Some sk => remoteAddress sk = None ∧ remotePort sk = None
  | None => True
  end.

(** ** Concrete states and runs used as examples *)

Definition peer (a : string) (p : Z) : option Socket := Some (mkSocket (Some a) (Some p)).

(** Connection 2 is a registered browser, connection 3 has just
    connected without a peer address, and two commands are buffered. *)
Definition waiting_commands : State :=
  mkState (<[2%nat := mkWebSocket OPEN true None (peer "10.0.0.2" 4000)]>
             (<[3%nat := mkWebSocket OPEN false (Some 7%nat) None]> ∅))
          [] [2%nat] []
          [mkCodeEntry "ls" 100; mkCodeEntry "pwd" 150]
          [mkTimer 7 1000 (registerTimer 3)] 8 200.

(** Connection 1 was classified as a sender by its timer and now
    registers as a browser; connection 4 is a sender, connection 2 a
    browser. *)
Definition late_browser : State :=
  mkState (<[1%nat := mkWebSocket OPEN false (Some 3%nat) (peer "10.0.0.1" 5000)]>
             (<[2%nat := mkWebSocket OPEN true None (peer "10.0.0.2" 4000)]>
                (<[4%nat := mkWebSocket OPEN false (Some 5%nat) (peer "10.0.0.4" 6000)]> ∅)))
          [(1%nat, mkSenderInfo "sender-900-aaaaa" "10.0.0.1:5000");
           (4%nat, mkSenderInfo "sender-950-bbbbb" "10.0.0.4:6000")]
          [2%nat] [] []
          [mkTimer 3 900 (registerTimer 1); mkTimer 5 1700 (registerTimer 4)] 6 1000.

(** What a buffer entry records of a payload: its data and the time it
    arrived. *)
Definition stored (e : ScreenshotEntry) : Payload * Z := (s_data e, s_timestamp e).

(** The producer payload an event brings while nobody watches: the data
    and arrival time of a ['screenshot'] frame that finds
    [browserClients] empty. *)
Definition unwatched_payload (now : Z) (e : Event) (s : State) : list (Payload * Z) :=
  match e with
  | message _ m _ =>
      match parsed m with
      | Some d =>
          if decide (type d = "screenshot") then
            if decide (browserClients s = []) then [(data d, now)] else []
          else []
      | None => []
      end
  | _ => []
  end.

(** Those of a run from [s], in arrival order. *)
Fixpoint unwatched_payloads (tr : list (Z * Event)) (s : State) : list (Payload * Z) :=
  match tr with
  | [] => []
  | (now, e) :: tr' =>
      unwatched_payload now e s
      ++ match step now e s with
         | Some (s1, _) => unwatched_payloads tr' s1
         | None => []
         end
  end.

(** The event lets the trailing clear of a paced flush (lines 201-204)
    run. *)
Definition runs_clear (e : Event) (s : State) : bool :=
  match e with
  | timeout _ =>
      match next_due (timers s) with
      | Some t => bool_decide (task t = clearBuffer)
      | None => false
      end
  | _ => false
  end.

(** No trailing clear runs in the run from [s]. *)
Fixpoint clear_free (tr : list (Z * Event)) (s : State) : bool :=
  match tr with
  | [] => true
  | (now, e) :: tr' =>
      negb (runs_clear e s)
      && match step now e s with
         | Some (s1, _) => clear_free tr' s1
         | None => true
         end
  end.

(** The entries of [l] pushed one after the other on the buffer [b]. *)
Definition pushes (l b : list ScreenshotEntry) : list ScreenshotEntry :=
  foldl (λ b e, push_bounded e b) b l.

(** The state and the frames sent at the end of a run from [s]. *)
Definition run_state (tr : list (Z * Event)) (s : State) : option State :=
  fst <$> run tr s.
Definition run_sends (tr : list (Z * Event)) (s : State) : option (list Send) :=
  snd <$> run tr s.

(** A connection registers as a browser and then sends a producer
    payload. *)
Definition browser_then_payload : list (Z * Event) :=
  [(10, connection 1 (peer "10.0.0.1" 5000));
   (20, message 1 register_frame "r");
   (30, message 1 (screenshot_frame "img") "abcde")].

(** The same with a second browser watching, and the cancelled timer's
    original due time passing. *)
Definition watched_browser_then_payload : list (Z * Event) :=
  [(10, connection 1 (peer "10.0.0.1" 5000));
   (20, connection 2 (peer "10.0.0.2" 4000));
   (30, message 2 register_frame "r");
   (40, message 1 register_frame "r");
   (900, message 1 (screenshot_frame "img") "abcde")].

(** The periodic sweep expiring on time [n] times, the first time at
    [first]. *)
Definition sweeps (first : Z) (n : nat) : list (Z * Event) :=
  (λ k : nat, (first + CLEAN_INTERVAL_MS * Z.of_nat k, timeout EmptyString)) <$> seq 0 n.

(** A command and a payload are buffered just after the first sweep;
    nobody picks them up for three hours, the sweep running every ten
    minutes.  Then connection 3 opens and says nothing, and connection 4
    registers as a browser. *)
Definition stale_setup : list (Z * Event) :=
  [(600000, timeout EmptyString);
   (600001, connection 1 (peer "10.0.0.1" 5000));
   (600002, message 1 (code_frame "ls") "r");
   (600003, close 1);
   (600004, connection 2 (peer "10.0.0.2" 4000));
   (600005, message 2 (screenshot_frame "img") "abcde");
   (600804, timeout "x")]
  ++ sweeps 1200000 18
  ++ [(11400010, connection 3 (peer "10.0.0.3" 3000));
      (11400020, connection 4 (peer "10.0.0.4" 6000));
      (11400030, message 4 register_frame "r")].

(** The settle timer of connection 4, its one paced send, the trailing
    clear and the [registerTimer] of connection 3 expire, all before the
    next sweep is due at 12000000. *)
Definition stale_flushes : list (Z * Event) :=
  [(11400230, timeout EmptyString);
   (11400230, timeout EmptyString);
   (11400380, timeout EmptyString);
   (11400810, timeout "fghij")].

(** Connection 1 buffers a payload; browser 2 registers; browser 3
    registers 260 ms later, while the payload is still in the buffer and
    the flush to 2 is under way; then every timer runs on time. *)
Definition two_browsers_setup : list (Z * Event) :=
  [(10, connection 1 (peer "10.0.0.1" 5000));
   (20, message 1 (screenshot_frame "img1") "abcde");
   (30, connection 2 (peer "10.0.0.2" 4000));
   (40, message 2 register_frame "r");
   (100, connection 3 (peer "10.0.0.3" 3000));
   (240, timeout EmptyString);
   (240, timeout EmptyString)].

Definition two_browsers_rest : list (Z * Event) :=
  [(300, message 3 register_frame "r");
   (390, timeout EmptyString);
   (500, timeout EmptyString);
   (600, timeout EmptyString);
   (810, timeout "x")].

(** Sender 1 buffers a payload; browser 2 registers and is gone 10 ms
    later, so that its settle timer and its trailing clear still run.
    Two more payloads arrive, one before the clear and one after it. *)
Definition cleared_between_payloads : list (Z * Event) :=
  [(10, connection 1 (peer "10.0.0.1" 5000));
   (20, message 1 (screenshot_frame "p1") "abcde");
   (30, connection 2 (peer "10.0.0.2" 4000));
   (40, message 2 register_frame "r");
   (50, close 2);
   (240, timeout EmptyString);
   (240, timeout EmptyString);
   (300, message 1 (screenshot_frame "p2") "abcde");
   (390, timeout EmptyString);
   (400, message 1 (screenshot_frame "p3") "abcde")].

(** Sender 1 buffers a payload and nobody comes for three hours, the
    sweep running every ten minutes; the sweep at 11400000 is the first
    to find the payload expired.  Then a second payload arrives.  No
    browser ever registers, so no trailing clear is ever armed. *)
Definition swept_between_payloads : list (Z * Event) :=
  [(10, connection 1 (peer "10.0.0.1" 5000));
   (20, message 1 (screenshot_frame "p1") "abcde");
   (810, timeout "x")]
  ++ sweeps 600000 19
  ++ [(11400010, message 1 (screenshot_frame "p2") "abcde")].

(** Sender 1 is closing when browser 2 sends a command. *)
Definition command_to_closing_sender : list (Z * Event) :=
  [(10, connection 1 (peer "10.0.0.1" 5000));
   (20, message 1 (screenshot_frame "img") "abcde");
   (30, connection 2 (peer "10.0.0.2" 4000));
   (40, message 2 register_frame "r");
   (50, closing 1 (peer "10.0.0.1" 5000));
   (60, message 2 (code_frame "ls") "r")].

(** Connection 2 is closing when its command arrives, and there is no
    sender. *)
Definition command_from_closing_origin : list (Z * Event) :=
  [(30, connection 2 (peer "10.0.0.2" 4000));
   (50, closing 2 (peer "10.0.0.2" 4000));
   (60, message 2 (code_frame "ls") "r")].

(** Browser 1 buffers a command; connection 3 opens and starts closing
    before its [registerTimer] expires at 900. *)
Definition timer_on_closing_connection : list (Z * Event) :=
  [(10, connection 1 (peer "10.0.0.1" 5000));
   (15, message 1 register_frame "r");
   (20, message 1 (code_frame "ls") "r");
   (100, connection 3 (peer "10.0.0.3" 3000));
   (200, closing 3 (peer "10.0.0.3" 3000));
   (900, timeout "fghij")].

(** Connection 1 is closing when its registration arrives. *)
Definition registration_while_closing : list (Z * Event) :=
  [(10, connection 1 (peer "10.0.0.1" 5000));
   (20, closing 1 (peer "10.0.0.1" 5000));
   (30, message 1 register_frame "r")].

(** Senders 1, 4 and 5 are registered, 5 is closing; browser 2
    watches. *)
Definition mixed_senders : State :=
  mkState (<[1%nat := mkWebSocket OPEN false (Some 1%nat) (peer "10.0.0.1" 5000)]>
             (<[2%nat := mkWebSocket OPEN true None (peer "10.0.0.2" 4000)]>
                (<[4%nat := mkWebSocket OPEN false (Some 3%nat) (peer "10.0.0.4" 6000)]>
                   (<[5%nat := mkWebSocket CLOSING false (Some 4%nat)
                                           (peer "10.0.0.5" 7000)]> ∅))))
          [(1%nat, mkSenderInfo "sender-810-aaaaa" "10.0.0.1:5000");
           (4%nat, mkSenderInfo "sender-950-bbbbb" "10.0.0.4:6000");
           (5%nat, mkSenderInfo "sender-990-ccccc" "10.0.0.5:7000")]
          [2%nat] [] []
          [mkTimer 0 600000 cleanExpired] 5 1000.

(** The timers a paced flush to [c] arms at time [now], given the
    entries [buf] it copies and the first free timer handle: one send per
    entry, the [i]-th one [i * 50] ms ahead, then the clear. *)
Definition paced_timers (c : Conn) (now : Z) (first : TimerId)
    (buf : list ScreenshotEntry) : list Timer :=
  imap (λ (i : nat) (p : ScreenshotEntry),
          mkTimer (first + i) (now + Z.of_nat i * 50) (sendBuffered c p)) buf
  ++ [mkTimer (first + length buf) (now + Z.of_nat (length buf) * 50 + 100) clearBuffer].

(** Browser 2 registers while two payloads are buffered. *)
Definition two_buffered : State :=
  mkState (<[1%nat := mkWebSocket OPEN false (Some 1%nat) (peer "10.0.0.1" 5000)]>
             (<[2%nat := mkWebSocket OPEN false (Some 2%nat) (peer "10.0.0.2" 4000)]> ∅))
          [(1%nat, mkSenderInfo "sender-20-abcde" "10.0.0.1:5000")]
          [] 
          [mkScreenshotEntry "img1" (Some "sender-20-abcde") 20;
           mkScreenshotEntry "img2" (Some "sender-20-abcde") 25]
          []
          [mkTimer 1 810 (registerTimer 1); mkTimer 2 830 (registerTimer 2)] 3 30.

(** Both buffers hold only entries younger than the TTL at time [T]. *)
Definition fresh_at (T : Z) (s : State) : Prop :=
  Forall (λ e : ScreenshotEntry, T - s_timestamp e < MESSAGE_TTL_MS) (screenshotBuffer s) ∧
  Forall (λ e : CodeEntry, T - c_timestamp e < MESSAGE_TTL_MS) (codeBuffer s).

(** A command and a payload wait in the buffers, both older than three
    hours when the sweep is due at 12000000, with a command buffered a
    second before it; connection 3 has just connected. *)
Definition before_sweep : State :=
  mkState (<[3%nat := mkWebSocket OPEN false (Some 22%nat) (peer "10.0.0.3" 3000)]> ∅)
          [] []
          [mkScreenshotEntry "img" (Some "sender-600005-abcde") 600005]
          [mkCodeEntry "ls" 600002; mkCodeEntry "pwd" 11999000]
          [mkTimer 21 12000000 cleanExpired; mkTimer 22 12000700 (registerTimer 3)]
          23 11999900.

(** The events on which the source touches [senders] or
    [browserClients]: the two classifying frames, the expiry of a
    [registerTimer], and a close. *)
Definition classifies_or_closes (e : Event) (s : State) : Prop :=
  match e with
  | message _ m _ =>
      ∃ d, parsed m = Some d ∧ (type d = "screenshot" ∨ type d = "register_browser")
  | close _ => True
  | timeout _ => ∃ t c, next_due (timers s) = Some t ∧ task t = registerTimer c
  | connection _ _ | closing _ _ => False
  end.

(** ** The liveness monitor (lines 30-37 and 42-43)

    [isAlive] is one more field of the [ws] objects; the monitor reads
    and writes nothing else, so the field is kept in a store of its own,
    keyed by connection.  [wss.clients] is a JS [Set]: a list without
    repetitions, in insertion order. *)

Module Liveness.

(** What the interval callback asks of the transport. *)
Inductive Probe :=
  | terminate (ws : nat)
  | ping (ws : nat).

#[global] Instance Probe_eq_dec : EqDecision Probe.
Proof. solve_decision. Defined.

(** [ws.isAlive = true] of the connection handler (line 42). *)
Definition connected (ws : nat) (isAlive : gmap nat bool) : gmap nat bool :=
  <[ws := true]> isAlive.

(** [heartbeat], the ['pong'] handler (line 30). *)
Definition heartbeat (ws : nat) (isAlive : gmap nat bool) : gmap nat bool :=
  <[ws := true]> isAlive.

(** The body of the [forEach] of lines 32-36 for one client. *)
Definition probe (ws : nat) (isAlive : gmap nat bool) : gmap nat bool * list Probe :=
  if decide (isAlive !! ws = Some false) then (isAlive, [terminate ws])
  else (<[ws := false]> isAlive, [ping ws]).

(** The interval callback (lines 31-37) over [wss.clients]. *)
Fixpoint sweep (clients : list nat) (isAlive : gmap nat bool)
  : gmap nat bool * list Probe :=
  match clients with
  | [] => (isAlive, [])
  | ws :: rest =>
      let '(a1, out1) := probe ws isAlive in
      let '(a2, out2) := sweep rest a1 in
      (a2, out1 ++ out2)
  end.

End Liveness.

(** ** Vocabulary of the further statements *)

(** A frame the message handler has no branch for: one that does not
    parse, or one whose [type] is none of the three it knows. *)
Definition ignored_frame (m : Frame) : Prop :=
  match parsed m with
  | None => True
  | Some d => type d ≠ "screenshot" ∧ type d ≠ "code" ∧ type d ≠ "register_browser"
  end.

(** A run in which peers send only such frames. *)
Definition only_ignored_frames (tr : list (Z * Event)) : Prop :=
  Forall (λ e : Z * Event,
            match e.2 with
            | message _ m _ => ignored_frame m
            | _ => False
            end) tr.

(** The engine state apart from the clock. *)
Definition same_engine (s s' : State) : Prop :=
  clients s' = clients s ∧ senders s' = senders s ∧
  browserClients s' = browserClients s ∧
  screenshotBuffer s' = screenshotBuffer s ∧ codeBuffer s' = codeBuffer s ∧
  timers s' = timers s ∧ nextTimer s' = nextTimer s.

(** [out] announces no sender: it holds no [sender_connected] frame. *)
Definition no_sender_connected (out : list Send) : Prop :=
  Forall (λ x : Send, ∀ info, x.2 ≠ sender_connected info) out.

(** [out] forwards no payload: it holds no [screenshot] frame. *)
Definition no_screenshot_frames (out : list Send) : Prop :=
  Forall (λ x : Send, ∀ d sid ts, x.2 ≠ screenshot d sid ts) out.

(** ** Further concrete states *)

(** Clients 1, 2 and 3 of the monitor; 2 has not answered its last
    ping. *)
Definition three_clients : list nat := [1%nat; 2%nat; 3%nat].
Definition flags_after_silence : gmap nat bool :=
  <[1%nat := true]> (<[2%nat := false]> (<[3%nat := true]> ∅)).

(** Sender 1 is registered and browsers 2 and 3 are watching; 3 is
    closing. *)
Definition watched_sender : State :=
  mkState (<[1%nat := mkWebSocket OPEN false (Some 1%nat) (peer "10.0.0.1" 5000)]>
             (<[2%nat := mkWebSocket OPEN true None (peer "10.0.0.2" 4000)]>
                (<[3%nat := mkWebSocket CLOSING true None (peer "10.0.0.3" 3000)]> ∅)))
          [(1%nat, mkSenderInfo "sender-20-abcde" "10.0.0.1:5000")]
          [2%nat; 3%nat] [] []
          [mkTimer 0 600000 cleanExpired; mkTimer 1 810 (registerTimer 1)] 4 100.

(** Frames the handler has no branch for. *)
Definition garbage_frame : Frame := mkFrame "{not json" None.
Definition hello_frame : Frame := mkFrame "hello" (Some (mkJson "hello" "x")).

(** Nobody is connected but connection 5, which has just opened; the
    command buffer holds one entry. *)
Definition idle_with_command : State :=
  mkState (<[5%nat := mkWebSocket OPEN false (Some 1%nat) (peer "10.0.0.5" 5500)]>
             (<[6%nat := mkWebSocket OPEN true None (peer "10.0.0.6" 6600)]> ∅))
          [] [6%nat] [] [mkCodeEntry "ls" 40]
          [mkTimer 0 600000 cleanExpired; mkTimer 1 850 (registerTimer 5)] 2 60.

(** ** Events seen from one connection *)

(** An event of connection [c] itself: a frame from it, or its close. *)
Definition concerns (c : Conn) (e : Event) : bool :=
  match e with
  | message c' _ _ | close c' => bool_decide (c' = c)
  | _ => false
  end.

(** An event that takes [c] out of the sender registry: its close, or a
    [register_browser] frame from it. *)
Definition retires (c : Conn) (e : Event) : bool :=
  match e with
  | close c' => bool_decide (c' = c)
  | message c' m _ =>
      bool_decide (c' = c)
      && match parsed m with
         | Some d => bool_decide (type d = "register_browser")
         | None => false
         end
  | _ => false
  end.

(** Connection [c] is still unclassified and waits for its
    [registerTimer] [T]. *)
Definition awaiting (c : Conn) (T : Timer) (s : State) : Prop :=
  (c ∉ JsMap.keys (senders s)) ∧ (c ∉ browserClients s) ∧
  ws_isBrowser s c = false ∧
  ws_registerTimer s c = Some (timer_id T) ∧
  T ∈ timers s ∧ task T = registerTimer c.

(** ** Invariants of the engine *)

(** Both buffers are within [MAX_BUFFER_SIZE]. *)
Definition buffers_bounded (s : State) : Prop :=
  (length (screenshotBuffer s) ≤ MAX_BUFFER_SIZE)%nat ∧
  (length (codeBuffer s) ≤ MAX_BUFFER_SIZE)%nat.

(** The registries hold no connection twice, hold only connections the
    server has a [ws] object for, and every member of [browserClients]
    carries the [_isBrowser] flag. *)
Definition registry_wf (s : State) : Prop :=
  NoDup (JsMap.keys (senders s)) ∧
  NoDup (browserClients s) ∧
  (∀ c, c ∈ JsMap.keys (senders s) → is_Some (clients s !! c)) ∧
  (∀ c, c ∈ browserClients s → ws_isBrowser s c = true).

(** Timer handles are used once; a handle kept in [ws._registerTimer]
    names, if anything, the [registerTimer] of that connection, and a
    pending [registerTimer] is the one its connection keeps the handle
    of.  [handle] reads the [_registerTimer] field, [ts] is the timer
    queue and [next] the next free handle. *)
Definition timer_handles_wf (handle : nat → option nat) (ts : list Timer) (next : nat)
  : Prop :=
  NoDup (timer_id <$> ts) ∧
  (∀ t, t ∈ ts → (timer_id t < next)%nat) ∧
  (∀ c h, handle c = Some h →
     (h < next)%nat ∧ ∀ t, t ∈ ts → timer_id t = h → task t = registerTimer c) ∧
  (∀ t c, t ∈ ts → task t = registerTimer c → handle c = Some (timer_id t)).

Definition timers_wf (s : State) : Prop :=
  timer_handles_wf (ws_registerTimer s) (timers s) (nextTimer s).

(** A closed connection has left the registries and has no
    classification timer, kept or pending. *)
Definition closed_gone (s : State) : Prop :=
  ∀ c, ws_readyState s c = Some CLOSED →
    (c ∉ JsMap.keys (senders s)) ∧ (c ∉ browserClients s) ∧
    ws_registerTimer s c = None ∧
    ∀ t, t ∈ timers s → task t ≠ registerTimer c.

(** The pending expirations of the periodic sweep. *)
Definition pending_sweeps (s : State) : list Timer :=
  filter (λ t : Timer, task t = cleanExpired) (timers s).

(** A producer that keeps sending while nobody watches: connection 1
    opens and sends [n] payloads, one per millisecond. *)
Definition flood (n : nat) : list (Z * Event) :=
  (10, connection 1 (peer "10.0.0.1" 5000))
  :: ((λ i : nat, (20 + Z.of_nat i, message 1 (screenshot_frame (pretty i)) "abcde"))
        <$> seq 0 n).

(** The same producer sending 103 payloads; then its [registerTimer]
    and the first sweep expire. *)
Definition flood_then_sweep : list (Z * Event) :=
  flood 103 ++ [(810, timeout "x"); (600000, timeout EmptyString)].

(** The state a run from server start ends in (the start state when
    the run cannot happen). *)
Definition state_after (tr : list (Z * Event)) : State :=
  default (init 0) (run_state tr (init 0)).

(** A run with every kind of event: a sender and a browser come, the
    browser's paced flush runs, a second connection is classified by its
    timer, the first sweep expires, and both the sender and a connection
    that never spoke close. *)
Definition busy_day : list (Z * Event) :=
  [(10, connection 1 (peer "10.0.0.1" 5000));
   (20, message 1 (screenshot_frame "img1") "abcde");
   (30, connection 2 (peer "10.0.0.2" 4000));
   (40, message 2 register_frame "r");
   (50, message 2 (code_frame "ls") "r");
   (100, connection 3 None);
   (240, timeout EmptyString);
   (240, timeout EmptyString);
   (390, timeout EmptyString);
   (810, timeout "x");
   (900, timeout "fghij");
   (950, connection 4 (peer "10.0.0.4" 6000));
   (960, closing 4 None);
   (970, close 4);
   (980, close 1);
   (600000, timeout EmptyString)].

(** Connection 9 comes after the busy day and says nothing while
    connection 10 comes and sends a payload; 9 starts closing 300 ms
    after it came. *)
Definition short_visit : list (Z * Event) :=
  [(700000, connection 9 None);
   (700100, connection 10 (peer "10.0.0.10" 1000));
   (700200, message 10 (screenshot_frame "img") "abcde");
   (700300, closing 9 None)].

(** The run of [watched_browser_then_payload], in which the payload of
    connection 1 makes it a sender; then connection 3 comes and sends a
    command, and connection 1 closes. *)
Definition sender_visit : list (Z * Event) :=
  watched_browser_then_payload
  ++ [(950, connection 3 (peer "10.0.0.3" 3000));
      (960, message 3 (code_frame "ls") "r");
      (1000, close 1)].

(** Every frame of [out] is addressed to a connection that is open in
    [s]. *)
Definition sent_to_open (s : State) (out : list Send) : Prop :=
  Forall (λ x : Send, is_open s x.1 = true) out.
(** * Properties *)

(** ** Lists as [Map] and [Set] *)

Section registry_facts.
Context {V : Type}.
Implicit Types (m : list (Conn * V)) (k : Conn) (v : V).

Lemma has_false_keys k m : JsMap.has k m = false ↔ k ∉ JsMap.keys m.
Proof. unfold JsMap.has, JsMap.keys. by rewrite bool_decide_eq_false. Qed.

Lemma get_None_keys k m : JsMap.get k m = None ↔ k ∉ JsMap.keys m.
Proof.
  unfold JsMap.keys. induction m as [|[k' v] m IH]; simpl.
  - split; [intros _; apply not_elem_of_nil | done].
  - case_decide as Hk; subst.
    + split; [done | intros []; left].
    + rewrite IH, not_elem_of_cons. naive_solver.
Qed.

Lemma set_fresh k v m : JsMap.has k m = false → JsMap.set k v m = m ++ [(k, v)].
Proof. unfold JsMap.set. by intros ->. Qed.

Lemma delete_absent k m : k ∉ JsMap.keys m → JsMap.delete k m = m.
Proof.
  unfold JsMap.delete, JsMap.keys. induction m as [|[k' v] m IH]; simpl; [done|].
  intros [Hne Hn]%not_elem_of_cons.
  rewrite filter_cons_True by (simpl; congruence). by rewrite IH.
Qed.

Lemma keys_delete k k' m : k' ∈ JsMap.keys (JsMap.delete k m) ↔ k' ≠ k ∧ k' ∈ JsMap.keys m.
Proof.
  unfold JsMap.delete, JsMap.keys. rewrite !list_elem_of_fmap. split.
  - intros [[a b] [-> [Hne Hin]%list_elem_of_filter]]. simpl in *. split; [done|].
    by exists (a, b).
  - intros [Hne [[a b] [-> Hin]]]. exists (a, b). split; [done|].
    by apply list_elem_of_filter.
Qed.
End registry_facts.

Lemma set_add_elem (k k' : Conn) (l : list Conn) :
  k' ∈ JsSet.add k l ↔ k' = k ∨ k' ∈ l.
Proof.
  unfold JsSet.add, JsSet.has. case_bool_decide as Hk.
  - naive_solver.
  - rewrite elem_of_app, list_elem_of_singleton. naive_solver.
Qed.

Lemma filter_all {A : Type} (P : A → Prop) `{!∀ x, Decision (P x)} (l : list A) :
  (∀ x, x ∈ l → P x) → filter P l = l.
Proof.
  induction l as [|x l IH]; [done|]. intros Hall.
  rewrite filter_cons_True by (apply Hall; left). rewrite IH; [done|].
  intros y Hy. apply Hall. by right.
Qed.

(** ** Reads of [ws] fields after a write *)

Lemma readyState_alter (f : WebSocket → WebSocket) (c c' : Conn) (s s0 : State) :
  (∀ w, readyState (f w) = readyState w) →
  ws_readyState (set_clients (alter f c (clients s)) s0) c' = ws_readyState s c'.
Proof.
  intros Hf. unfold ws_readyState. simpl. rewrite lookup_alter.
  case_decide; subst; [|done].
  destruct (clients s !! c') as [w|]; simpl; [by rewrite Hf | done].
Qed.

Lemma is_open_alter (f : WebSocket → WebSocket) (c c' : Conn) (s s0 : State) :
  (∀ w, readyState (f w) = readyState w) →
  is_open (set_clients (alter f c (clients s)) s0) c' = is_open s c'.
Proof. intros Hf. unfold is_open. by rewrite readyState_alter. Qed.

Lemma is_open_same_clients (s s' : State) (c : Conn) :
  clients s' = clients s → is_open s' c = is_open s c.
Proof. unfold is_open, ws_readyState. by intros ->. Qed.

(** A guarded send per element is a map over the open elements. *)
Lemma bind_send_if_open {A : Type} (s : State) (f : A → Conn) (g : A → Outbound)
    (l : list A) :
  (x ← l; send_if_open s (f x) (g x))
  = (λ x, (f x, g x)) <$> filter (λ x, is_open s (f x)) l.
Proof.
  induction l as [|x l IH]; [done|]. rewrite bind_cons, IH. unfold send_if_open.
  destruct (is_open s (f x)) eqn:Ho.
  - rewrite filter_cons_True; [reflexivity | by apply Is_true_true].
  - rewrite filter_cons_False; [reflexivity | by apply Is_true_false].
Qed.

Lemma broadcast_spec (payload : Outbound) (s : State) :
  broadcastToBrowsers payload s
  = (λ b, (b, payload)) <$> filter (λ b, is_open s b) (browserClients s).
Proof. unfold broadcastToBrowsers. apply (bind_send_if_open s (λ b, b) (λ _, payload)). Qed.

(** ** Consumer commands *)

Lemma relay_fanout (s : State) (c : Conn) (text : string) (l : list (Conn * SenderInfo)) :
  ('(r, _) ← l;
     if bool_decide (r ≠ c) && is_open s r then [(r, relayed text)] else [])
  = (λ r, (r, relayed text)) <$> filter (λ r : Conn, r ≠ c ∧ is_open s r) (JsMap.keys l).
Proof.
  unfold JsMap.keys. induction l as [|[r info] l IH]; [done|].
  rewrite bind_cons, IH, fmap_cons. simpl.
  case_bool_decide as Hr; simpl.
  - destruct (is_open s r) eqn:Ho.
    + rewrite filter_cons_True; [reflexivity|]. split; [done | by apply Is_true_true].
    + rewrite filter_cons_False; [reflexivity|]. intros [_ H]. by apply Is_true_false in Ho.
  - rewrite filter_cons_False; [reflexivity|]. intros [H _]. done.
Qed.

Lemma on_message_code (c : Conn) (m : Frame) (d : Json) (now : Z) (rnd : string) (s : State) :
  parsed m = Some d → type d = "code" →
  on_message c m now rnd s = on_code c m d now s.
Proof. intros Hp Ht. unfold on_message. rewrite Hp, Ht. reflexivity. Qed.

(** C4, amended.  A ['code'] frame from [c].  When the sender registry
    is not empty, the frame's text is sent once to every registered
    sender other than [c] whose transport is open (the guard of line
    129), in registry order, and to no other; nothing goes to [c] even
    when it is a registered sender, and the state, both buffers
    included, is left as it was.  When the registry is empty, one entry
    holding the command's data is appended to [codeBuffer] (after the
    oldest one is dropped from a full buffer), and the frames sent are
    one [no_senders] reply to [c] when [c] is open (the guard of line
    142) and none when it is not. *)
Theorem code_command_fanout_or_buffer
    (c : Conn) (m : Frame) (d : Json) (now : Z) (rnd : string) (s : State) :
  parsed m = Some d → type d = "code" →
  (senders s ≠ [] →
     (on_message c m now rnd s).1 = s ∧
     (on_message c m now rnd s).2
       = (λ r, (r, relayed (raw m))) <$> relay_targets s c ∧
     (∀ r, r ∈ relay_targets s c ↔ r ∈ JsMap.keys (senders s) ∧ r ≠ c ∧ is_open s r) ∧
     ∀ x, x ∈ (on_message c m now rnd s).2 → x.1 ≠ c ∧ x.2 ≠ no_senders) ∧
  (senders s = [] →
     codeBuffer (on_message c m now rnd s).1
       = (if decide (100 ≤ length (codeBuffer s))%nat
          then tail (codeBuffer s) else codeBuffer s) ++ [mkCodeEntry (data d) now] ∧
     senders (on_message c m now rnd s).1 = [] ∧
     browserClients (on_message c m now rnd s).1 = browserClients s ∧
     screenshotBuffer (on_message c m now rnd s).1 = screenshotBuffer s ∧
     (on_message c m now rnd s).2 = (if is_open s c then [(c, no_senders)] else [])).
Proof.
  intros Hp Ht. rewrite (on_message_code _ _ _ _ _ _ Hp Ht). unfold on_code. split.
  - intros Hne. rewrite decide_True by (destruct (senders s); simpl; [done | lia]).
    simpl. rewrite relay_fanout. fold (relay_targets s c).
    split; [done|]. split; [done|]. split.
    + intros r. unfold relay_targets. rewrite list_elem_of_filter, Is_true_true. tauto.
    + intros [r o] [r' [[= -> ->] Hin]]%list_elem_of_fmap. simpl.
      unfold relay_targets in Hin. apply list_elem_of_filter in Hin as [[Hr _] _].
      split; [done | discriminate].
  - intros He. rewrite He. simpl. by repeat split.
Qed.

Lemma code_command_fanout_or_buffer_witness :
  (on_message 1 (code_frame "ls") 1000 "r" mixed_senders).2 = [(4%nat, relayed "ls")] ∧
  (on_message 1 (code_frame "ls") 1000 "r" mixed_senders).1 = mixed_senders ∧
  (on_message 2 (code_frame "ls") 50 "r"
     (mkState (<[2%nat := mkWebSocket OPEN true None None]> ∅)
              [] [2%nat] [] [] [] 0 0)).2 = [(2%nat, no_senders)].
Proof.
  split; [|split].
  - destruct (code_command_fanout_or_buffer 1 (code_frame "ls") (mkJson "code" "ls")
                1000 "r" mixed_senders) as [H _]; [reflexivity | reflexivity |].
    destruct H as (_ & H & _); [discriminate|]. exact H.
  - destruct (code_command_fanout_or_buffer 1 (code_frame "ls") (mkJson "code" "ls")
                1000 "r" mixed_senders) as [H _]; [reflexivity | reflexivity |].
    destruct H as (H & _); [discriminate|]. exact H.
  - apply (code_command_fanout_or_buffer 2 (code_frame "ls") (mkJson "code" "ls"));
      reflexivity.
Defined.

(** C9.  When the origin of a ['code'] frame is the only entry of the
    sender registry, nothing is sent (neither a relay nor a [no_senders]
    reply) and the state, the command buffer included, is unchanged. *)
Theorem code_command_from_sole_sender_dropped
    (c : Conn) (m : Frame) (d : Json) (now : Z) (rnd : string) (s : State) :
  parsed m = Some d → type d = "code" →
  JsMap.keys (senders s) = [c] →
  (on_message c m now rnd s).2 = [] ∧
  (on_message c m now rnd s).1 = s ∧
  codeBuffer (on_message c m now rnd s).1 = codeBuffer s.
Proof.
  intros Hp Ht Hk. rewrite (on_message_code _ _ _ _ _ _ Hp Ht). unfold on_code.
  destruct (senders s) as [|[r info] l] eqn:Hs; [done|].
  destruct l; [|done]. simpl in Hk. injection Hk as ->.
  rewrite decide_True by (simpl; lia). simpl.
  rewrite bool_decide_false by (intros H; by apply H). done.
Qed.

Lemma code_command_from_sole_sender_dropped_witness :
  let s := mkState (<[1%nat := mkWebSocket OPEN false None None]> ∅)
                   [(1%nat, mkSenderInfo "sender-5-abcde" "unknown")] [] [] [] [] 0 0 in
  (on_message 1 (code_frame "ls") 50 "r" s).2 = [] ∧
  (on_message 1 (code_frame "ls") 50 "r" s).1 = s ∧
  codeBuffer (on_message 1 (code_frame "ls") 50 "r" s).1 = codeBuffer s.
Proof.
  apply (code_command_from_sole_sender_dropped 1 (code_frame "ls") (mkJson "code" "ls"));
    reflexivity.
Defined.

(** ** Frames a callback can send *)

Lemma send_if_open_frames (P : Outbound → Prop) (s : State) (c : Conn) (m : Outbound) :
  P m → Forall (λ x : Send, P x.2) (send_if_open s c m).
Proof.
  intros Hm. unfold send_if_open. destruct (is_open s c); [|constructor].
  by repeat constructor.
Qed.

Lemma broadcast_frames (P : Outbound → Prop) (payload : Outbound) (s : State) :
  P payload → Forall (λ x : Send, P x.2) (broadcastToBrowsers payload s).
Proof.
  intros Hp. rewrite broadcast_spec, Forall_fmap. apply Forall_forall. by intros.
Qed.

Lemma on_screenshot_no_code (c : Conn) (d : Json) (now : Z) (rnd : string) (s : State) :
  no_code_frames (on_screenshot c d now rnd s).2.
Proof.
  unfold no_code_frames, on_screenshot.
  destruct (negb (JsMap.has c (senders s))); simpl;
    case_decide; simpl;
    repeat first [ apply Forall_app_2 | apply Forall_nil_2
                 | apply (broadcast_frames (λ o, ∀ d, o ≠ code d)); discriminate ].
Qed.

Lemma on_code_no_code (c : Conn) (m : Frame) (d : Json) (now : Z) (s : State) :
  no_code_frames (on_code c m d now s).2.
Proof.
  unfold no_code_frames, on_code. case_decide; simpl.
  - rewrite relay_fanout, Forall_fmap. apply Forall_forall. intros; simpl. discriminate.
  - apply (send_if_open_frames (λ o, ∀ d, o ≠ code d)). discriminate.
Qed.

Lemma drop_sender_no_code (c : Conn) (s : State) : no_code_frames (drop_sender c s).2.
Proof.
  unfold no_code_frames, drop_sender. destruct (JsMap.get c (senders s)); simpl.
  - apply (broadcast_frames (λ o, ∀ d, o ≠ code d)). discriminate.
  - constructor.
Qed.

Lemma on_register_browser_no_code (c : Conn) (now : Z) (s : State) :
  no_code_frames (on_register_browser c now s).2.
Proof.
  unfold on_register_browser.
  set (s3 := set_browserClients _ _).
  pose proof (drop_sender_no_code c s3) as Hd.
  destruct (is_open _ c); [case_decide|]; simpl; try done;
    (apply Forall_app_2; [done|]); repeat constructor; simpl; discriminate.
Qed.

Lemma on_message_no_code (c : Conn) (m : Frame) (now : Z) (rnd : string) (s : State) :
  no_code_frames (on_message c m now rnd s).2.
Proof.
  unfold on_message. destruct (parsed m) as [d|]; [|by constructor].
  repeat case_decide;
    auto using on_screenshot_no_code, on_code_no_code, on_register_browser_no_code.
  by constructor.
Qed.

Lemma on_close_no_code (c : Conn) (s : State) : no_code_frames (on_close c s).2.
Proof.
  unfold on_close.
  pose proof (drop_sender_no_code c (cancel_registerTimer c s)) as Hd.
  by destruct (JsSet.has _ _).
Qed.

Lemma no_code_frames_elem (out : list Send) (r : Conn) (d : Payload) :
  no_code_frames out → (r, code d) ∉ out.
Proof.
  unfold no_code_frames. rewrite Forall_forall. intros H Hin.
  by apply (H _ Hin d).
Qed.

(** Only the frames the [registerTimer] callback of [c] addresses to [c]
    can be [code] frames. *)
Lemma on_registerTimer_code_to (c r : Conn) (now : Z) (rnd : string) (s : State) (d : Payload) :
  (r, code d) ∈ (on_registerTimer c now rnd s).2 → r = c.
Proof.
  unfold on_registerTimer.
  destruct (negb (ws_isBrowser s c) && negb (JsMap.has c (senders s))); simpl.
  - rewrite elem_of_app. intros [Hin|Hin].
    + exfalso. revert Hin. apply no_code_frames_elem.
      apply (broadcast_frames (λ o, ∀ d, o ≠ code d)). discriminate.
    + rewrite (bind_send_if_open _ (λ _, c) (λ msg, code (c_data msg))) in Hin.
      apply list_elem_of_fmap in Hin as [e [[= -> _] _]]. done.
  - intros []%not_elem_of_nil.
Qed.

Lemma on_message_screenshot (c : Conn) (m : Frame) (d : Json) (now : Z) (rnd : string)
    (s : State) :
  parsed m = Some d → type d = "screenshot" →
  on_message c m now rnd s = on_screenshot c d now rnd s.
Proof. intros Hp Ht. unfold on_message. rewrite Hp, Ht. reflexivity. Qed.

Lemma on_screenshot_codeBuffer (c : Conn) (d : Json) (now : Z) (rnd : string) (s : State) :
  codeBuffer (on_screenshot c d now rnd s).1 = codeBuffer s.
Proof.
  unfold on_screenshot.
  destruct (negb (JsMap.has c (senders s))); simpl; case_decide; reflexivity.
Qed.

Lemma on_screenshot_registers (c : Conn) (d : Json) (now : Z) (rnd : string) (s : State) :
  JsMap.has c (senders s) = false →
  senders (on_screenshot c d now rnd s).1 = senders s ++ [(c, new_sender s c now rnd)].
Proof.
  intros Hh. unfold on_screenshot. rewrite Hh. simpl.
  rewrite (set_fresh _ _ _ Hh). case_decide; reflexivity.
Qed.

(** ** Delivery of buffered commands *)

Lemma run_task_code (t : Task) (now : Z) (rnd : string) (s : State) (r : Conn) (d : Payload) :
  (r, code d) ∈ (run_task t now rnd s).2 → t = registerTimer r.
Proof.
  destruct t as [c|c|c msg| |]; simpl; try (by intros []%not_elem_of_nil).
  - by intros ->%on_registerTimer_code_to.
  - unfold on_sendBuffered, send_if_open. destruct (is_open s c).
    + by intros [=]%list_elem_of_singleton.
    + by intros []%not_elem_of_nil.
Qed.

Lemma some_pair_inv {A B : Type} (x : A * B) (a : A) (b : B) :
  Some x = Some (a, b) → a = x.1 ∧ b = x.2.
Proof. by intros [= ->]. Qed.

(** C10.  In any turn of the event loop, a buffered command (a [code]
    frame) is sent only by the expiry of the [registerTimer] of its
    recipient.  In particular a ['screenshot'] frame, which registers
    its connection as a sender when it is not one yet, sends no [code]
    frame and leaves [codeBuffer] as it was. *)
Theorem buffered_commands_only_on_timeout
    (now : Z) (e : Event) (s s' : State) (out : list Send) :
  step now e s = Some (s', out) →
  (∀ r d, (r, code d) ∈ out →
     ∃ rnd t, e = timeout rnd ∧ next_due (timers s) = Some t ∧ task t = registerTimer r) ∧
  (∀ c m rnd d, e = message c m rnd → parsed m = Some d → type d = "screenshot" →
     codeBuffer s' = codeBuffer s ∧
     no_code_frames out ∧
     (c ∉ JsMap.keys (senders s) → c ∈ JsMap.keys (senders s'))).
Proof.
  unfold step. case_decide as Hclk; [done|]. intros Hstep. split.
  - intros r d Hin. destruct e as [c sock|c m rnd|c sock|c|rnd].
    + destruct (clients _ !! c); simplify_eq. by apply not_elem_of_nil in Hin.
    + destruct (ws_readyState _ c); [|done]. case_decide; [done|].
      apply some_pair_inv in Hstep as [-> ->].
      exfalso. revert Hin. apply no_code_frames_elem, on_message_no_code.
    + destruct (is_open _ c); simplify_eq. by apply not_elem_of_nil in Hin.
    + destruct (clients _ !! c); [|done]. case_decide; [done|].
      apply some_pair_inv in Hstep as [-> ->].
      exfalso. revert Hin. apply no_code_frames_elem, on_close_no_code.
    + simpl in Hstep. destruct (next_due (timers s)) as [t|] eqn:Ht; [|done].
      case_decide; [|done]. apply some_pair_inv in Hstep as [-> ->].
      apply run_task_code in Hin. by exists rnd, t.
  - intros c m rnd d -> Hp Ht.
    destruct (ws_readyState _ c); [|done]. case_decide; [done|].
    rewrite (on_message_screenshot _ _ _ _ _ _ Hp Ht) in Hstep.
    apply some_pair_inv in Hstep as [-> ->]. split; [|split].
    + by rewrite on_screenshot_codeBuffer.
    + apply on_screenshot_no_code.
    + intros Hn%has_false_keys.
      rewrite on_screenshot_registers by done. unfold JsMap.keys.
      rewrite fmap_app, elem_of_app. right. simpl. apply list_elem_of_singleton. done.
Qed.

Lemma buffered_commands_only_on_timeout_witness :
  let s := mkState (<[1%nat := mkWebSocket OPEN false (Some 1%nat) None]> ∅)
             [] [] [] [mkCodeEntry "ls" 5] [mkTimer 1 810 (registerTimer 1)] 2 10 in
  let s' := (on_message 1 (screenshot_frame "img") 20 "abcde" (set_clock 20 s)).1 in
  codeBuffer s' = [mkCodeEntry "ls" 5] ∧
  no_code_frames (on_message 1 (screenshot_frame "img") 20 "abcde" (set_clock 20 s)).2 ∧
  (1%nat ∉ JsMap.keys (senders s) → 1%nat ∈ JsMap.keys (senders s')).
Proof.
  intros s s'.
  refine (proj2 (buffered_commands_only_on_timeout 20
            (message 1 (screenshot_frame "img") "abcde") s s' _ _)
            1%nat (screenshot_frame "img") "abcde" (mkJson "screenshot" "img") _ _ _);
    reflexivity.
Defined.

(** ** Classification by the deferred timer *)

Lemma peer_addr_unavailable (sock : option Socket) :
  peer_unavailable sock → peer_addr sock = "unknown".
Proof. destruct sock as [[a p]|]; simpl; [|done]. by intros [-> ->]. Qed.

(** C6, amended.  The [registerTimer] callback of a connection [c] that
    is not in the sender registry and has [_isBrowser] unset: [c] is
    added at the end of [senders] with the identity made from the
    current time and the random suffix, whose address is ["unknown"]
    when the transport gives no peer address; a [sender_connected] frame
    with that identity goes to every open browser; then, when [c] is
    open (the guard of line 61), every entry of [codeBuffer] is sent to
    [c] as a [code] frame, oldest first, and when [c] is not open none
    is; and [codeBuffer] is empty afterwards in both cases.  Nothing
    else changes. *)
Theorem timer_classifies_and_flushes_commands
    (c : Conn) (now : Z) (rnd : string) (s : State) :
  ws_isBrowser s c = false →
  c ∉ JsMap.keys (senders s) →
  let info := mkSenderInfo ("sender-" +:+ pretty now +:+ "-" +:+ rnd)
                           (peer_addr (ws_socket s c)) in
  let s' := (on_registerTimer c now rnd s).1 in
  senders s' = senders s ++ [(c, info)] ∧
  (peer_unavailable (ws_socket s c) → addr info = "unknown") ∧
  (on_registerTimer c now rnd s).2
    = ((λ b, (b, sender_connected info)) <$> filter (λ b, is_open s b) (browserClients s))
      ++ (if is_open s c then (λ msg, (c, code (c_data msg))) <$> codeBuffer s else []) ∧
  codeBuffer s' = [] ∧
  browserClients s' = browserClients s ∧
  screenshotBuffer s' = screenshotBuffer s ∧
  clients s' = clients s ∧
  timers s' = timers s.
Proof.
  intros Hb Hs%has_false_keys info s'. subst s'. unfold on_registerTimer.
  rewrite Hb, Hs. simpl. rewrite (set_fresh _ _ _ Hs).
  split; [done|]. split; [apply peer_addr_unavailable|]. split; [|done].
  f_equal.
  - by rewrite broadcast_spec.
  - rewrite (bind_send_if_open _ (λ _, c) (λ msg, code (c_data msg))). simpl.
    rewrite (is_open_same_clients s) by done. destruct (is_open s c) eqn:Ho.
    + f_equal. by apply filter_all.
    + clear. induction (codeBuffer s) as [|e l IH]; [done|].
      by rewrite filter_cons_False by (simpl; tauto).
Qed.

Lemma timer_classifies_and_flushes_commands_witness :
  (senders (on_registerTimer 3 1000 "k3x9a" waiting_commands).1
     = [(3%nat, mkSenderInfo "sender-1000-k3x9a" "unknown")] ∧
   (on_registerTimer 3 1000 "k3x9a" waiting_commands).2
     = [(2%nat, sender_connected (mkSenderInfo "sender-1000-k3x9a" "unknown"));
        (3%nat, code "ls"); (3%nat, code "pwd")] ∧
   codeBuffer (on_registerTimer 3 1000 "k3x9a" waiting_commands).1 = []) ∧
  (let s := state_after (take 5 timer_on_closing_connection) in
   is_open s 3 = false ∧ codeBuffer s = [mkCodeEntry "ls" 20] ∧
   (on_registerTimer 3 900 "fghij" s).2
     = [(1%nat, sender_connected (mkSenderInfo "sender-900-fghij" "10.0.0.3:3000"))] ∧
   codeBuffer (on_registerTimer 3 900 "fghij" s).1 = []).
Proof.
  split.
  - destruct (timer_classifies_and_flushes_commands 3 1000 "k3x9a" waiting_commands)
      as (H1 & _ & H3 & H4 & _); [reflexivity | compute_done |].
    split; [exact H1|]. split; [exact H3 | exact H4].
  - intros s.
    destruct (timer_classifies_and_flushes_commands 3 900 "fghij" s)
      as (_ & _ & H3 & H4 & _);
      [by vm_compute | intros Hin; vm_compute in Hin; inversion Hin |].
    split; [by vm_compute|]. split; [by vm_compute|]. split; [|exact H4].
    rewrite H3. by vm_compute.
Defined.

(** ** Explicit browser registration *)

Lemma cancel_registerTimer_fields (c : Conn) (s : State) :
  senders (cancel_registerTimer c s) = senders s ∧
  browserClients (cancel_registerTimer c s) = browserClients s ∧
  screenshotBuffer (cancel_registerTimer c s) = screenshotBuffer s ∧
  codeBuffer (cancel_registerTimer c s) = codeBuffer s ∧
  nextTimer (cancel_registerTimer c s) = nextTimer s ∧
  clock (cancel_registerTimer c s) = clock s.
Proof. unfold cancel_registerTimer. by destruct (ws_registerTimer s c). Qed.

Lemma cancel_registerTimer_timers (c : Conn) (s : State) :
  timers (cancel_registerTimer c s)
  = match ws_registerTimer s c with
    | Some h => filter (λ t : Timer, timer_id t ≠ h) (timers s)
    | None => timers s
    end.
Proof. unfold cancel_registerTimer. by destruct (ws_registerTimer s c). Qed.

Lemma cancel_registerTimer_readyState (c c' : Conn) (s : State) :
  ws_readyState (cancel_registerTimer c s) c' = ws_readyState s c'.
Proof.
  unfold cancel_registerTimer. destruct (ws_registerTimer s c); [|done].
  by apply (readyState_alter _ _ _ s).
Qed.

Lemma cancel_registerTimer_open (c c' : Conn) (s : State) :
  is_open (cancel_registerTimer c s) c' = is_open s c'.
Proof. unfold is_open. by rewrite cancel_registerTimer_readyState. Qed.

Lemma cancel_registerTimer_cleared (c : Conn) (s : State) :
  ws_registerTimer (cancel_registerTimer c s) c = None.
Proof.
  unfold cancel_registerTimer. destruct (ws_registerTimer s c) eqn:Ht; [|done].
  unfold ws_registerTimer. simpl. rewrite lookup_alter_eq.
  by destruct (clients s !! c).
Qed.

Lemma cancel_registerTimer_isBrowser (c c' : Conn) (s : State) :
  ws_isBrowser (cancel_registerTimer c s) c' = ws_isBrowser s c'.
Proof.
  unfold cancel_registerTimer. destruct (ws_registerTimer s c); [|done].
  unfold ws_isBrowser. simpl. rewrite lookup_alter. case_decide; subst; [|done].
  by destruct (clients s !! c').
Qed.

Lemma drop_sender_fields (c : Conn) (s : State) :
  clients (drop_sender c s).1 = clients s ∧
  browserClients (drop_sender c s).1 = browserClients s ∧
  screenshotBuffer (drop_sender c s).1 = screenshotBuffer s ∧
  codeBuffer (drop_sender c s).1 = codeBuffer s ∧
  timers (drop_sender c s).1 = timers s ∧
  nextTimer (drop_sender c s).1 = nextTimer s ∧
  clock (drop_sender c s).1 = clock s.
Proof. unfold drop_sender. by destruct (JsMap.get c (senders s)). Qed.

Lemma drop_sender_senders (c : Conn) (s : State) :
  senders (drop_sender c s).1 = JsMap.delete c (senders s).
Proof.
  unfold drop_sender. destruct (JsMap.get c (senders s)) eqn:Hg; [done|].
  simpl. symmetry. by apply delete_absent, get_None_keys.
Qed.

Lemma drop_sender_out (c : Conn) (s : State) :
  (drop_sender c s).2
  = match JsMap.get c (senders s) with
    | Some info =>
        (λ b, (b, sender_disconnected info)) <$> filter (λ b, is_open s b) (browserClients s)
    | None => []
    end.
Proof.
  unfold drop_sender. destruct (JsMap.get c (senders s)); [|done].
  simpl. by rewrite broadcast_spec.
Qed.

Lemma on_message_register (c : Conn) (m : Frame) (d : Json) (now : Z) (rnd : string)
    (s : State) :
  parsed m = Some d → type d = "register_browser" →
  on_message c m now rnd s = on_register_browser c now s.
Proof. intros Hp Ht. unfold on_message. rewrite Hp, Ht. reflexivity. Qed.

(** What the ['register_browser'] branch does on a connection [c]. *)
Lemma register_browser_effect (c : Conn) (now : Z) (s : State) :
  is_Some (clients s !! c) →
  let s' := (on_register_browser c now s).1 in
  ws_registerTimer s' c = None ∧
  timers s'
    = (match ws_registerTimer s c with
       | Some h => filter (λ t : Timer, timer_id t ≠ h) (timers s)
       | None => timers s
       end)
      ++ (if is_open s c && bool_decide (0 < length (screenshotBuffer s))%nat
          then [mkTimer (nextTimer s) (now + 200) (flushBuffered c)] else []) ∧
  senders s' = filter (λ p : Conn * SenderInfo, p.1 ≠ c) (senders s) ∧
  (c ∉ JsMap.keys (senders s')) ∧
  browserClients s' = JsSet.add c (browserClients s) ∧
  c ∈ browserClients s' ∧
  ws_isBrowser s' c = true ∧
  (on_register_browser c now s).2
    = (match JsMap.get c (senders s) with
       | Some info =>
           (λ b, (b, sender_disconnected info))
             <$> filter (λ b, is_open s b) (JsSet.add c (browserClients s))
       | None => []
       end)
      ++ (if is_open s c
          then [(c, current_senders
                      (filter (λ p : Conn * SenderInfo, p.1 ≠ c) (senders s)).*2)]
          else []) ∧
  screenshotBuffer s' = screenshotBuffer s ∧
  codeBuffer s' = codeBuffer s.
Proof.
  intros [w Hw] s'. subst s'. unfold on_register_browser.
  set (s1 := set_clients (alter (write_isBrowser true) c (clients s)) s).
  destruct (cancel_registerTimer_fields c s1) as (Hs2 & Hb2 & Hsb2 & Hcb2 & Hn2 & Hk2).
  pose proof (cancel_registerTimer_timers c s1) as Htm2.
  pose proof (cancel_registerTimer_cleared c s1) as Hcl2.
  pose proof (cancel_registerTimer_isBrowser c c s1) as Hib2.
  pose proof (λ c', cancel_registerTimer_open c c' s1) as Hop2.
  set (s2 := cancel_registerTimer c s1) in *.
  set (s3 := set_browserClients (JsSet.add c (browserClients s2)) s2).
  destruct (drop_sender_fields c s3) as (Hc4 & Hb4 & Hsb4 & Hcb4 & Ht4 & Hn4 & Hk4).
  assert (Hopen : ∀ c', is_open s3 c' = is_open s c').
  { intros c'. transitivity (is_open s2 c'); [done|].
    rewrite Hop2. by apply (is_open_alter _ _ _ s). }
  assert (Ho4 : is_open (drop_sender c s3).1 c = is_open s c).
  { by rewrite (is_open_same_clients s3), Hopen. }
  assert (Hrt : ws_registerTimer s1 c = ws_registerTimer s c).
  { unfold ws_registerTimer, s1. simpl. by rewrite lookup_alter_eq, Hw. }
  assert (Hsnd : senders (drop_sender c s3).1 = JsMap.delete c (senders s)).
  { rewrite drop_sender_senders. simpl. by rewrite Hs2. }
  assert (R1 : ws_registerTimer (drop_sender c s3).1 c = None).
  { unfold ws_registerTimer. rewrite Hc4. exact Hcl2. }
  assert (R2 : timers (drop_sender c s3).1
               = match ws_registerTimer s c with
                 | Some h => filter (λ t : Timer, timer_id t ≠ h) (timers s)
                 | None => timers s
                 end).
  { rewrite Ht4. simpl. by rewrite Htm2, Hrt. }
  assert (R3 : browserClients (drop_sender c s3).1 = JsSet.add c (browserClients s)).
  { rewrite Hb4. simpl. by rewrite Hb2. }
  assert (R4 : ws_isBrowser (drop_sender c s3).1 c = true).
  { unfold ws_isBrowser. rewrite Hc4. fold (ws_isBrowser s3 c).
    change (ws_isBrowser s2 c = true).
    rewrite Hib2. unfold ws_isBrowser, s1. simpl. by rewrite lookup_alter_eq, Hw. }
  assert (R5 : screenshotBuffer (drop_sender c s3).1 = screenshotBuffer s).
  { rewrite Hsb4. simpl. by rewrite Hsb2. }
  assert (R6 : nextTimer (drop_sender c s3).1 = nextTimer s).
  { rewrite Hn4. simpl. by rewrite Hn2. }
  assert (R7 : codeBuffer (drop_sender c s3).1 = codeBuffer s).
  { rewrite Hcb4. simpl. by rewrite Hcb2. }
  assert (Hout : (drop_sender c s3).2
    = match JsMap.get c (senders s) with
      | Some info =>
          (λ b, (b, sender_disconnected info))
            <$> filter (λ b, is_open s b) (JsSet.add c (browserClients s))
      | None => []
      end).
  { rewrite drop_sender_out. simpl. rewrite Hs2, Hb2. simpl.
    destruct (JsMap.get c (senders s)); [|done]. f_equal.
    apply list_filter_iff. intros b. by rewrite Hopen. }
  assert (Hnot : c ∉ JsMap.keys (senders (drop_sender c s3).1)).
  { rewrite Hsnd, keys_delete. by intros [? _]. }
  assert (Hin : c ∈ browserClients (drop_sender c s3).1).
  { rewrite R3. apply set_add_elem. by left. }
  rewrite Ho4, R5.
  destruct (is_open s c);
    [case_bool_decide; [rewrite decide_True by done | rewrite decide_False by done]|];
    cbn [fst snd andb]; rewrite ?app_nil_r;
    refine (conj R1 (conj _ (conj Hsnd (conj Hnot (conj R3 (conj Hin
             (conj R4 (conj _ (conj R5 R7))))))))).
  all: first
    [ exact R2
    | exact Hout
    | rewrite Hout; unfold JsMap.values; rewrite Hsnd; reflexivity
    | unfold setTimeout; simpl; rewrite R2, R6; reflexivity ].
Qed.

(** C7, amended.  A ['register_browser'] frame on a connection [c]: the
    handle in [ws._registerTimer] is cleared and its timer leaves the
    timer queue; [c] leaves the sender registry, and when it had an
    identity there a [sender_disconnected] frame carrying that identity
    goes to every open browser ([c] included, which has just been
    added); [c] is in [browserClients] and flagged [_isBrowser]; and
    when [c] is open (the guard of line 171) the last frame sent is the
    [current_senders] reply to [c], listing the identities of all other
    registry entries in registry order, while no reply is sent when [c]
    is not open.  The only timer armed is the settle timer of the paced
    flush, when [c] is open and the producer buffer is not empty. *)
Theorem browser_registration
    (c : Conn) (m : Frame) (d : Json) (now : Z) (rnd : string) (s : State) :
  parsed m = Some d → type d = "register_browser" →
  is_Some (clients s !! c) →
  let s' := (on_message c m now rnd s).1 in
  ws_registerTimer s' c = None ∧
  timers s'
    = (match ws_registerTimer s c with
       | Some h => filter (λ t : Timer, timer_id t ≠ h) (timers s)
       | None => timers s
       end)
      ++ (if is_open s c && bool_decide (0 < length (screenshotBuffer s))%nat
          then [mkTimer (nextTimer s) (now + 200) (flushBuffered c)] else []) ∧
  senders s' = filter (λ p : Conn * SenderInfo, p.1 ≠ c) (senders s) ∧
  (c ∉ JsMap.keys (senders s')) ∧
  browserClients s' = JsSet.add c (browserClients s) ∧
  c ∈ browserClients s' ∧
  ws_isBrowser s' c = true ∧
  (on_message c m now rnd s).2
    = (match JsMap.get c (senders s) with
       | Some info =>
           (λ b, (b, sender_disconnected info))
             <$> filter (λ b, is_open s b) (JsSet.add c (browserClients s))
       | None => []
       end)
      ++ (if is_open s c
          then [(c, current_senders
                      (filter (λ p : Conn * SenderInfo, p.1 ≠ c) (senders s)).*2)]
          else []) ∧
  screenshotBuffer s' = screenshotBuffer s ∧
  codeBuffer s' = codeBuffer s.
Proof.
  intros Hp Ht Hc. rewrite (on_message_register _ _ _ _ _ _ Hp Ht).
  by apply register_browser_effect.
Qed.

Lemma browser_registration_witness :
  (senders (on_message 1 register_frame 1000 "r" late_browser).1
     = [(4%nat, mkSenderInfo "sender-950-bbbbb" "10.0.0.4:6000")] ∧
   timers (on_message 1 register_frame 1000 "r" late_browser).1
     = [mkTimer 5 1700 (registerTimer 4)] ∧
   browserClients (on_message 1 register_frame 1000 "r" late_browser).1 = [2%nat; 1%nat] ∧
   (on_message 1 register_frame 1000 "r" late_browser).2
     = [(2%nat, sender_disconnected (mkSenderInfo "sender-900-aaaaa" "10.0.0.1:5000"));
        (1%nat, sender_disconnected (mkSenderInfo "sender-900-aaaaa" "10.0.0.1:5000"));
        (1%nat, current_senders [mkSenderInfo "sender-950-bbbbb" "10.0.0.4:6000"])]) ∧
  (let s := state_after (take 2 registration_while_closing) in
   is_open s 1 = false ∧
   browserClients (on_message 1 register_frame 30 "r" s).1 = [1%nat] ∧
   (on_message 1 register_frame 30 "r" s).2 = []).
Proof.
  split.
  - destruct (browser_registration 1 register_frame
                (mkJson "register_browser" EmptyString) 1000 "r" late_browser)
      as (_ & H2 & H3 & _ & H5 & _ & _ & H8 & _);
      [reflexivity | reflexivity | by eexists |].
    split; [exact H3|]. split; [exact H2|]. split; [exact H5 | exact H8].
  - intros s.
    destruct (browser_registration 1 register_frame
                (mkJson "register_browser" EmptyString) 30 "r" s)
      as (_ & _ & _ & _ & H5 & _ & _ & H8 & _);
      [reflexivity | reflexivity | vm_compute; by eexists |].
    split; [by vm_compute|]. split.
    + rewrite H5. by vm_compute.
    + rewrite H8. by vm_compute.
Defined.

(** ** The bounded producer buffer *)

Lemma tail_drop {A : Type} (k : nat) (l : list A) : tail (drop k l) = drop (S k) l.
Proof.
  revert l. induction k as [|k IH]; intros [|y l]; simpl; done.
Qed.

(** A bounded push keeps the last [MAX_BUFFER_SIZE] elements. *)
Lemma push_bounded_last {A : Type} (x : A) (l : list A) :
  push_bounded x (drop (length l - MAX_BUFFER_SIZE) l)
  = drop (length (l ++ [x]) - MAX_BUFFER_SIZE) (l ++ [x]).
Proof.
  assert (HM : (0 < MAX_BUFFER_SIZE)%nat) by (unfold MAX_BUFFER_SIZE; lia).
  unfold push_bounded. rewrite length_drop, length_app. simpl.
  case_decide as Hfull.
  - replace (length l + 1 - MAX_BUFFER_SIZE)%nat
      with (S (length l - MAX_BUFFER_SIZE)) by lia.
    rewrite drop_app_le by lia. f_equal.
    apply tail_drop.
  - replace (length l + 1 - MAX_BUFFER_SIZE)%nat with 0%nat by lia.
    replace (length l - MAX_BUFFER_SIZE)%nat with 0%nat by lia.
    by rewrite !drop_0.
Qed.

(** ** Runs of the engine *)

(** C1.  The registry invariant fails on the code: after a connection
    has registered as a browser, a producer payload from it adds it to
    [senders] while it stays in [browserClients].  The ['screenshot']
    branch tests [senders.has(ws)] only, where the [registerTimer]
    callback also tests [ws._isBrowser]. *)
Theorem browser_payload_joins_both_registries :
  senders <$> run_state browser_then_payload (init 0)
    = Some [(1%nat, mkSenderInfo "sender-30-abcde" "10.0.0.1:5000")] ∧
  browserClients <$> run_state browser_then_payload (init 0) = Some [1%nat] ∧
  ∃ s, reachable s ∧ 1%nat ∈ JsMap.keys (senders s) ∧ 1%nat ∈ browserClients s.
Proof.
  split; [by vm_compute|]. split; [by vm_compute|].
  destruct (run browser_then_payload (init 0)) as [[s out]|] eqn:Hrun;
    [|by vm_compute in Hrun].
  exists s. split; [by exists 0, browser_then_payload, out|].
  assert (Hs : senders s = [(1%nat, mkSenderInfo "sender-30-abcde" "10.0.0.1:5000")]
               ∧ browserClients s = [1%nat]).
  { vm_compute in Hrun. by injection Hrun as <- _. }
  destruct Hs as [-> ->]. split; simpl; apply list_elem_of_singleton; done.
Qed.

(** C8.  A connection that has sent [register_browser] is classified as
    a sender all the same when it later sends a producer payload: here
    connection 1 registers as a browser at time 40 and its payload at
    time 900 puts it in [senders] and announces it to the browsers with
    [sender_connected]. *)
Theorem registered_browser_classified_by_payload :
  senders <$> run_state (take 4 watched_browser_then_payload) (init 0) = Some [] ∧
  browserClients <$> run_state (take 4 watched_browser_then_payload) (init 0)
    = Some [2%nat; 1%nat] ∧
  senders <$> run_state watched_browser_then_payload (init 0)
    = Some [(1%nat, mkSenderInfo "sender-900-abcde" "10.0.0.1:5000")] ∧
  run_sends watched_browser_then_payload (init 0)
    = Some [(2%nat, current_senders []); (1%nat, current_senders []);
            (2%nat, sender_connected (mkSenderInfo "sender-900-abcde" "10.0.0.1:5000"));
            (1%nat, sender_connected (mkSenderInfo "sender-900-abcde" "10.0.0.1:5000"));
            (2%nat, screenshot "img" (Some "sender-900-abcde") None);
            (1%nat, screenshot "img" (Some "sender-900-abcde") None)].
Proof. repeat split; by vm_compute. Qed.

(** C2, counterexample.  A command buffered at 600002 and a payload
    buffered at 600005 survive the sweep at 11400000 (their ages are
    below the TTL by 2 and 5 ms) and the next sweep is due at 12000000.
    The flush to browser 4 at 11400230 and the flush to sender 3 at
    11400810 send them, at ages above the TTL. *)
Lemma stale_entries_are_flushed :
  screenshotBuffer <$> run_state stale_setup (init 0)
    = Some [mkScreenshotEntry "img" (Some "sender-600005-abcde") 600005] ∧
  codeBuffer <$> run_state stale_setup (init 0) = Some [mkCodeEntry "ls" 600002] ∧
  MESSAGE_TTL_MS ≤ 11400230 - 600005 ∧
  MESSAGE_TTL_MS ≤ 11400810 - 600002 ∧
  run_sends stale_flushes <$> run_state stale_setup (init 0)
    = Some (Some
        [(4%nat, screenshot "img" (Some "sender-600005-abcde") (Some 600005));
         (4%nat, sender_connected (mkSenderInfo "sender-11400810-fghij" "10.0.0.3:3000"));
         (3%nat, code "ls")]).
Proof. repeat split; by vm_compute. Qed.

(** C5, counterexample.  Browser 3 registers at 300 while the producer
    buffer holds one entry.  The clear of the flush to browser 2 runs at
    390, the settle timer of browser 3 at 500 finds the buffer empty, and
    when no timer but the sweep is left browser 3 has been sent its
    [current_senders] reply and no [screenshot] frame. *)
Lemma late_browser_is_sent_no_payload :
  screenshotBuffer <$> run_state two_browsers_setup (init 0)
    = Some [mkScreenshotEntry "img1" (Some "sender-20-abcde") 20] ∧
  (λ s, is_open s 3) <$> run_state two_browsers_setup (init 0) = Some true ∧
  run_sends two_browsers_rest <$> run_state two_browsers_setup (init 0)
    = Some (Some
        [(3%nat, current_senders [mkSenderInfo "sender-20-abcde" "10.0.0.1:5000"])]) ∧
  timers <$> run_state (two_browsers_setup ++ two_browsers_rest) (init 0)
    = Some [mkTimer 0 600000 cleanExpired].
Proof. repeat split; by vm_compute. Qed.

(** C3, counterexample.  All three payloads of this run arrive while
    [browserClients] is empty, and the producer buffer is empty when the
    server starts.  The trailing clear armed by the flush to browser 2,
    which left at 50, runs at 390 all the same: it wipes [p1] and [p2],
    which no browser was sent, and the buffer ends with one entry for
    three payloads.  In the second run no clear is ever armed, and the
    sweep at 11400000 removes [p1], then three hours old: the buffer
    ends with one entry for two payloads. *)
Lemma trailing_clear_drops_unwatched_payloads :
  unwatched_payloads cleared_between_payloads (init 0)
    = [("p1", 20); ("p2", 300); ("p3", 400)] ∧
  screenshotBuffer <$> run_state (take 8 cleared_between_payloads) (init 0)
    = Some [mkScreenshotEntry "p1" (Some "sender-20-abcde") 20;
            mkScreenshotEntry "p2" (Some "sender-20-abcde") 300] ∧
  run_sends (take 9 cleared_between_payloads) (init 0)
    = Some [(2%nat, current_senders [mkSenderInfo "sender-20-abcde" "10.0.0.1:5000"])] ∧
  screenshotBuffer <$> run_state (take 9 cleared_between_payloads) (init 0) = Some [] ∧
  screenshotBuffer <$> run_state cleared_between_payloads (init 0)
    = Some [mkScreenshotEntry "p3" (Some "sender-20-abcde") 400] ∧
  (length ∘ screenshotBuffer) <$> run_state cleared_between_payloads (init 0)
    ≠ Some (3 `min` 100)%nat ∧
  unwatched_payloads swept_between_payloads (init 0)
    = [("p1", 20); ("p2", 11400010)] ∧
  clear_free swept_between_payloads (init 0) = true ∧
  screenshotBuffer <$> run_state (take 21 swept_between_payloads) (init 0)
    = Some [mkScreenshotEntry "p1" (Some "sender-20-abcde") 20] ∧
  screenshotBuffer <$> run_state swept_between_payloads (init 0)
    = Some [mkScreenshotEntry "p2" (Some "sender-20-abcde") 11400010].
Proof. repeat split; by vm_compute. Qed.

(** C4, counterexample.  Sender 1 is registered and is not the origin,
    but its transport is closing when browser 2 sends a command: the
    command is not sent to it, and it is not buffered either.  And when
    the registry is empty and the origin itself is closing, the command
    is buffered and no [no_senders] reply is sent. *)
Lemma closing_sender_is_sent_no_command :
  (JsMap.keys ∘ senders) <$> run_state (take 5 command_to_closing_sender) (init 0)
    = Some [1%nat] ∧
  (λ s, ws_readyState s 1) <$> run_state (take 5 command_to_closing_sender) (init 0)
    = Some (Some CLOSING) ∧
  run_sends (drop 5 command_to_closing_sender)
    <$> run_state (take 5 command_to_closing_sender) (init 0) = Some (Some []) ∧
  codeBuffer <$> run_state command_to_closing_sender (init 0) = Some [] ∧
  senders <$> run_state (take 2 command_from_closing_origin) (init 0) = Some [] ∧
  run_sends (drop 2 command_from_closing_origin)
    <$> run_state (take 2 command_from_closing_origin) (init 0) = Some (Some []) ∧
  codeBuffer <$> run_state command_from_closing_origin (init 0)
    = Some [mkCodeEntry "ls" 60].
Proof. repeat split; by vm_compute. Qed.

(** C6, counterexample.  The [registerTimer] of connection 3 expires
    while 3 is closing (only the close event cancels it).  3 is neither
    a browser nor a sender, so it is registered and announced; the
    command that was waiting is not sent to it, and the command buffer
    is emptied all the same. *)
Lemma closing_connection_is_flushed_nothing :
  codeBuffer <$> run_state (take 5 timer_on_closing_connection) (init 0)
    = Some [mkCodeEntry "ls" 20] ∧
  (λ s, (ws_readyState s 3, ws_isBrowser s 3, JsMap.has 3 (senders s)))
    <$> run_state (take 5 timer_on_closing_connection) (init 0)
    = Some (Some CLOSING, false, false) ∧
  run_sends (drop 5 timer_on_closing_connection)
    <$> run_state (take 5 timer_on_closing_connection) (init 0)
    = Some (Some [(1%nat, sender_connected
                            (mkSenderInfo "sender-900-fghij" "10.0.0.3:3000"))]) ∧
  senders <$> run_state timer_on_closing_connection (init 0)
    = Some [(3%nat, mkSenderInfo "sender-900-fghij" "10.0.0.3:3000")] ∧
  codeBuffer <$> run_state timer_on_closing_connection (init 0) = Some [].
Proof. repeat split; by vm_compute. Qed.

(** C7, counterexample.  Connection 1 is closing when its
    [register_browser] frame is handled: it is added to [browserClients]
    and no [current_senders] reply is sent to it. *)
Lemma closing_connection_gets_no_snapshot :
  (λ s, ws_readyState s 1) <$> run_state (take 2 registration_while_closing) (init 0)
    = Some (Some CLOSING) ∧
  browserClients <$> run_state registration_while_closing (init 0) = Some [1%nat] ∧
  run_sends registration_while_closing (init 0) = Some [].
Proof. repeat split; by vm_compute. Qed.

(** ** The paced flush of the producer buffer *)

Lemma schedule_sends_spec (c : Conn) (now : Z) (toSend : list ScreenshotEntry) :
  ∀ (index : nat) (s : State),
    timers (schedule_sends c now index toSend s)
    = timers s
      ++ imap (λ (i : nat) (p : ScreenshotEntry),
                 mkTimer (nextTimer s + i) (now + Z.of_nat (index + i) * PACE_MS)
                         (sendBuffered c p)) toSend ∧
    nextTimer (schedule_sends c now index toSend s) = (nextTimer s + length toSend)%nat ∧
    screenshotBuffer (schedule_sends c now index toSend s) = screenshotBuffer s ∧
    codeBuffer (schedule_sends c now index toSend s) = codeBuffer s ∧
    clock (schedule_sends c now index toSend s) = clock s.
Proof.
  induction toSend as [|p l IH]; intros index s; simpl.
  - by rewrite app_nil_r, Nat.add_0_r.
  - destruct (IH (S index) (setTimeout (sendBuffered c p) (Z.of_nat index * PACE_MS) now s))
      as (Ht & Hn & Hb & Hcb & Hk).
    rewrite Ht, Hn, Hb, Hcb, Hk. simpl. split; [|split; [lia | done]].
    rewrite <- app_assoc. simpl. rewrite !Nat.add_0_r. do 2 f_equal.
    apply imap_ext. intros i x _. simpl. f_equal; [lia|]. do 2 f_equal. lia.
Qed.

Lemma on_flushBuffered_spec (c : Conn) (now : Z) (s : State) :
  timers (on_flushBuffered c now s)
  = timers s ++ paced_timers c now (nextTimer s) (screenshotBuffer s) ∧
  screenshotBuffer (on_flushBuffered c now s) = screenshotBuffer s ∧
  codeBuffer (on_flushBuffered c now s) = codeBuffer s ∧
  clock (on_flushBuffered c now s) = clock s.
Proof.
  unfold on_flushBuffered, paced_timers.
  destruct (schedule_sends_spec c now (screenshotBuffer s) 0 s) as (Ht & Hn & Hb & Hcb & Hk).
  simpl. rewrite Ht, Hn, Hb, Hcb, Hk. split; [|done].
  rewrite <- app_assoc, Z.add_assoc. reflexivity.
Qed.

Lemma schedule_sends_registry (c : Conn) (now : Z) (toSend : list ScreenshotEntry) :
  ∀ (index : nat) (s : State),
    senders (schedule_sends c now index toSend s) = senders s ∧
    browserClients (schedule_sends c now index toSend s) = browserClients s ∧
    clients (schedule_sends c now index toSend s) = clients s.
Proof.
  induction toSend as [|p l IH]; intros index s; simpl; [done|].
  by destruct (IH (S index) (setTimeout (sendBuffered c p) (Z.of_nat index * PACE_MS) now s))
    as (-> & -> & ->).
Qed.

Lemma on_flushBuffered_registry (c : Conn) (now : Z) (s : State) :
  senders (on_flushBuffered c now s) = senders s ∧
  browserClients (on_flushBuffered c now s) = browserClients s ∧
  clients (on_flushBuffered c now s) = clients s.
Proof.
  unfold on_flushBuffered. simpl.
  by destruct (schedule_sends_registry c now (screenshotBuffer s) 0 s) as (-> & -> & ->).
Qed.

(** C5, as the code has it.  A ['register_browser'] frame on an open
    connection [c] while the producer buffer is not empty sends the
    [current_senders] reply last and arms one settle timer 200 ms ahead,
    leaving the buffer as it is.  When that timer runs, at [now'] in a
    state [s2], the entries copied are those the buffer holds then: one
    send to [c] per entry of [screenshotBuffer s2], in buffer order, the
    [i]-th one [i * 50] ms after [now'], and after them the clear,
    [length * 50 + 100] ms after [now'].  Each send, when [c] is still
    open, is a [screenshot] frame with the entry's data, its [senderId]
    and its timestamp; the clear empties the buffer. *)
Theorem registration_arms_paced_flush
    (c : Conn) (m : Frame) (d : Json) (now : Z) (rnd : string) (s : State) :
  parsed m = Some d → type d = "register_browser" →
  is_open s c = true →
  screenshotBuffer s ≠ [] →
  (∃ before, (on_message c m now rnd s).2
             = before ++ [(c, current_senders
                                (filter (λ p : Conn * SenderInfo, p.1 ≠ c) (senders s)).*2)]) ∧
  (∃ kept, timers (on_message c m now rnd s).1
           = kept ++ [mkTimer (nextTimer s) (now + 200) (flushBuffered c)]
           ∧ kept ⊆ timers s) ∧
  screenshotBuffer (on_message c m now rnd s).1 = screenshotBuffer s ∧
  ∀ (now' : Z) (s2 : State),
    timers (on_flushBuffered c now' s2)
    = timers s2 ++ paced_timers c now' (nextTimer s2) (screenshotBuffer s2) ∧
    screenshotBuffer (on_flushBuffered c now' s2) = screenshotBuffer s2 ∧
    (∀ (p : ScreenshotEntry) (s3 : State),
       is_open s3 c = true →
       on_sendBuffered c p s3
       = [(c, screenshot (s_data p) (senderId p) (Some (s_timestamp p)))]) ∧
    ∀ s3 : State, screenshotBuffer (on_clearBuffer s3) = [].
Proof.
  intros Hp Ht Ho Hbuf. rewrite (on_message_register _ _ _ _ _ _ Hp Ht).
  assert (Hc : is_Some (clients s !! c)).
  { unfold is_open, ws_readyState in Ho. apply bool_decide_eq_true in Ho.
    by destruct (clients s !! c). }
  destruct (register_browser_effect c now s Hc)
    as (_ & Htm & _ & _ & _ & _ & _ & Hout & Hsb & _).
  rewrite Ho in Htm, Hout.
  assert (Hlen : (0 < length (screenshotBuffer s))%nat)
    by (destruct (screenshotBuffer s); simpl; [done | lia]).
  split; [rewrite Hout; eauto|]. split; [|split].
  - rewrite Htm, bool_decide_true by done. eexists. split; [done|].
    destruct (ws_registerTimer s c); [apply list_subseteq_filter | done].
  - exact Hsb.
  - intros now' s2. destruct (on_flushBuffered_spec c now' s2) as (H1 & H2 & _).
    split; [done|]. split; [done|]. split; [|done].
    intros p s3 Ho3. unfold on_sendBuffered, send_if_open. by rewrite Ho3.
Qed.

Lemma registration_arms_paced_flush_witness :
  timers (on_message 2 register_frame 40 "r" two_buffered).1
    = [mkTimer 1 810 (registerTimer 1); mkTimer 3 240 (flushBuffered 2)] ∧
  timers (on_flushBuffered 2 240 (on_message 2 register_frame 40 "r" two_buffered).1)
    = [mkTimer 1 810 (registerTimer 1); mkTimer 3 240 (flushBuffered 2);
       mkTimer 4 240 (sendBuffered 2 (mkScreenshotEntry "img1" (Some "sender-20-abcde") 20));
       mkTimer 5 290 (sendBuffered 2 (mkScreenshotEntry "img2" (Some "sender-20-abcde") 25));
       mkTimer 6 440 clearBuffer].
Proof.
  destruct (registration_arms_paced_flush 2 register_frame
              (mkJson "register_browser" EmptyString) 40 "r" two_buffered)
    as (_ & _ & _ & Hflush); [reflexivity | reflexivity | reflexivity | done |].
  split; [reflexivity|].
  destruct (Hflush 240 (on_message 2 register_frame 40 "r" two_buffered).1) as [H _].
  exact H.
Defined.

(** ** Expiry of buffered entries *)

Lemma push_bounded_Forall {A : Type} (P : A → Prop) (x : A) (b : list A) :
  P x → Forall P b → Forall P (push_bounded x b).
Proof.
  intros Hx Hb. unfold push_bounded. apply Forall_app. split.
  - case_decide; [by apply Forall_tail | done].
  - by apply Forall_singleton.
Qed.

Lemma Forall_filter_keep {A : Type} (P Q : A → Prop) `{!∀ x, Decision (Q x)} (l : list A) :
  Forall P l → Forall P (filter Q l).
Proof.
  rewrite !Forall_forall. intros Hall x [_ Hx]%list_elem_of_filter. by apply Hall.
Qed.

Lemma cleanExpiredBuffers_fresh (T : Z) (s : State) : fresh_at T (cleanExpiredBuffers T s).
Proof.
  unfold fresh_at, cleanExpiredBuffers. simpl.
  split; apply Forall_forall; by intros e [He _]%list_elem_of_filter.
Qed.

Lemma cleanExpiredBuffers_keep (T now : Z) (s : State) :
  fresh_at T s → fresh_at T (cleanExpiredBuffers now s).
Proof.
  intros [H1 H2]. unfold fresh_at, cleanExpiredBuffers. simpl.
  split; by apply Forall_filter_keep.
Qed.

Lemma fresh_at_same (T : Z) (s s' : State) :
  screenshotBuffer s' = screenshotBuffer s → codeBuffer s' = codeBuffer s →
  fresh_at T s → fresh_at T s'.
Proof. unfold fresh_at. by intros -> ->. Qed.

Lemma on_screenshot_fresh (T : Z) (c : Conn) (d : Json) (now : Z) (rnd : string) (s : State) :
  T ≤ now → fresh_at T s →
  fresh_at T (on_screenshot c d now rnd s).1 ∧
  clock (on_screenshot c d now rnd s).1 = clock s.
Proof.
  intros Hnow [H1 H2]. unfold fresh_at, on_screenshot.
  destruct (negb (JsMap.has c (senders s))); simpl; case_decide; simpl;
    (split; [split|]); try done;
    apply push_bounded_Forall; try done; simpl; unfold MESSAGE_TTL_MS; lia.
Qed.

Lemma on_code_fresh (T : Z) (c : Conn) (m : Frame) (d : Json) (now : Z) (s : State) :
  T ≤ now → fresh_at T s →
  fresh_at T (on_code c m d now s).1 ∧ clock (on_code c m d now s).1 = clock s.
Proof.
  intros Hnow [H1 H2]. unfold fresh_at, on_code. case_decide; simpl;
    (split; [split|]); try done.
  apply push_bounded_Forall; try done; simpl; unfold MESSAGE_TTL_MS; lia.
Qed.

Lemma on_register_browser_frame (c : Conn) (now : Z) (s : State) :
  screenshotBuffer (on_register_browser c now s).1 = screenshotBuffer s ∧
  codeBuffer (on_register_browser c now s).1 = codeBuffer s ∧
  clock (on_register_browser c now s).1 = clock s.
Proof.
  unfold on_register_browser.
  destruct (cancel_registerTimer_fields c
              (set_clients (alter (write_isBrowser true) c (clients s)) s))
    as (_ & _ & Hsb2 & Hcb2 & _ & Hk2).
  set (s2 := cancel_registerTimer c _) in *.
  set (s3 := set_browserClients _ s2).
  destruct (drop_sender_fields c s3) as (_ & _ & Hsb4 & Hcb4 & _ & _ & Hk4).
  destruct (is_open (drop_sender c s3).1 c); [case_decide|]; simpl;
    rewrite Hsb4, Hcb4, Hk4; simpl; by rewrite Hsb2, Hcb2, Hk2.
Qed.

Lemma on_message_fresh (T : Z) (c : Conn) (m : Frame) (now : Z) (rnd : string) (s : State) :
  T ≤ now → fresh_at T s →
  fresh_at T (on_message c m now rnd s).1 ∧ clock (on_message c m now rnd s).1 = clock s.
Proof.
  intros Hnow Hf. unfold on_message. destruct (parsed m) as [d|]; [|done].
  repeat case_decide; try done.
  - by apply on_screenshot_fresh.
  - by apply on_code_fresh.
  - destruct (on_register_browser_frame c now s) as (Hsb & Hcb & Hk).
    split; [|done]. by apply (fresh_at_same T s).
Qed.

Lemma on_close_frame (c : Conn) (s : State) :
  screenshotBuffer (on_close c s).1 = screenshotBuffer s ∧
  codeBuffer (on_close c s).1 = codeBuffer s ∧
  clock (on_close c s).1 = clock s.
Proof.
  unfold on_close.
  destruct (cancel_registerTimer_fields c s) as (_ & _ & Hsb2 & Hcb2 & _ & Hk2).
  set (s1 := cancel_registerTimer c s) in *.
  destruct (drop_sender_fields c s1) as (_ & _ & Hsb4 & Hcb4 & _ & _ & Hk4).
  destruct (JsSet.has c _); simpl; by rewrite Hsb4, Hcb4, Hk4.
Qed.

Lemma on_registerTimer_fresh (T : Z) (c : Conn) (now : Z) (rnd : string) (s : State) :
  fresh_at T s →
  fresh_at T (on_registerTimer c now rnd s).1 ∧
  clock (on_registerTimer c now rnd s).1 = clock s.
Proof.
  intros [H1 H2]. unfold fresh_at, on_registerTimer.
  destruct (negb (ws_isBrowser s c) && negb (JsMap.has c (senders s))); simpl;
    (split; [split|]); try done.
Qed.

Lemma run_task_fresh (T : Z) (t : Task) (now : Z) (rnd : string) (s : State) :
  fresh_at T s →
  fresh_at T (run_task t now rnd s).1 ∧ clock (run_task t now rnd s).1 = clock s.
Proof.
  intros Hf. destruct t as [c|c|c msg| |]; simpl.
  - by apply on_registerTimer_fresh.
  - destruct (on_flushBuffered_spec c now s) as (_ & Hb & Hcb & Hk).
    split; [|done]. by apply (fresh_at_same T s).
  - done.
  - destruct Hf as [H1 H2]. unfold fresh_at. simpl. split; [|done]. by split.
  - split; [|done]. by apply (cleanExpiredBuffers_keep T now) in Hf.
Qed.

Lemma step_fresh (T now : Z) (e : Event) (s s' : State) (out : list Send) :
  T ≤ clock s → fresh_at T s →
  step now e s = Some (s', out) →
  fresh_at T s' ∧ T ≤ clock s'.
Proof.
  intros Hclk Hf. unfold step. case_decide as Hnow; [done|].
  assert (HT : T ≤ now) by lia.
  assert (Hf0 : fresh_at T (set_clock now s)) by done.
  destruct e as [c sock|c m rnd|c sock|c|rnd].
  - destruct (clients _ !! c); [done|]. intros [= <- _]. by split.
  - destruct (ws_readyState _ c); [|done]. case_decide; [done|].
    intros [-> _]%some_pair_inv.
    destruct (on_message_fresh T c m now rnd (set_clock now s) HT Hf0) as [H1 H2].
    split; [done|]. by rewrite H2.
  - destruct (is_open _ c); [|done]. intros [= <- _]. by split.
  - destruct (clients _ !! c) as [w|]; [|done]. case_decide; [done|].
    intros [-> _]%some_pair_inv.
    set (s1 := set_clients _ (set_clock now s)).
    destruct (on_close_frame c s1) as (Hsb & Hcb & Hk).
    split; [by apply (fresh_at_same T s1) | by rewrite Hk].
  - simpl. destruct (next_due (timers s)) as [t|]; [|done]. case_decide; [|done].
    intros [-> _]%some_pair_inv.
    set (s1 := clearTimeout (timer_id t) (set_clock now s)).
    destruct (run_task_fresh T (task t) now rnd s1) as [H1 H2]; [done|].
    split; [done | by rewrite H2].
Qed.

Lemma run_fresh (T : Z) (tr : list (Z * Event)) :
  ∀ (s s' : State) (out : list Send),
    T ≤ clock s → fresh_at T s →
    run tr s = Some (s', out) → fresh_at T s' ∧ T ≤ clock s'.
Proof.
  induction tr as [|[now e] tr IH]; intros s s' out Hclk Hf; simpl.
  - by intros [= <- _].
  - destruct (step now e s) as [[s1 out1]|] eqn:Hstep; [|done].
    destruct (step_fresh T now e s s1 out1 Hclk Hf Hstep) as [Hf1 Hclk1].
    destruct (run tr s1) as [[s2 out2]|] eqn:Hrun; [|done].
    intros [= <- _]. by apply (IH s1 s2 out2).
Qed.

Lemma paced_timers_entry (c : Conn) (now : Z) (first : TimerId)
    (buf : list ScreenshotEntry) (t : Timer) (p : ScreenshotEntry) :
  t ∈ paced_timers c now first buf → task t = sendBuffered c p → p ∈ buf.
Proof.
  unfold paced_timers. rewrite elem_of_app. intros [Hin|Hin] Ht.
  - apply elem_of_lookup_imap_1 in Hin as (i & x & -> & Hx). simpl in Ht.
    injection Ht as <-. by apply list_elem_of_lookup_2 in Hx.
  - apply list_elem_of_singleton in Hin as ->. done.
Qed.

Lemma on_registerTimer_code_entry (c r : Conn) (now : Z) (rnd : string) (s : State)
    (d : Payload) :
  (r, code d) ∈ (on_registerTimer c now rnd s).2 → ∃ e, e ∈ codeBuffer s ∧ c_data e = d.
Proof.
  unfold on_registerTimer.
  destruct (negb (ws_isBrowser s c) && negb (JsMap.has c (senders s))); simpl.
  - rewrite elem_of_app. intros [Hin|Hin].
    + exfalso. revert Hin. apply no_code_frames_elem.
      apply (broadcast_frames (λ o, ∀ d, o ≠ code d)). discriminate.
    + rewrite (bind_send_if_open _ (λ _, c) (λ msg, code (c_data msg))) in Hin.
      apply list_elem_of_fmap in Hin as [e [[= _ ->] [_ He]%list_elem_of_filter]].
      by exists e.
  - intros []%not_elem_of_nil.
Qed.

(** C2, as the code has it.  When the sweep runs at time [T] it keeps in
    each buffer exactly the entries younger than the TTL at [T].  From
    then on, whatever events follow, every entry in either buffer is
    younger than the TTL at [T]; so a flush whose copy of the buffer is
    taken after the sweep (the settle callback for the producer buffer,
    the [registerTimer] callback for the command buffer) schedules or
    sends no entry that had reached the TTL when the sweep ran.  The
    flushes themselves do not look at timestamps. *)
Theorem swept_entries_stay_out_of_later_flushes
    (T : Z) (rnd : string) (s0 s1 : State) (out1 : list Send) (t : Timer)
    (tr : list (Z * Event)) (s' : State) (out : list Send) :
  next_due (timers s0) = Some t → task t = cleanExpired →
  step T (timeout rnd) s0 = Some (s1, out1) →
  run tr s1 = Some (s', out) →
  screenshotBuffer s1
    = filter (λ e : ScreenshotEntry, T - s_timestamp e < MESSAGE_TTL_MS) (screenshotBuffer s0) ∧
  codeBuffer s1
    = filter (λ e : CodeEntry, T - c_timestamp e < MESSAGE_TTL_MS) (codeBuffer s0) ∧
  (∀ e, e ∈ screenshotBuffer s' → T - s_timestamp e < MESSAGE_TTL_MS) ∧
  (∀ e, e ∈ codeBuffer s' → T - c_timestamp e < MESSAGE_TTL_MS) ∧
  (∀ c now t' p, t' ∈ timers (on_flushBuffered c now s') → t' ∉ timers s' →
     task t' = sendBuffered c p →
     p ∈ screenshotBuffer s' ∧ T - s_timestamp p < MESSAGE_TTL_MS) ∧
  (∀ c now rnd' r d, (r, code d) ∈ (on_registerTimer c now rnd' s').2 →
     ∃ e, e ∈ codeBuffer s' ∧ c_data e = d ∧ T - c_timestamp e < MESSAGE_TTL_MS).
Proof.
  intros Hnext Htask Hstep Hrun. unfold step in Hstep.
  case_decide as Hnow; [done|]. simpl in Hstep. rewrite Hnext in Hstep.
  case_decide; [|done]. rewrite Htask in Hstep. simpl in Hstep.
  injection Hstep as <- <-.
  split; [reflexivity|]. split; [reflexivity|].
  match type of Hrun with run _ ?x = _ => set (s1 := x) in * end.
  assert (Hf1 : fresh_at T s1).
  { apply (fresh_at_same T (cleanExpiredBuffers T s0)); [done | done |].
    apply cleanExpiredBuffers_fresh. }
  destruct (run_fresh T tr s1 s' out) as [[Hsb Hcb] _]; [simpl; lia | done | done |].
  rewrite Forall_forall in Hsb. rewrite Forall_forall in Hcb.
  split; [done|]. split; [done|]. split.
  - intros c now t' p Hin Hnin Ht'.
    destruct (on_flushBuffered_spec c now s') as (Htm & _).
    rewrite Htm, elem_of_app in Hin. destruct Hin as [Hin|Hin]; [done|].
    apply (paced_timers_entry _ _ _ _ _ p) in Hin; [|done]. split; [done | by apply Hsb].
  - intros c now rnd' r d Hin.
    apply on_registerTimer_code_entry in Hin as (e & He & Hd).
    exists e. split; [done|]. split; [done | by apply Hcb].
Qed.

Lemma swept_entries_stay_out_of_later_flushes_witness :
  ∃ s1 s',
    step 12000000 (timeout EmptyString) before_sweep = Some (s1, []) ∧
    run [(12000700, timeout "fghij")] s1
      = Some (s', [(3%nat, code "pwd")]) ∧
    screenshotBuffer s1 = [] ∧
    codeBuffer s1 = [mkCodeEntry "pwd" 11999000] ∧
    ∀ e, e ∈ codeBuffer s' → 12000000 - c_timestamp e < MESSAGE_TTL_MS.
Proof.
  eexists _, _. split; [reflexivity|]. split; [reflexivity|].
  destruct (swept_entries_stay_out_of_later_flushes 12000000 EmptyString before_sweep
              _ _ (mkTimer 21 12000000 cleanExpired)
              [(12000700, timeout "fghij")] _ _ eq_refl eq_refl eq_refl eq_refl)
    as (H1 & H2 & _ & H4 & _).
  split; [exact H1|]. split; [exact H2 | exact H4].
Defined.

(** ** The producer buffer in the event loop *)

Lemma on_screenshot_buffer (c : Conn) (d : Json) (now : Z) (rnd : string) (s : State) :
  clock (on_screenshot c d now rnd s).1 = clock s ∧
  ∃ sid,
    screenshotBuffer (on_screenshot c d now rnd s).1
    = if decide (browserClients s = [])
      then push_bounded (mkScreenshotEntry (data d) sid now) (screenshotBuffer s)
      else screenshotBuffer s.
Proof.
  unfold on_screenshot.
  destruct (negb (JsMap.has c (senders s))); simpl;
    destruct (browserClients s) as [|b l]; simpl; (split; [done|]);
    by exists None + eauto.
Qed.

Lemma on_code_screenshotBuffer (c : Conn) (m : Frame) (d : Json) (now : Z) (s : State) :
  screenshotBuffer (on_code c m d now s).1 = screenshotBuffer s ∧
  clock (on_code c m d now s).1 = clock s.
Proof. unfold on_code. by case_decide. Qed.

Lemma on_registerTimer_screenshotBuffer (c : Conn) (now : Z) (rnd : string) (s : State) :
  screenshotBuffer (on_registerTimer c now rnd s).1 = screenshotBuffer s ∧
  clock (on_registerTimer c now rnd s).1 = clock s.
Proof.
  unfold on_registerTimer.
  by destruct (negb (ws_isBrowser s c) && negb (JsMap.has c (senders s))).
Qed.

(** What one turn of the loop does to the producer buffer when it is
    not the trailing clear: a payload that finds no browser is pushed,
    and nothing else changes it, the sweep included while every entry is
    younger than the TTL. *)
Lemma step_producer_buffer (t0 now : Z) (e : Event) (s s1 : State) (out : list Send) :
  step now e s = Some (s1, out) →
  runs_clear e s = false →
  t0 ≤ clock s → now - t0 < MESSAGE_TTL_MS →
  Forall (λ x : ScreenshotEntry, t0 ≤ s_timestamp x) (screenshotBuffer s) →
  t0 ≤ clock s1 ∧
  Forall (λ x : ScreenshotEntry, t0 ≤ s_timestamp x) (screenshotBuffer s1) ∧
  ∃ l, stored <$> l = unwatched_payload now e s ∧
       screenshotBuffer s1 = pushes l (screenshotBuffer s).
Proof.
  intros Hstep Hclear Hclk Hnow Hall. unfold step in Hstep.
  case_decide as Hlate; [done|].
  assert (Hsame : ∀ (s2 : State) (pl : list (Payload * Z)),
            clock s2 = now → screenshotBuffer s2 = screenshotBuffer s → pl = [] →
            t0 ≤ clock s2 ∧
            Forall (λ x : ScreenshotEntry, t0 ≤ s_timestamp x) (screenshotBuffer s2) ∧
            ∃ l, stored <$> l = pl ∧
                 screenshotBuffer s2 = pushes l (screenshotBuffer s)).
  { intros s2 pl Hk Hb ->. rewrite Hk, Hb. split; [lia|]. split; [done|]. by exists []. }
  destruct e as [c sock|c m rnd|c sock|c|rnd].
  - destruct (clients _ !! c); [done|]. injection Hstep as <- _. by apply Hsame.
  - destruct (ws_readyState _ c); [|done]. case_decide; [done|].
    apply some_pair_inv in Hstep as [-> _]. unfold on_message. simpl.
    destruct (parsed m) as [d|]; [|by apply Hsame].
    case_decide as Hs; [|case_decide; [|case_decide]].
    + destruct (on_screenshot_buffer c d now rnd (set_clock now s)) as (Hk & sid & Hb).
      rewrite Hk, Hb. clear Hk Hb. simpl. split; [lia|].
      destruct (decide (browserClients s = [])) as [Hnone|Hsome].
      * split; [apply push_bounded_Forall; [simpl; lia | done]|].
        by exists [mkScreenshotEntry (data d) sid now].
      * split; [done|]. by exists [].
    + destruct (on_code_screenshotBuffer c m d now (set_clock now s)) as [Hb Hk].
      apply Hsame; [by rewrite Hk | by rewrite Hb | done].
    + destruct (on_register_browser_frame c now (set_clock now s)) as (Hb & _ & Hk).
      apply Hsame; [by rewrite Hk | by rewrite Hb | done].
    + by apply Hsame.
  - destruct (is_open _ c); [|done]. injection Hstep as <- _. by apply Hsame.
  - destruct (clients _ !! c) as [w|]; [|done]. case_decide; [done|].
    apply some_pair_inv in Hstep as [-> _].
    set (s0 := set_clients _ (set_clock now s)).
    destruct (on_close_frame c s0) as (Hb & _ & Hk).
    apply Hsame; [by rewrite Hk | by rewrite Hb | done].
  - simpl in Hstep, Hclear. destruct (next_due (timers s)) as [t|]; [|done].
    case_decide; [|done]. apply some_pair_inv in Hstep as [-> _].
    apply bool_decide_eq_false in Hclear.
    set (s0 := clearTimeout (timer_id t) (set_clock now s)).
    destruct (task t) as [c|c|c msg| |] eqn:Htask; unfold run_task, unwatched_payload;
      cbn [fst].
    + destruct (on_registerTimer_screenshotBuffer c now rnd s0) as [Hb Hk].
      apply Hsame; [by rewrite Hk | by rewrite Hb | done].
    + destruct (on_flushBuffered_spec c now s0) as (_ & Hb & _ & Hk).
      apply Hsame; [by rewrite Hk | by rewrite Hb | done].
    + by apply Hsame.
    + done.
    + simpl. split; [lia|].
      assert (Hkeep : filter (λ msg : ScreenshotEntry, now - s_timestamp msg < MESSAGE_TTL_MS)
                        (screenshotBuffer s) = screenshotBuffer s).
      { apply filter_all. intros x Hx. rewrite Forall_forall in Hall.
        specialize (Hall x Hx). simpl in Hall. lia. }
      rewrite Hkeep. split; [done|]. by exists [].
Qed.

Lemma run_producer_buffer (t0 : Z) (tr : list (Z * Event)) :
  ∀ (s s' : State) (out : list Send),
    run tr s = Some (s', out) →
    clear_free tr s = true →
    t0 ≤ clock s →
    Forall (λ x : Z * Event, x.1 - t0 < MESSAGE_TTL_MS) tr →
    Forall (λ x : ScreenshotEntry, t0 ≤ s_timestamp x) (screenshotBuffer s) →
    t0 ≤ clock s' ∧
    Forall (λ x : ScreenshotEntry, t0 ≤ s_timestamp x) (screenshotBuffer s') ∧
    ∃ l, stored <$> l = unwatched_payloads tr s ∧
         screenshotBuffer s' = pushes l (screenshotBuffer s).
Proof.
  induction tr as [|[now e] tr IH]; intros s s' out Hrun Hfree Hclk Htimes Hall; simpl in *.
  - injection Hrun as <- _. split; [done|]. split; [done|]. by exists [].
  - destruct (step now e s) as [[s1 out1]|] eqn:Hstep; [|done].
    destruct (run tr s1) as [[s2 out2]|] eqn:Hrun1; [|done]. injection Hrun as <- _.
    apply andb_true_iff in Hfree as [Hc Hfree]. apply negb_true_iff in Hc.
    apply Forall_cons in Htimes as [Hnow Htimes]. simpl in Hnow.
    destruct (step_producer_buffer t0 now e s s1 out1 Hstep Hc Hclk Hnow Hall)
      as (Hclk1 & Hall1 & l1 & Hl1 & Hb1).
    destruct (IH s1 s2 out2 Hrun1 Hfree Hclk1 Htimes Hall1)
      as (Hclk2 & Hall2 & l2 & Hl2 & Hb2).
    split; [done|]. split; [done|]. exists (l1 ++ l2). split.
    + by rewrite fmap_app, Hl1, Hl2.
    + rewrite Hb2, Hb1. unfold pushes. by rewrite foldl_app.
Qed.

Lemma pushes_snoc (l : list ScreenshotEntry) (x : ScreenshotEntry) (b : list ScreenshotEntry) :
  pushes (l ++ [x]) b = push_bounded x (pushes l b).
Proof. unfold pushes. by rewrite foldl_app. Qed.

(** Pushing onto an empty buffer keeps the last [MAX_BUFFER_SIZE]
    elements pushed. *)
Lemma pushes_last (l : list ScreenshotEntry) :
  pushes l [] = drop (length l - MAX_BUFFER_SIZE) l.
Proof.
  induction l as [|x l IH] using rev_ind; [done|].
  by rewrite pushes_snoc, IH, push_bounded_last.
Qed.

Lemma run_app_inv (tr1 tr2 : list (Z * Event)) :
  ∀ (s s' : State) (out : list Send),
    run (tr1 ++ tr2) s = Some (s', out) →
    ∃ s1 out1 out2,
      run tr1 s = Some (s1, out1) ∧ run tr2 s1 = Some (s', out2) ∧ out = out1 ++ out2.
Proof.
  induction tr1 as [|[now e] tr1 IH]; intros s s' out Hrun; simpl in *.
  - by exists s, [], out.
  - destruct (step now e s) as [[s0 out0]|]; [|done].
    destruct (run (tr1 ++ tr2) s0) as [[s2 out2]|] eqn:Hrest; [|done].
    injection Hrun as <- <-.
    destruct (IH s0 s2 out2 Hrest) as (s1 & o1 & o2 & H1 & H2 & ->).
    rewrite H1. exists s1, (out0 ++ o1), o2. by rewrite app_assoc.
Qed.

Lemma clear_free_app (tr1 tr2 : list (Z * Event)) :
  ∀ (s s1 : State) (out1 : list Send),
    run tr1 s = Some (s1, out1) →
    clear_free (tr1 ++ tr2) s = clear_free tr1 s && clear_free tr2 s1.
Proof.
  induction tr1 as [|[now e] tr1 IH]; intros s s1 out1 Hrun; simpl in *.
  - by injection Hrun as <- _.
  - destruct (step now e s) as [[s0 out0]|]; [|done].
    destruct (run tr1 s0) as [[s2 out2]|] eqn:Hrest; [|done].
    injection Hrun as <- _. rewrite (IH s0 s2 out2 Hrest). by rewrite andb_assoc.
Qed.

(** C3, amended.  Producer payloads received while no browser is
    registered, starting from an empty producer buffer, in a run of the
    event loop in which no trailing clear of a paced flush expires and
    which ends less than the TTL after it started (so that the sweep
    removes nothing): whatever else happens in the run, the buffer holds
    [min count 100] entries afterwards, the payloads (with their arrival
    times) of the last [min count 100] of them in arrival order; and
    every such payload that arrives when 100 or more came before it
    makes the buffer lose exactly its oldest entry and gain the new one
    at the end. *)
Theorem producer_buffer_keeps_most_recent_between_clears
    (tr : list (Z * Event)) (s s' : State) (out : list Send) :
  run tr s = Some (s', out) →
  screenshotBuffer s = [] →
  clear_free tr s = true →
  Forall (λ x : Z * Event, x.1 - clock s < MESSAGE_TTL_MS) tr →
  let received := unwatched_payloads tr s in
  let count := length received in
  length (screenshotBuffer s') = (count `min` 100)%nat ∧
  stored <$> screenshotBuffer s' = drop (count - count `min` 100) received ∧
  (∀ tr1 now e tr2 s1 out1 p,
     tr = tr1 ++ (now, e) :: tr2 →
     run tr1 s = Some (s1, out1) →
     unwatched_payload now e s1 = [p] →
     (100 ≤ length (unwatched_payloads tr1 s))%nat →
     ∃ s2 out2 x,
       step now e s1 = Some (s2, out2) ∧ stored x = p ∧
       screenshotBuffer s2 = tail (screenshotBuffer s1) ++ [x]).
Proof.
  intros Hrun Hempty Hfree Htimes received count.
  assert (Hstart : Forall (λ x : ScreenshotEntry, clock s ≤ s_timestamp x)
                     (screenshotBuffer s)) by (by rewrite Hempty).
  assert (Hd : ∀ n : nat, (n - n `min` 100 = n - MAX_BUFFER_SIZE)%nat)
    by (intros n; unfold MAX_BUFFER_SIZE; lia).
  destruct (run_producer_buffer (clock s) tr s s' out Hrun Hfree (Z.le_refl _) Htimes Hstart)
    as (_ & _ & l & Hl & Hbuf).
  rewrite Hempty, pushes_last in Hbuf.
  assert (Hlen : length l = count).
  { subst count received. by rewrite <- Hl, length_fmap. }
  split; [|split].
  - rewrite Hbuf, length_drop, Hlen. unfold MAX_BUFFER_SIZE. lia.
  - subst received. by rewrite Hbuf, fmap_drop, Hl, Hlen, Hd.
  - intros tr1 now e tr2 s1 out1 p -> Hrun1 Hp Hfull.
    destruct (run_app_inv _ _ _ _ _ Hrun) as (s1' & o1 & o2 & Hr1 & Hr2 & _).
    rewrite Hrun1 in Hr1. injection Hr1 as <- <-.
    rewrite (clear_free_app _ _ _ _ _ Hrun1) in Hfree.
    apply andb_true_iff in Hfree as [Hfree1 Hfree2].
    apply Forall_app in Htimes as [Htimes1 Htimes2].
    apply Forall_cons in Htimes2 as [Hnow _]. simpl in Hnow, Hr2, Hfree2.
    destruct (step now e s1) as [[s2 out2]|] eqn:Hstep; [|done].
    apply andb_true_iff in Hfree2 as [Hc _]. apply negb_true_iff in Hc.
    destruct (run_producer_buffer (clock s) tr1 s s1 out1 Hrun1 Hfree1 (Z.le_refl _)
                Htimes1 Hstart) as (Hclk1 & Hall1 & l1 & Hl1 & Hbuf1).
    rewrite Hempty, pushes_last in Hbuf1.
    destruct (step_producer_buffer (clock s) now e s1 s2 out2 Hstep Hc Hclk1 Hnow Hall1)
      as (_ & _ & l2 & Hl2 & Hbuf2).
    rewrite Hp in Hl2. destruct l2 as [|x [|y l2]]; try done.
    injection Hl2 as Hx. exists s2, out2, x. split; [done|]. split; [done|].
    rewrite Hbuf2. unfold pushes. simpl. unfold push_bounded.
    rewrite decide_True; [done|].
    rewrite Hbuf1, length_drop. rewrite <- Hl1, length_fmap in Hfull.
    unfold MAX_BUFFER_SIZE in *. lia.
Qed.

Lemma producer_buffer_keeps_most_recent_between_clears_witness :
  length (screenshotBuffer (state_after flood_then_sweep)) = 100%nat ∧
  stored <$> screenshotBuffer (state_after flood_then_sweep)
    = drop 3 (unwatched_payloads flood_then_sweep (init 0)).
Proof.
  destruct (run flood_then_sweep (init 0)) as [[s' out]|] eqn:Hrun;
    [|by vm_compute in Hrun].
  assert (Hs : state_after flood_then_sweep = s').
  { unfold state_after, run_state. by rewrite Hrun. }
  rewrite Hs.
  destruct (producer_buffer_keeps_most_recent_between_clears flood_then_sweep (init 0)
              s' out Hrun) as (H1 & H2 & _); [reflexivity | by vm_compute | |].
  - apply (bool_decide_unpack _). by vm_compute.
  - split; [exact H1 | exact H2].
Defined.

(** ** What holds of the registry *)

(** Membership of the two registry structures changes only in
    classification or close handling. *)
Lemma registry_changes_only_on_classification_or_close
    (now : Z) (e : Event) (s s' : State) (out : list Send) :
  step now e s = Some (s', out) →
  senders s' ≠ senders s ∨ browserClients s' ≠ browserClients s →
  classifies_or_closes e s.
Proof.
  unfold step. case_decide as Hnow; [done|].
  destruct e as [c sock|c m rnd|c sock|c|rnd]; simpl.
  - destruct (clients s !! c); [done|]. intros [= <- _]. simpl. tauto.
  - destruct (ws_readyState _ c); [|done]. case_decide; [done|].
    intros [-> _]%some_pair_inv. unfold on_message.
    destruct (parsed m) as [d|]; [|simpl; tauto].
    repeat case_decide; try (simpl; tauto); eauto.
    unfold on_code. case_decide; simpl; tauto.
  - destruct (is_open _ c); [|done]. intros [= <- _]. simpl. tauto.
  - done.
  - destruct (next_due (timers s)) as [t|]; [|done]. case_decide; [|done].
    intros [-> _]%some_pair_inv.
    destruct (task t) as [c|c|c msg| |] eqn:Ht; unfold run_task; cbn [fst].
    + eauto.
    + destruct (on_flushBuffered_registry c now
                  (clearTimeout (timer_id t) (set_clock now s))) as (-> & -> & _).
      simpl. tauto.
    + simpl. tauto.
    + simpl. tauto.
    + simpl. tauto.
Qed.

(** The [registerTimer] callback does nothing on a connection flagged
    [_isBrowser]. *)
Lemma registerTimer_skips_browsers (c : Conn) (now : Z) (rnd : string) (s : State) :
  ws_isBrowser s c = true → on_registerTimer c now rnd s = (s, []).
Proof. intros Hb. unfold on_registerTimer. by rewrite Hb. Qed.

(** ** The [_isBrowser] flag is never reset *)

Lemma isBrowser_same_clients (s s' : State) (c : Conn) :
  clients s' = clients s → ws_isBrowser s' c = ws_isBrowser s c.
Proof. unfold ws_isBrowser. by intros ->. Qed.

Lemma isBrowser_alter (f : WebSocket → WebSocket) (c c' : Conn) (s s0 : State) :
  (∀ w, _isBrowser w = true → _isBrowser (f w) = true) →
  ws_isBrowser s c' = true →
  ws_isBrowser (set_clients (alter f c (clients s)) s0) c' = true.
Proof.
  intros Hf. unfold ws_isBrowser. simpl. rewrite lookup_alter.
  case_decide; subst; [|done].
  destruct (clients s !! c') as [w|]; simpl; [apply Hf | done].
Qed.

Lemma on_screenshot_clients (c : Conn) (d : Json) (now : Z) (rnd : string) (s : State) :
  clients (on_screenshot c d now rnd s).1 = clients s.
Proof.
  unfold on_screenshot.
  destruct (negb (JsMap.has c (senders s))); simpl; case_decide; reflexivity.
Qed.

Lemma on_code_clients (c : Conn) (m : Frame) (d : Json) (now : Z) (s : State) :
  clients (on_code c m d now s).1 = clients s.
Proof. unfold on_code. case_decide; reflexivity. Qed.

Lemma on_register_browser_isBrowser (c c' : Conn) (now : Z) (s : State) :
  ws_isBrowser s c' = true ∨ (c' = c ∧ is_Some (clients s !! c)) →
  ws_isBrowser (on_register_browser c now s).1 c' = true.
Proof.
  intros Hc'. unfold on_register_browser.
  set (s1 := set_clients (alter (write_isBrowser true) c (clients s)) s).
  assert (H1 : ws_isBrowser s1 c' = true).
  { destruct Hc' as [Hb|[-> [w Hw]]].
    - by apply isBrowser_alter.
    - unfold ws_isBrowser, s1. simpl. by rewrite lookup_alter_eq, Hw. }
  pose proof (cancel_registerTimer_isBrowser c c' s1) as H2.
  set (s2 := cancel_registerTimer c s1) in *.
  set (s3 := set_browserClients _ s2).
  destruct (drop_sender_fields c s3) as (Hc4 & _).
  assert (H4 : ws_isBrowser (drop_sender c s3).1 c' = true).
  { rewrite (isBrowser_same_clients s3) by done. change (ws_isBrowser s2 c' = true).
    by rewrite H2. }
  destruct (is_open (drop_sender c s3).1 c); [case_decide|]; simpl; try done.
Qed.

Lemma on_close_isBrowser (c c' : Conn) (s : State) :
  ws_isBrowser s c' = true → ws_isBrowser (on_close c s).1 c' = true.
Proof.
  intros Hb. unfold on_close.
  pose proof (cancel_registerTimer_isBrowser c c' s) as H2.
  set (s1 := cancel_registerTimer c s) in *.
  destruct (drop_sender_fields c s1) as (Hc4 & _).
  assert (H4 : ws_isBrowser (drop_sender c s1).1 c' = true).
  { rewrite (isBrowser_same_clients s1) by done. by rewrite H2. }
  by destruct (JsSet.has c _).
Qed.

Lemma run_task_clients (t : Task) (now : Z) (rnd : string) (s : State) :
  clients (run_task t now rnd s).1 = clients s.
Proof.
  destruct t as [c|c|c msg| |]; unfold run_task; cbn [fst]; try done.
  - unfold on_registerTimer.
    by destruct (negb (ws_isBrowser s c) && negb (JsMap.has c (senders s))).
  - by destruct (on_flushBuffered_registry c now s) as (_ & _ & ->).
Qed.

Lemma step_isBrowser (now : Z) (e : Event) (s s' : State) (out : list Send) (c : Conn) :
  step now e s = Some (s', out) →
  ws_isBrowser s c = true → ws_isBrowser s' c = true.
Proof.
  unfold step. case_decide as Hnow; [done|]. intros Hstep Hb.
  assert (Hb0 : ws_isBrowser (set_clock now s) c = true) by done.
  destruct e as [c0 sock|c0 m rnd|c0 sock|c0|rnd].
  - destruct (clients (set_clock now s) !! c0) eqn:Hc0; [done|].
    injection Hstep as <- _. unfold ws_isBrowser, on_connection. simpl in *.
    destruct (decide (c0 = c)) as [->|Hne].
    + unfold ws_isBrowser in Hb. by rewrite Hc0 in Hb.
    + by rewrite lookup_insert_ne.
  - destruct (ws_readyState _ c0); [|done]. case_decide; [done|].
    apply some_pair_inv in Hstep as [-> _]. unfold on_message.
    destruct (parsed m) as [d|]; [|done].
    repeat case_decide; try done.
    + by rewrite (isBrowser_same_clients (set_clock now s)) by apply on_screenshot_clients.
    + by rewrite (isBrowser_same_clients (set_clock now s)) by apply on_code_clients.
    + apply on_register_browser_isBrowser. by left.
  - destruct (is_open _ c0); [|done]. injection Hstep as <- _.
    by apply isBrowser_alter.
  - destruct (clients _ !! c0) as [w|]; [|done]. case_decide; [done|].
    apply some_pair_inv in Hstep as [-> _].
    apply on_close_isBrowser. by apply isBrowser_alter.
  - simpl in Hstep. destruct (next_due (timers s)) as [t|]; [|done].
    case_decide; [|done]. apply some_pair_inv in Hstep as [-> _].
    by rewrite (isBrowser_same_clients (clearTimeout (timer_id t) (set_clock now s)))
      by apply run_task_clients.
Qed.

Lemma run_isBrowser (tr : list (Z * Event)) (c : Conn) :
  ∀ (s s' : State) (out : list Send),
    run tr s = Some (s', out) → ws_isBrowser s c = true → ws_isBrowser s' c = true.
Proof.
  induction tr as [|[now e] tr IH]; intros s s' out; simpl.
  - by intros [= <- _].
  - destruct (step now e s) as [[s1 out1]|] eqn:Hstep; [|done].
    destruct (run tr s1) as [[s2 out2]|] eqn:Hrun; [|done].
    intros [= <- _] Hb. apply (IH s1 s2 out2 Hrun).
    by apply (step_isBrowser now e s s1 out1).
Qed.

(** The timer path keeps its promise: once a connection has sent
    [register_browser], no later expiry of its [registerTimer] makes it a
    sender or sends anything, whatever happened in between. *)
Lemma registered_browser_not_classified_by_timer
    (c : Conn) (m : Frame) (d : Json) (now : Z) (rnd : string)
    (tr : list (Z * Event)) (s s' : State) (out : list Send) (now' : Z) (rnd' : string) :
  parsed m = Some d → type d = "register_browser" →
  run ((now, message c m rnd) :: tr) s = Some (s', out) →
  on_registerTimer c now' rnd' s' = (s', []).
Proof.
  intros Hp Ht. simpl.
  destruct (step now (message c m rnd) s) as [[s1 out1]|] eqn:Hstep; [|done].
  destruct (run tr s1) as [[s2 out2]|] eqn:Hrun; [|done]. intros [= <- _].
  apply registerTimer_skips_browsers, (run_isBrowser tr c s1 s2 out2 Hrun).
  unfold step in Hstep. case_decide; [done|].
  unfold ws_readyState in Hstep.
  destruct (clients (set_clock now s) !! c) as [w|] eqn:Hw; [|done]. simpl in Hstep.
  case_decide; [done|]. apply some_pair_inv in Hstep as [-> _].
  rewrite (on_message_register _ _ _ _ _ _ Hp Ht).
  apply on_register_browser_isBrowser. right. by split.
Qed.

(** * Further properties of the code *)

(** ** The liveness monitor *)

Lemma sweep_flags_other (clients : list nat) (ws : nat) :
  ∀ isAlive : gmap nat bool,
    ws ∉ clients → (Liveness.sweep clients isAlive).1 !! ws = isAlive !! ws.
Proof.
  induction clients as [|c l IH]; intros isAlive Hn; [done|].
  apply not_elem_of_cons in Hn as [Hne Hn]. simpl. unfold Liveness.probe.
  case_decide.
  - specialize (IH isAlive Hn). destruct (Liveness.sweep l isAlive). done.
  - specialize (IH (<[c:=false]> isAlive) Hn).
    destruct (Liveness.sweep l (<[c:=false]> isAlive)). simpl in *.
    by rewrite IH, lookup_insert_ne.
Qed.

(** Every probe of a pass is addressed to a client of [wss.clients]. *)
Lemma sweep_probes_clients (clients : list nat) (p : Liveness.Probe) :
  ∀ isAlive : gmap nat bool,
    p ∈ (Liveness.sweep clients isAlive).2 →
    ∃ ws, ws ∈ clients ∧ (p = Liveness.terminate ws ∨ p = Liveness.ping ws).
Proof.
  induction clients as [|c l IH]; intros isAlive; simpl.
  - by intros ?%not_elem_of_nil.
  - unfold Liveness.probe. case_decide;
      match goal with |- context [Liveness.sweep l ?a] =>
        specialize (IH a); destruct (Liveness.sweep l a) end; simpl in *;
      rewrite elem_of_cons; (intros [->|Hp]; [exists c; split; [left|]; eauto|]);
      destruct (IH Hp) as (ws & Hws & Hor); exists ws; (split; [by right | done]).
Qed.

(** What one pass of the monitor does to a client of [wss.clients]: it
    is terminated when its flag is [false] and pinged otherwise, never
    both, and its flag is [false] afterwards. *)
Lemma sweep_client (clients : list nat) (ws : nat) :
  ∀ isAlive : gmap nat bool,
    NoDup clients → ws ∈ clients →
    (Liveness.sweep clients isAlive).1 !! ws = Some false ∧
    (isAlive !! ws = Some false →
       Liveness.terminate ws ∈ (Liveness.sweep clients isAlive).2 ∧
       Liveness.ping ws ∉ (Liveness.sweep clients isAlive).2) ∧
    (isAlive !! ws ≠ Some false →
       Liveness.ping ws ∈ (Liveness.sweep clients isAlive).2 ∧
       Liveness.terminate ws ∉ (Liveness.sweep clients isAlive).2).
Proof.
  induction clients as [|c l IH]; intros isAlive Hnd Hin; [by apply not_elem_of_nil in Hin|].
  apply NoDup_cons in Hnd as [Hc Hnd]. simpl. unfold Liveness.probe.
  assert (Hrest : ∀ a p, p ∈ (Liveness.sweep l a).2 →
                         p ≠ Liveness.ping c ∧ p ≠ Liveness.terminate c).
  { intros a p (ws' & Hws' & [->| ->])%sweep_probes_clients; split; congruence. }
  destruct (decide (ws = c)) as [->|Hne].
  - clear IH Hin. case_decide as Hf.
    + pose proof (sweep_flags_other l c isAlive Hc) as Hother.
      specialize (Hrest isAlive).
      destruct (Liveness.sweep l isAlive) as [a2 out2]. simpl in *.
      split; [by rewrite Hother|]. split; [|done]. intros _. split; [by left|].
      rewrite elem_of_cons. intros [[=]|Hp]. by destruct (Hrest _ Hp).
    + pose proof (sweep_flags_other l c (<[c:=false]> isAlive) Hc) as Hother.
      specialize (Hrest (<[c:=false]> isAlive)).
      destruct (Liveness.sweep l (<[c:=false]> isAlive)) as [a2 out2]. simpl in *.
      split; [by rewrite Hother, lookup_insert_eq|]. split; [done|]. intros _.
      split; [by left|]. rewrite elem_of_cons. intros [[=]|Hp]. by destruct (Hrest _ Hp).
  - clear Hrest. apply elem_of_cons in Hin as [?|Hin]; [done|].
    case_decide as Hf.
    + destruct (IH isAlive Hnd Hin) as (H1 & H2 & H3).
      destruct (Liveness.sweep l isAlive) as [a2 out2]. simpl in *.
      split; [done|]. split; intros Hw.
      * destruct (H2 Hw) as [Ht Hp]. split; [by right|].
        rewrite elem_of_cons. by intros [[=]|?].
      * destruct (H3 Hw) as [Hp Ht]. split; [by right|].
        rewrite elem_of_cons. intros [[=]|?]; [congruence | done].
    + destruct (IH (<[c:=false]> isAlive) Hnd Hin) as (H1 & H2 & H3).
      rewrite lookup_insert_ne in H2, H3 by done.
      destruct (Liveness.sweep l (<[c:=false]> isAlive)) as [a2 out2]. simpl in *.
      split; [done|]. split; intros Hw.
      * destruct (H2 Hw) as [Ht Hp]. split; [by right|].
        rewrite elem_of_cons. intros [[=]|?]; [congruence | done].
      * destruct (H3 Hw) as [Hp Ht]. split; [by right|].
        rewrite elem_of_cons. by intros [[=]|?].
Qed.

(** X1.  A client that has not answered the ping of one pass is
    terminated by the next pass it is still a client of, and is not
    pinged again, whatever happened to other clients in between. *)
Theorem silent_client_is_terminated
    (clients clients' : list nat) (ws : nat) (isAlive isAlive' : gmap nat bool) :
  NoDup clients → NoDup clients' → ws ∈ clients → ws ∈ clients' →
  isAlive' !! ws = (Liveness.sweep clients isAlive).1 !! ws →
  Liveness.terminate ws ∈ (Liveness.sweep clients' isAlive').2 ∧
  Liveness.ping ws ∉ (Liveness.sweep clients' isAlive').2.
Proof.
  intros Hnd Hnd' Hin Hin' Hsame.
  destruct (sweep_client clients ws isAlive Hnd Hin) as (Hf & _).
  destruct (sweep_client clients' ws isAlive' Hnd' Hin') as (_ & Ht & _).
  apply Ht. by rewrite Hsame.
Qed.

Lemma silent_client_is_terminated_witness :
  Liveness.terminate 2 ∈ (Liveness.sweep three_clients
                            (Liveness.sweep three_clients flags_after_silence).1).2 ∧
  Liveness.ping 2 ∉ (Liveness.sweep three_clients
                       (Liveness.sweep three_clients flags_after_silence).1).2.
Proof.
  apply (silent_client_is_terminated three_clients three_clients 2 flags_after_silence);
    [compute_done | compute_done | compute_done | compute_done | reflexivity].
Defined.

(** X2.  A client whose pong arrived since the last pass, or that has
    just connected, is pinged by the next pass and not terminated,
    whatever its flag was before. *)
Theorem answering_client_is_not_terminated
    (clients : list nat) (ws : nat) (isAlive isAlive' : gmap nat bool) :
  NoDup clients → ws ∈ clients →
  isAlive' !! ws = Liveness.heartbeat ws isAlive !! ws
  ∨ isAlive' !! ws = Liveness.connected ws isAlive !! ws →
  Liveness.ping ws ∈ (Liveness.sweep clients isAlive').2 ∧
  (Liveness.terminate ws ∉ (Liveness.sweep clients isAlive').2) ∧
  (Liveness.sweep clients isAlive').1 !! ws = Some false.
Proof.
  intros Hnd Hin Hflag.
  assert (Htrue : isAlive' !! ws = Some true).
  { destruct Hflag as [-> | ->];
      unfold Liveness.heartbeat, Liveness.connected; by rewrite lookup_insert_eq. }
  destruct (sweep_client clients ws isAlive' Hnd Hin) as (Hf & _ & Hp).
  destruct Hp as [H1 H2]; [by rewrite Htrue|]. done.
Qed.

Lemma answering_client_is_not_terminated_witness :
  Liveness.ping 2 ∈ (Liveness.sweep three_clients
                       (Liveness.heartbeat 2 flags_after_silence)).2 ∧
  (Liveness.terminate 2 ∉ (Liveness.sweep three_clients
                             (Liveness.heartbeat 2 flags_after_silence)).2) ∧
  (Liveness.sweep three_clients (Liveness.heartbeat 2 flags_after_silence)).1 !! 2%nat
    = Some false.
Proof.
  apply (answering_client_is_not_terminated three_clients 2 flags_after_silence);
    [compute_done | compute_done | by left].
Defined.

(** ** Frames without a branch *)

Lemma on_message_ignored (c : Conn) (m : Frame) (now : Z) (rnd : string) (s : State) :
  ignored_frame m → on_message c m now rnd s = (s, []).
Proof.
  unfold ignored_frame, on_message. destruct (parsed m) as [d|]; [|done].
  intros (H1 & H2 & H3). by rewrite !decide_False by done.
Qed.

(** X3.  Frames that do not parse and frames of an unknown [type] are
    dropped: a run in which peers send only such frames sends nothing
    and leaves every connection object, both registries, both buffers
    and the timer queue as they were. *)
Theorem ignored_frames_change_nothing
    (tr : list (Z * Event)) (s s' : State) (out : list Send) :
  only_ignored_frames tr →
  run tr s = Some (s', out) →
  out = [] ∧ same_engine s s'.
Proof.
  revert s s' out. induction tr as [|[now e] tr IH]; intros s s' out Hall; simpl.
  - intros [= <- <-]. by repeat split.
  - apply Forall_cons in Hall as [He Hall]. simpl in He.
    destruct e as [c sock|c m rnd|c sock|c|rnd]; try done.
    unfold step. case_decide; [done|].
    destruct (ws_readyState _ c); [|done]. case_decide; [done|].
    rewrite (on_message_ignored _ _ _ _ _ He).
    destruct (run tr (set_clock now s)) as [[s2 out2]|] eqn:Hrun; [|done].
    intros [= <- <-]. destruct (IH _ _ _ Hall Hrun) as [-> Hsame].
    split; [done|]. unfold same_engine in *. simpl in Hsame. done.
Qed.

Lemma ignored_frames_change_nothing_witness :
  same_engine watched_sender
    (default watched_sender
       (run_state [(200, message 2 garbage_frame "r"); (210, message 1 hello_frame "r")]
                  watched_sender)).
Proof.
  refine (proj2 (ignored_frames_change_nothing
                   [(200, message 2 garbage_frame "r"); (210, message 1 hello_frame "r")]
                   watched_sender _ [] _ _)).
  - repeat constructor; simpl; unfold ignored_frame; simpl; done.
  - reflexivity.
Defined.

(** ** Producer payloads *)

Lemma get_snoc_fresh {V : Type} (k : Conn) (v : V) (m : list (Conn * V)) :
  k ∉ JsMap.keys m → JsMap.get k (m ++ [(k, v)]) = Some v.
Proof.
  unfold JsMap.keys. induction m as [|[k' v'] m IH]; simpl; intros Hn.
  - by rewrite decide_True.
  - apply not_elem_of_cons in Hn as [Hne Hn].
    rewrite decide_False by done. by apply IH.
Qed.

Lemma has_true_get {V : Type} (k : Conn) (m : list (Conn * V)) :
  JsMap.has k m = true → is_Some (JsMap.get k m).
Proof.
  intros Hh. destruct (JsMap.get k m) eqn:Hg; [by eexists|].
  apply get_None_keys, has_false_keys in Hg. congruence.
Qed.

Lemma get_Some_has {V : Type} (k : Conn) (v : V) (m : list (Conn * V)) :
  JsMap.get k m = Some v → JsMap.has k m = true.
Proof.
  intros Hg. destruct (JsMap.has k m) eqn:Hh; [done|].
  apply has_false_keys, get_None_keys in Hh. congruence.
Qed.

(** The ['screenshot'] branch in full. *)
Lemma on_screenshot_spec (c : Conn) (d : Json) (now : Z) (rnd : string) (s : State) :
  let info := default (new_sender s c now rnd) (JsMap.get c (senders s)) in
  let opens := filter (λ b, is_open s b) (browserClients s) in
  senders (on_screenshot c d now rnd s).1
    = (if JsMap.has c (senders s) then senders s else senders s ++ [(c, info)]) ∧
  JsMap.get c (senders (on_screenshot c d now rnd s).1) = Some info ∧
  (on_screenshot c d now rnd s).2
    = (if JsMap.has c (senders s) then []
       else (λ b, (b, sender_connected info)) <$> opens)
      ++ (if decide (browserClients s = []) then []
          else (λ b, (b, screenshot (data d) (Some (id info)) None)) <$> opens) ∧
  screenshotBuffer (on_screenshot c d now rnd s).1
    = (if decide (browserClients s = [])
       then push_bounded (mkScreenshotEntry (data d) (Some (id info)) now)
                         (screenshotBuffer s)
       else screenshotBuffer s) ∧
  browserClients (on_screenshot c d now rnd s).1 = browserClients s.
Proof.
  intros info opens. subst info opens. unfold on_screenshot.
  assert (Hlen : browserClients s ≠ [] → (0 < length (browserClients s))%nat).
  { destruct (browserClients s); simpl; [done | lia]. }
  destruct (JsMap.has c (senders s)) eqn:Hh; cbn [negb fst snd].
  - destruct (has_true_get _ _ Hh) as [v Hv]. rewrite Hv. cbn [default].
    destruct (decide (browserClients s = [])) as [He|Hne].
    + rewrite He. simpl. by rewrite He.
    + rewrite decide_True by auto. cbn [fst snd]. by rewrite broadcast_spec.
  - assert (Hn : c ∉ JsMap.keys (senders s)) by by apply has_false_keys.
    assert (Hg : JsMap.get c (senders s) = None) by by apply get_None_keys.
    rewrite Hg, (set_fresh _ _ _ Hh). cbn [default senders set_senders browserClients].
    rewrite (get_snoc_fresh _ _ _ Hn). cbn [fmap option_fmap option_map].
    destruct (decide (browserClients s = [])) as [He|Hne].
    + rewrite He. simpl. rewrite (get_snoc_fresh _ _ _ Hn).
      unfold broadcastToBrowsers. simpl. by rewrite He.
    + rewrite decide_True by auto. cbn [fst snd senders set_senders browserClients].
      rewrite (get_snoc_fresh _ _ _ Hn), !broadcast_spec. done.
Qed.

(** X4.  A producer payload is either forwarded or buffered, never
    both.  With a browser registered the buffer is untouched and the
    frames sent end with one [screenshot] frame per open browser, in
    registration order, tagged with the identity the sender has in the
    registry; with none registered nothing is sent and one entry with
    that tag and the arrival time is pushed on the buffer.  The tag is
    never missing. *)
Theorem payload_forwarded_or_buffered
    (c : Conn) (m : Frame) (d : Json) (now : Z) (rnd : string) (s : State) :
  parsed m = Some d → type d = "screenshot" →
  ∃ info,
    JsMap.get c (senders (on_message c m now rnd s).1) = Some info ∧
    (browserClients s ≠ [] →
       screenshotBuffer (on_message c m now rnd s).1 = screenshotBuffer s ∧
       ∃ announce,
         no_screenshot_frames announce ∧
         (on_message c m now rnd s).2
         = announce
           ++ ((λ b, (b, screenshot (data d) (Some (id info)) None))
                 <$> filter (λ b, is_open s b) (browserClients s))) ∧
    (browserClients s = [] →
       (on_message c m now rnd s).2 = [] ∧
       screenshotBuffer (on_message c m now rnd s).1
       = (if decide (100 ≤ length (screenshotBuffer s))%nat
          then tail (screenshotBuffer s) else screenshotBuffer s)
         ++ [mkScreenshotEntry (data d) (Some (id info)) now]).
Proof.
  intros Hp Ht. rewrite (on_message_screenshot _ _ _ _ _ _ Hp Ht).
  destruct (on_screenshot_spec c d now rnd s) as (_ & Hget & Hout & Hbuf & _).
  eexists. split; [exact Hget|]. split.
  - intros Hne. rewrite Hbuf, Hout, !decide_False by done. split; [done|].
    eexists. split; [|done].
    destruct (JsMap.has c (senders s)); [constructor|].
    unfold no_screenshot_frames. rewrite Forall_fmap. apply Forall_forall.
    intros; simpl; discriminate.
  - intros He. rewrite Hbuf, Hout, !decide_True by done. rewrite He. simpl.
    split; [|done]. by destruct (JsMap.has c (senders s)).
Qed.

Lemma payload_forwarded_or_buffered_witness :
  (on_message 1 (screenshot_frame "img") 150 "r" watched_sender).2
    = [(2%nat, screenshot "img" (Some "sender-20-abcde") None)] ∧
  screenshotBuffer (on_message 1 (screenshot_frame "img") 150 "r" watched_sender).1 = [].
Proof.
  destruct (payload_forwarded_or_buffered 1 (screenshot_frame "img")
              (mkJson "screenshot" "img") 150 "r" watched_sender)
    as (info & Hget & Hfw & _); [reflexivity | reflexivity |].
  destruct Hfw as [Hbuf _]; [done|]. split; [reflexivity | exact Hbuf].
Defined.

(** X5.  A payload from a connection that already has an identity
    reuses it: the registry is left as it is and no [sender_connected]
    frame is sent. *)
Theorem registered_sender_keeps_identity
    (c : Conn) (m : Frame) (d : Json) (now : Z) (rnd : string) (s : State)
    (info : SenderInfo) :
  parsed m = Some d → type d = "screenshot" →
  JsMap.get c (senders s) = Some info →
  senders (on_message c m now rnd s).1 = senders s ∧
  JsMap.get c (senders (on_message c m now rnd s).1) = Some info ∧
  no_sender_connected (on_message c m now rnd s).2.
Proof.
  intros Hp Ht Hg. rewrite (on_message_screenshot _ _ _ _ _ _ Hp Ht).
  destruct (on_screenshot_spec c d now rnd s) as (Hs & Hget & Hout & _).
  rewrite (get_Some_has _ _ _ Hg) in Hs, Hout. rewrite Hg in Hget. simpl in *.
  split; [done|]. split; [done|]. rewrite Hout. unfold no_sender_connected.
  case_decide; [constructor|]. rewrite Forall_fmap. apply Forall_forall.
  intros; simpl; discriminate.
Qed.

Lemma registered_sender_keeps_identity_witness :
  senders (on_message 1 (screenshot_frame "img") 150 "r" watched_sender).1
    = senders watched_sender ∧
  JsMap.get 1 (senders (on_message 1 (screenshot_frame "img") 150 "r" watched_sender).1)
    = Some (mkSenderInfo "sender-20-abcde" "10.0.0.1:5000") ∧
  no_sender_connected (on_message 1 (screenshot_frame "img") 150 "r" watched_sender).2.
Proof.
  apply (registered_sender_keeps_identity 1 (screenshot_frame "img")
           (mkJson "screenshot" "img")); reflexivity.
Defined.

(** ** Close handling *)

Lemma get_delete_same {V : Type} (k : Conn) (m : list (Conn * V)) :
  JsMap.get k (JsMap.delete k m) = None.
Proof. apply get_None_keys. rewrite keys_delete. by intros [? _]. Qed.

Lemma set_delete_absent (k : Conn) (l : list Conn) : k ∉ l → JsSet.delete k l = l.
Proof.
  intros Hn. unfold JsSet.delete. apply filter_all. intros x Hx ->. done.
Qed.

Lemma set_delete_not_elem (k : Conn) (l : list Conn) : k ∉ JsSet.delete k l.
Proof. unfold JsSet.delete. rewrite list_elem_of_filter. by intros [? _]. Qed.

(** The close handler in full. *)
Lemma on_close_spec (c : Conn) (s : State) :
  senders (on_close c s).1 = JsMap.delete c (senders s) ∧
  browserClients (on_close c s).1 = JsSet.delete c (browserClients s) ∧
  ws_registerTimer (on_close c s).1 c = None ∧
  timers (on_close c s).1
    = match ws_registerTimer s c with
      | Some h => filter (λ t : Timer, timer_id t ≠ h) (timers s)
      | None => timers s
      end ∧
  (on_close c s).2
    = match JsMap.get c (senders s) with
      | Some info =>
          (λ b, (b, sender_disconnected info))
            <$> filter (λ b, is_open s b) (browserClients s)
      | None => []
      end ∧
  screenshotBuffer (on_close c s).1 = screenshotBuffer s ∧
  codeBuffer (on_close c s).1 = codeBuffer s ∧
  nextTimer (on_close c s).1 = nextTimer s.
Proof.
  unfold on_close.
  destruct (cancel_registerTimer_fields c s) as (Hs2 & Hb2 & Hsb2 & Hcb2 & Hn2 & Hk2).
  pose proof (cancel_registerTimer_timers c s) as Htm2.
  pose proof (cancel_registerTimer_cleared c s) as Hcl2.
  pose proof (λ c', cancel_registerTimer_open c c' s) as Hop2.
  set (s1 := cancel_registerTimer c s) in *.
  destruct (drop_sender_fields c s1) as (Hc4 & Hb4 & Hsb4 & Hcb4 & Ht4 & Hn4 & Hk4).
  pose proof (drop_sender_senders c s1) as Hsnd.
  pose proof (drop_sender_out c s1) as Hout.
  rewrite Hs2 in Hsnd, Hout. rewrite Hb2 in Hout.
  assert (Hcl4 : ws_registerTimer (drop_sender c s1).1 c = None).
  { unfold ws_registerTimer. by rewrite Hc4. }
  assert (Hout' : (drop_sender c s1).2
    = match JsMap.get c (senders s) with
      | Some info =>
          (λ b, (b, sender_disconnected info))
            <$> filter (λ b, is_open s b) (browserClients s)
      | None => []
      end).
  { rewrite Hout. destruct (JsMap.get c (senders s)); [|done]. f_equal.
    apply list_filter_iff. intros b. by rewrite Hop2. }
  destruct (JsSet.has c (browserClients (drop_sender c s1).1)) eqn:Hh; cbn [fst snd].
  - cbn. rewrite Hb4, Hb2, Hsnd, Hsb4, Hsb2, Hcb4, Hcb2, Ht4, Htm2, Hn4, Hn2.
    by repeat split.
  - rewrite Hb4, Hb2, Hsnd, Hsb4, Hsb2, Hcb4, Hcb2, Ht4, Htm2, Hn4, Hn2.
    repeat split; try done. symmetry. apply set_delete_absent.
    unfold JsSet.has in Hh. apply bool_decide_eq_false in Hh. by rewrite Hb4, Hb2 in Hh.
Qed.

(** X6.  After the close handler the connection is in neither registry
    and has no pending classification timer; the other members of both
    registries stay, in their order.  When the connection had an
    identity, every open browser is sent exactly one
    [sender_disconnected] frame carrying that identity; when it had
    none, nothing is sent.  The buffers are not touched. *)
Theorem close_removes_connection (c : Conn) (s : State) :
  senders (on_close c s).1 = filter (λ p : Conn * SenderInfo, p.1 ≠ c) (senders s) ∧
  browserClients (on_close c s).1 = filter (λ b : Conn, b ≠ c) (browserClients s) ∧
  (c ∉ JsMap.keys (senders (on_close c s).1)) ∧
  (c ∉ browserClients (on_close c s).1) ∧
  ws_registerTimer (on_close c s).1 c = None ∧
  (∀ h t, ws_registerTimer s c = Some h → t ∈ timers (on_close c s).1 → timer_id t ≠ h) ∧
  (on_close c s).2
    = match JsMap.get c (senders s) with
      | Some info =>
          (λ b, (b, sender_disconnected info))
            <$> filter (λ b, is_open s b) (browserClients s)
      | None => []
      end ∧
  screenshotBuffer (on_close c s).1 = screenshotBuffer s ∧
  codeBuffer (on_close c s).1 = codeBuffer s.
Proof.
  destruct (on_close_spec c s) as (Hs & Hb & Hcl & Htm & Hout & Hsb & Hcb & _).
  rewrite Hs, Hb. repeat split; try done.
  - rewrite keys_delete. by intros [? _].
  - apply set_delete_not_elem.
  - intros h t Hh Ht. rewrite Htm, Hh in Ht. by apply list_elem_of_filter in Ht as [? _].
Qed.

(** X7.  Closing twice is closing once: a second run of the close
    handler on the same connection changes nothing and sends nothing. *)
Theorem close_twice_is_close_once (c : Conn) (s : State) :
  on_close c (on_close c s).1 = ((on_close c s).1, []).
Proof.
  destruct (on_close_spec c s) as (Hs & Hb & Hcl & _).
  set (s' := (on_close c s).1) in *. unfold on_close.
  assert (H1 : cancel_registerTimer c s' = s').
  { unfold cancel_registerTimer. by rewrite Hcl. }
  rewrite H1.
  assert (H2 : drop_sender c s' = (s', [])).
  { unfold drop_sender. by rewrite Hs, get_delete_same. }
  rewrite H2. cbn [fst snd].
  assert (H3 : JsSet.has c (browserClients s') = false).
  { unfold JsSet.has. apply bool_decide_eq_false. rewrite Hb. apply set_delete_not_elem. }
  by rewrite H3.
Qed.


(** ** The sweep *)

Lemma filter_filter_weaker {A : Type} (P Q : A → Prop)
    `{!∀ x, Decision (P x)} `{!∀ x, Decision (Q x)} (l : list A) :
  (∀ x, Q x → P x) → filter Q (filter P l) = filter Q l.
Proof.
  intros HQP. induction l as [|x l IH]; [done|].
  destruct (decide (P x)) as [HP|HP].
  - rewrite (filter_cons_True P) by done. destruct (decide (Q x)).
    + by rewrite !filter_cons_True, IH by done.
    + by rewrite !filter_cons_False by done.
  - rewrite (filter_cons_False P) by done.
    rewrite (filter_cons_False Q) by (intros HQ; by apply HP, HQP). done.
Qed.

(** X9.  Sweeps compose: a sweep at [T2] after a sweep at an earlier
    time [T1] leaves exactly what the sweep at [T2] alone leaves (so a
    sweep repeated at the same time changes nothing more).  A sweep only
    removes entries: what it keeps is a subsequence of each buffer, in
    the order it had, and the registries, the connection objects and the
    timer queue are not touched. *)
Theorem later_sweep_subsumes_earlier (T1 T2 : Z) (s : State) :
  T1 ≤ T2 →
  cleanExpiredBuffers T2 (cleanExpiredBuffers T1 s) = cleanExpiredBuffers T2 s ∧
  screenshotBuffer (cleanExpiredBuffers T1 s) `sublist_of` screenshotBuffer s ∧
  codeBuffer (cleanExpiredBuffers T1 s) `sublist_of` codeBuffer s ∧
  senders (cleanExpiredBuffers T1 s) = senders s ∧
  browserClients (cleanExpiredBuffers T1 s) = browserClients s ∧
  clients (cleanExpiredBuffers T1 s) = clients s ∧
  timers (cleanExpiredBuffers T1 s) = timers s.
Proof.
  intros HT. split; [|repeat split; apply sublist_filter].
  unfold cleanExpiredBuffers, set_codeBuffer, set_screenshotBuffer. simpl.
  f_equal; apply filter_filter_weaker; intros x; lia.
Qed.

Lemma later_sweep_subsumes_earlier_witness :
  cleanExpiredBuffers 12000000 (cleanExpiredBuffers 11400000 before_sweep)
    = cleanExpiredBuffers 12000000 before_sweep ∧
  codeBuffer (cleanExpiredBuffers 12000000 before_sweep) = [mkCodeEntry "pwd" 11999000].
Proof.
  destruct (later_sweep_subsumes_earlier 11400000 12000000 before_sweep) as [H _]; [lia|].
  split; [exact H | reflexivity].
Defined.

(** ** The [registerTimer] callback in full *)

(** The [registerTimer] callback on an unclassified connection. *)
Lemma on_registerTimer_spec (c : Conn) (now : Z) (rnd : string) (s : State) :
  ws_isBrowser s c = false → c ∉ JsMap.keys (senders s) →
  let info := new_sender s c now rnd in
  senders (on_registerTimer c now rnd s).1 = senders s ++ [(c, info)] ∧
  (on_registerTimer c now rnd s).2
    = ((λ b, (b, sender_connected info)) <$> filter (λ b, is_open s b) (browserClients s))
      ++ (if is_open s c then (λ msg, (c, code (c_data msg))) <$> codeBuffer s else []) ∧
  codeBuffer (on_registerTimer c now rnd s).1 = [] ∧
  screenshotBuffer (on_registerTimer c now rnd s).1 = screenshotBuffer s ∧
  browserClients (on_registerTimer c now rnd s).1 = browserClients s ∧
  clients (on_registerTimer c now rnd s).1 = clients s ∧
  timers (on_registerTimer c now rnd s).1 = timers s ∧
  nextTimer (on_registerTimer c now rnd s).1 = nextTimer s.
Proof.
  intros Hb Hs%has_false_keys info. subst info. unfold on_registerTimer.
  rewrite Hb, Hs. simpl. rewrite (set_fresh _ _ _ Hs).
  split; [done|]. split; [|done]. f_equal.
  - by rewrite broadcast_spec.
  - rewrite (bind_send_if_open _ (λ _, c) (λ msg, code (c_data msg))). simpl.
    rewrite (is_open_same_clients s) by done. destruct (is_open s c) eqn:Ho.
    + f_equal. by apply filter_all.
    + clear. induction (codeBuffer s) as [|e l IH]; [done|].
      by rewrite filter_cons_False by (simpl; tauto).
Qed.


(** ** What each callback does to each part of the state *)

Lemma write_registerTimer_None_id (w : WebSocket) :
  _registerTimer w = None → write_registerTimer None w = w.
Proof. destruct w. simpl. by intros ->. Qed.

Lemma cancel_registerTimer_clients (c : Conn) (s : State) :
  clients (cancel_registerTimer c s) = alter (write_registerTimer None) c (clients s).
Proof.
  unfold cancel_registerTimer, ws_registerTimer.
  destruct (clients s !! c) as [w|] eqn:Hw; simpl.
  - destruct (_registerTimer w) eqn:Hr; [done|]. simpl.
    apply map_eq. intros c'. rewrite lookup_alter. case_decide; subst; [|done].
    by rewrite Hw; simpl; rewrite write_registerTimer_None_id.
  - apply map_eq. intros c'. rewrite lookup_alter. case_decide; subst; [|done].
    by rewrite Hw.
Qed.

Lemma on_screenshot_timers (c : Conn) (d : Json) (now : Z) (rnd : string) (s : State) :
  timers (on_screenshot c d now rnd s).1 = timers s ∧
  nextTimer (on_screenshot c d now rnd s).1 = nextTimer s.
Proof.
  unfold on_screenshot.
  destruct (negb (JsMap.has c (senders s))); simpl; case_decide; done.
Qed.

Lemma on_code_spec (c : Conn) (m : Frame) (d : Json) (now : Z) (s : State) :
  clients (on_code c m d now s).1 = clients s ∧
  senders (on_code c m d now s).1 = senders s ∧
  browserClients (on_code c m d now s).1 = browserClients s ∧
  screenshotBuffer (on_code c m d now s).1 = screenshotBuffer s ∧
  (codeBuffer (on_code c m d now s).1 = codeBuffer s
   ∨ codeBuffer (on_code c m d now s).1
     = push_bounded (mkCodeEntry (data d) now) (codeBuffer s)) ∧
  timers (on_code c m d now s).1 = timers s ∧
  nextTimer (on_code c m d now s).1 = nextTimer s.
Proof. unfold on_code. case_decide; simpl; repeat split; auto. Qed.

Lemma on_register_browser_full (c : Conn) (now : Z) (s : State) :
  clients (on_register_browser c now s).1
    = alter (write_registerTimer None) c (alter (write_isBrowser true) c (clients s)) ∧
  nextTimer (on_register_browser c now s).1
    = (if is_open s c && bool_decide (0 < length (screenshotBuffer s))%nat
       then S (nextTimer s) else nextTimer s).
Proof.
  unfold on_register_browser.
  set (s1 := set_clients (alter (write_isBrowser true) c (clients s)) s).
  destruct (cancel_registerTimer_fields c s1) as (_ & _ & Hsb2 & _ & Hn2 & _).
  pose proof (cancel_registerTimer_clients c s1) as Hcl2.
  pose proof (cancel_registerTimer_open c c s1) as Hop2.
  set (s2 := cancel_registerTimer c s1) in *.
  set (s3 := set_browserClients (JsSet.add c (browserClients s2)) s2).
  destruct (drop_sender_fields c s3) as (Hc4 & _ & Hsb4 & _ & _ & Hn4 & _).
  assert (Ho4 : is_open (drop_sender c s3).1 c = is_open s c).
  { rewrite (is_open_same_clients s3) by done.
    transitivity (is_open s2 c); [done|]. rewrite Hop2.
    by apply (is_open_alter _ _ _ s). }
  assert (Hsb : screenshotBuffer (drop_sender c s3).1 = screenshotBuffer s)
    by (by rewrite Hsb4).
  assert (Hnx : nextTimer (drop_sender c s3).1 = nextTimer s) by (by rewrite Hn4).
  assert (Hcl : clients (drop_sender c s3).1
                = alter (write_registerTimer None) c
                    (alter (write_isBrowser true) c (clients s))) by (by rewrite Hc4).
  rewrite Ho4, Hsb.
  destruct (is_open s c);
    [case_bool_decide; [rewrite decide_True by done | rewrite decide_False by done]|];
    cbn [fst andb]; [unfold setTimeout; cbn|..]; by rewrite ?Hnx.
Qed.

Lemma on_close_clients (c : Conn) (s : State) :
  clients (on_close c s).1 = alter (write_registerTimer None) c (clients s).
Proof.
  unfold on_close.
  pose proof (cancel_registerTimer_clients c s) as Hcl.
  set (s1 := cancel_registerTimer c s) in *.
  destruct (drop_sender_fields c s1) as (Hc4 & _).
  destruct (JsSet.has c _); simpl; by rewrite Hc4.
Qed.

Lemma on_flushBuffered_nextTimer (c : Conn) (now : Z) (s : State) :
  nextTimer (on_flushBuffered c now s) = S (nextTimer s + length (screenshotBuffer s)).
Proof.
  unfold on_flushBuffered.
  destruct (schedule_sends_spec c now (screenshotBuffer s) 0 s) as (_ & Hn & _).
  simpl. by rewrite Hn.
Qed.

(** ** Invariants *)

(** A property of the start state that every turn of the loop keeps
    holds in every reachable state. *)
Lemma reachable_ind (P : State → Prop) :
  (∀ t0, P (init t0)) →
  (∀ now e s s' out, P s → step now e s = Some (s', out) → P s') →
  ∀ s, reachable s → P s.
Proof.
  intros Hinit Hstep s (t0 & tr & out & Hrun).
  revert Hrun. generalize (Hinit t0). generalize (init t0). clear Hinit.
  revert s out. induction tr as [|[now e] tr IH]; intros s out s0 Hs0; simpl.
  - by intros [= <- _].
  - destruct (step now e s0) as [[s1 out1]|] eqn:Hs; [|done].
    destruct (run tr s1) as [[s2 out2]|] eqn:Hrun; [|done].
    intros [= <- _]. apply (IH s2 out2 s1); [|done]. by apply (Hstep now e s0 s1 out1).
Qed.

Lemma reachable_state_after (tr : list (Z * Event)) :
  is_Some (run tr (init 0)) → reachable (state_after tr).
Proof.
  intros [[s out] Hrun]. exists 0, tr, out. unfold state_after, run_state.
  by rewrite Hrun.
Qed.

Lemma push_bounded_length {A : Type} (x : A) (b : list A) :
  (length b ≤ MAX_BUFFER_SIZE)%nat → (length (push_bounded x b) ≤ MAX_BUFFER_SIZE)%nat.
Proof.
  intros Hb. unfold push_bounded. rewrite length_app. simpl.
  case_decide; [|lia]. destruct b; simpl in *; [unfold MAX_BUFFER_SIZE in *|]; lia.
Qed.

Lemma buffers_bounded_same (s s' : State) :
  screenshotBuffer s' = screenshotBuffer s → codeBuffer s' = codeBuffer s →
  buffers_bounded s → buffers_bounded s'.
Proof. unfold buffers_bounded. by intros -> ->. Qed.

Lemma on_message_bounded (c : Conn) (m : Frame) (now : Z) (rnd : string) (s : State) :
  buffers_bounded s → buffers_bounded (on_message c m now rnd s).1.
Proof.
  intros [H1 H2]. unfold on_message. destruct (parsed m) as [d|]; [|done].
  repeat case_decide; try done.
  - destruct (on_screenshot_spec c d now rnd s) as (_ & _ & _ & Hsb & _).
    split; [|by rewrite on_screenshot_codeBuffer].
    rewrite Hsb. case_decide; [by apply push_bounded_length | done].
  - destruct (on_code_spec c m d now s) as (_ & _ & _ & Hsb & Hcb & _).
    split; [by rewrite Hsb|]. destruct Hcb as [-> | ->]; [done|].
    by apply push_bounded_length.
  - destruct (on_register_browser_frame c now s) as (Hsb & Hcb & _).
    by apply (buffers_bounded_same s).
Qed.

Lemma run_task_bounded (t : Task) (now : Z) (rnd : string) (s : State) :
  buffers_bounded s → buffers_bounded (run_task t now rnd s).1.
Proof.
  intros [H1 H2]. destruct t as [c|c|c msg| |]; unfold run_task; cbn [fst].
  - unfold on_registerTimer.
    destruct (negb (ws_isBrowser s c) && negb (JsMap.has c (senders s))); [|done].
    split; simpl; [done | lia].
  - destruct (on_flushBuffered_spec c now s) as (_ & Hsb & Hcb & _).
    by apply (buffers_bounded_same s).
  - done.
  - split; simpl; [lia | done].
  - split; simpl.
    + etransitivity; [apply length_filter | done].
    + etransitivity; [apply length_filter | done].
Qed.

Lemma step_bounded (now : Z) (e : Event) (s s' : State) (out : list Send) :
  buffers_bounded s → step now e s = Some (s', out) → buffers_bounded s'.
Proof.
  intros Hb. unfold step. case_decide; [done|].
  assert (Hb0 : buffers_bounded (set_clock now s)) by done.
  destruct e as [c sock|c m rnd|c sock|c|rnd].
  - destruct (clients _ !! c); [done|]. by intros [= <- _].
  - destruct (ws_readyState _ c); [|done]. case_decide; [done|].
    intros [-> _]%some_pair_inv. by apply on_message_bounded.
  - destruct (is_open _ c); [|done]. by intros [= <- _].
  - destruct (clients _ !! c) as [w|]; [|done]. case_decide; [done|].
    intros [-> _]%some_pair_inv.
    set (s1 := set_clients _ (set_clock now s)).
    destruct (on_close_frame c s1) as (Hsb & Hcb & _).
    by apply (buffers_bounded_same s1).
  - simpl. destruct (next_due (timers s)) as [t|]; [|done]. case_decide; [|done].
    intros [-> _]%some_pair_inv. by apply run_task_bounded.
Qed.

(** X11.  Neither buffer ever holds more than 100 entries: true when
    the server starts and kept by every connection, frame, close and
    timer expiry. *)
Theorem buffers_never_exceed_capacity (s : State) :
  reachable s →
  (length (screenshotBuffer s) ≤ 100)%nat ∧ (length (codeBuffer s) ≤ 100)%nat.
Proof.
  apply (reachable_ind buffers_bounded).
  - intros t0. split; simpl; lia.
  - intros now e s0 s1 out. apply step_bounded.
Qed.

Lemma buffers_never_exceed_capacity_witness :
  (length (screenshotBuffer (state_after (flood 130))) ≤ 100)%nat ∧
  (length (codeBuffer (state_after (flood 130))) ≤ 100)%nat.
Proof.
  apply buffers_never_exceed_capacity, reachable_state_after.
  vm_compute. by eexists.
Defined.

(** ** The timer queue and the handles *)

Lemma next_due_elem (ts : list Timer) (t : Timer) : next_due ts = Some t → t ∈ ts.
Proof.
  revert t. induction ts as [|t0 ts IH]; intros t; simpl; [done|].
  destruct (next_due ts) as [t'|].
  - case_decide; intros [= <-]; [right; by apply IH | left].
  - intros [= <-]. left.
Qed.

(** Arming timers that are no [registerTimer], with fresh handles. *)
Lemma timer_handles_wf_arm (handle : nat → option nat) (ts new : list Timer)
    (next next' : nat) :
  timer_handles_wf handle ts next →
  NoDup (timer_id <$> new) →
  (∀ t, t ∈ new → (next ≤ timer_id t < next')%nat ∧ ∀ c, task t ≠ registerTimer c) →
  (next ≤ next')%nat →
  timer_handles_wf handle (ts ++ new) next'.
Proof.
  intros (H1 & H2 & H3 & H4) Hnd Hnew Hle. split; [|split; [|split]].
  - rewrite fmap_app. apply NoDup_app. split; [done|]. split; [|done].
    intros i [t [-> Ht]]%list_elem_of_fmap [t' [Heq Ht']]%list_elem_of_fmap.
    specialize (H2 t Ht). destruct (Hnew t' Ht') as [? _]. lia.
  - intros t [Ht|Ht]%elem_of_app; [specialize (H2 t Ht); lia|].
    destruct (Hnew t Ht) as [? _]. lia.
  - intros c h Hh. destruct (H3 c h Hh) as [Hlt Hold]. split; [lia|].
    intros t [Ht|Ht]%elem_of_app Hid; [by apply Hold|].
    destruct (Hnew t Ht) as [? _]. lia.
  - intros t c [Ht|Ht]%elem_of_app Htask; [by apply H4|].
    destruct (Hnew t Ht) as [_ Hno]. by destruct (Hno c).
Qed.

(** Removing timers, and clearing the handle of a connection whose
    [registerTimer] is among the removed ones. *)
Lemma timer_handles_wf_remove (handle handle' : nat → option nat) (ts ts' : list Timer)
    (next : nat) :
  timer_handles_wf handle ts next →
  ts' `sublist_of` ts →
  (∀ c, handle' c = handle c
        ∨ (handle' c = None ∧ ∀ t, t ∈ ts' → task t ≠ registerTimer c)) →
  timer_handles_wf handle' ts' next.
Proof.
  intros (H1 & H2 & H3 & H4) Hsub Hh.
  assert (Hin : ∀ t, t ∈ ts' → t ∈ ts) by (intros t; by apply sublist_subseteq).
  split; [|split; [|split]].
  - eapply sublist_NoDup; [exact H1|]. by apply fmap_sublist.
  - intros t Ht. by apply H2, Hin.
  - intros c h Hc. destruct (Hh c) as [Heq|[Hn _]]; [|congruence].
    rewrite Heq in Hc. destruct (H3 c h Hc) as [? Hold]. split; [done|].
    intros t Ht. by apply Hold, Hin.
  - intros t c Ht Htask. destruct (Hh c) as [Heq|[_ Hno]].
    + rewrite Heq. by apply H4; [apply Hin|].
    + by destruct (Hno t Ht).
Qed.

(** [clearTimeout(ws._registerTimer); ws._registerTimer = null] keeps
    the queue and the handles consistent. *)
Lemma timer_handles_wf_cancel (handle : nat → option nat) (ts : list Timer)
    (next : nat) (c : Conn) :
  timer_handles_wf handle ts next →
  timer_handles_wf (λ c', if decide (c' = c) then None else handle c')
    (match handle c with
     | Some h => filter (λ t : Timer, timer_id t ≠ h) ts
     | None => ts
     end) next.
Proof.
  intros Hwf. apply (timer_handles_wf_remove handle _ ts); [done| |].
  - destruct (handle c); [apply sublist_filter | done].
  - intros c'. case_decide as Hc; [|by left]. subst c'. right. split; [done|].
    intros t Ht Htask. destruct Hwf as (_ & _ & _ & H4).
    destruct (handle c) as [h|] eqn:Hh.
    + apply list_elem_of_filter in Ht as [Hne Ht].
      specialize (H4 t c Ht Htask). congruence.
    + specialize (H4 t c Ht Htask). congruence.
Qed.

Lemma timer_handles_wf_ext (handle handle' : nat → option nat) (ts : list Timer)
    (next : nat) :
  (∀ c, handle' c = handle c) →
  timer_handles_wf handle ts next → timer_handles_wf handle' ts next.
Proof.
  intros Heq Hwf. apply (timer_handles_wf_remove handle handle' ts); [done|done|].
  intros c. by left.
Qed.

Lemma registerTimer_alter_cancel (c c' : Conn) (m : gmap nat WebSocket)
    (f : WebSocket → WebSocket) :
  (∀ w, _registerTimer (f w) = _registerTimer w) →
  alter (write_registerTimer None) c (alter f c m) !! c' ≫= _registerTimer
  = if decide (c' = c) then None else m !! c' ≫= _registerTimer.
Proof.
  intros Hf. destruct (decide (c' = c)) as [->|Hne].
  - rewrite !lookup_alter_eq. by destruct (m !! c).
  - by rewrite !lookup_alter_ne by done.
Qed.

Lemma registerTimer_alter_keep (c c' : Conn) (m : gmap nat WebSocket)
    (f : WebSocket → WebSocket) :
  (∀ w, _registerTimer (f w) = _registerTimer w) →
  alter f c m !! c' ≫= _registerTimer = m !! c' ≫= _registerTimer.
Proof.
  intros Hf. rewrite lookup_alter. case_decide; subst; [|done].
  destruct (m !! c'); simpl; [apply Hf | done].
Qed.

Lemma imap_timer_ids {A : Type} (l : list A) :
  ∀ (mk : nat → A → Timer) (first : nat),
    (∀ i x, timer_id (mk i x) = (first + i)%nat) →
    timer_id <$> imap mk l = seq first (length l).
Proof.
  induction l as [|x l IH]; intros mk first Hmk; [done|].
  rewrite imap_cons, fmap_cons, Hmk, Nat.add_0_r. simpl. f_equal.
  apply IH. intros i y. simpl. rewrite Hmk. lia.
Qed.

Lemma paced_timers_ids (c : Conn) (now : Z) (first : TimerId) (buf : list ScreenshotEntry) :
  timer_id <$> paced_timers c now first buf = seq first (S (length buf)).
Proof.
  unfold paced_timers. rewrite fmap_app, seq_S. f_equal.
  by apply imap_timer_ids.
Qed.

Lemma paced_timers_tasks (c : Conn) (now : Z) (first : TimerId)
    (buf : list ScreenshotEntry) (t : Timer) :
  t ∈ paced_timers c now first buf →
  (first ≤ timer_id t < S (first + length buf))%nat ∧ ∀ c', task t ≠ registerTimer c'.
Proof.
  intros Ht. split.
  - assert (Hid : timer_id t ∈ timer_id <$> paced_timers c now first buf)
      by (apply list_elem_of_fmap; eauto).
    rewrite paced_timers_ids, elem_of_seq in Hid. lia.
  - unfold paced_timers in Ht. apply elem_of_app in Ht as [Ht|Ht].
    + apply elem_of_lookup_imap_1 in Ht as (i & x & -> & _). done.
    + apply list_elem_of_singleton in Ht as ->. done.
Qed.

Lemma on_registerTimer_frame (c : Conn) (now : Z) (rnd : string) (s : State) :
  clients (on_registerTimer c now rnd s).1 = clients s ∧
  timers (on_registerTimer c now rnd s).1 = timers s ∧
  nextTimer (on_registerTimer c now rnd s).1 = nextTimer s ∧
  browserClients (on_registerTimer c now rnd s).1 = browserClients s ∧
  screenshotBuffer (on_registerTimer c now rnd s).1 = screenshotBuffer s.
Proof.
  unfold on_registerTimer.
  by destruct (negb (ws_isBrowser s c) && negb (JsMap.has c (senders s))).
Qed.

Lemma timers_wf_same (s s' : State) :
  clients s' = clients s → timers s' = timers s → nextTimer s' = nextTimer s →
  timers_wf s → timers_wf s'.
Proof.
  unfold timers_wf, ws_registerTimer. intros -> -> ->. done.
Qed.

Lemma run_task_timers_wf (t : Task) (now : Z) (rnd : string) (s : State) :
  timers_wf s → timers_wf (run_task t now rnd s).1.
Proof.
  intros Hwf. destruct t as [c|c|c msg| |]; unfold run_task; cbn [fst].
  - destruct (on_registerTimer_frame c now rnd s) as (Hc & Ht & Hn & _).
    by apply (timers_wf_same s).
  - destruct (on_flushBuffered_spec c now s) as (Ht & _).
    destruct (on_flushBuffered_registry c now s) as (_ & _ & Hc).
    pose proof (on_flushBuffered_nextTimer c now s) as Hn.
    unfold timers_wf, ws_registerTimer. rewrite Hc, Ht, Hn.
    apply (timer_handles_wf_arm _ _ _ (nextTimer s)); [done| | |lia].
    + rewrite paced_timers_ids. apply NoDup_seq.
    + intros t Hin. by apply (paced_timers_tasks c now).
  - done.
  - done.
  - unfold timers_wf, ws_registerTimer. cbn.
    apply (timer_handles_wf_arm _ _ _ (nextTimer s)); [done| | |lia].
    + apply NoDup_singleton.
    + intros t ->%list_elem_of_singleton. simpl. split; [lia | done].
Qed.

Lemma step_timers_wf (now : Z) (e : Event) (s s' : State) (out : list Send) :
  timers_wf s → step now e s = Some (s', out) → timers_wf s'.
Proof.
  intros Hwf. unfold step. case_decide; [done|].
  assert (Hwf0 : timers_wf (set_clock now s)) by done.
  destruct e as [c sock|c m rnd|c sock|c|rnd].
  - destruct (clients (set_clock now s) !! c) eqn:Hc; [done|]. intros [= <- _].
    destruct Hwf as (H1 & H2 & H3 & H4). simpl in Hc.
    assert (Hnone : ws_registerTimer s c = None) by (unfold ws_registerTimer; by rewrite Hc).
    unfold timers_wf, timer_handles_wf, ws_registerTimer, on_connection. cbn.
    split; [|split; [|split]].
    + rewrite fmap_app. apply NoDup_app. split; [done|]. split; [|apply NoDup_singleton].
      intros i [t [-> Ht]]%list_elem_of_fmap Heq%list_elem_of_singleton.
      specialize (H2 t Ht). simpl in Heq. lia.
    + intros t [Ht | ->%list_elem_of_singleton]%elem_of_app; [specialize (H2 t Ht)|simpl]; lia.
    + intros c' h. destruct (decide (c' = c)) as [->|Hne].
      * rewrite lookup_insert_eq. simpl. intros [= <-]. split; [lia|].
        intros t [Ht | ->%list_elem_of_singleton]%elem_of_app Hid; [|done].
        specialize (H2 t Ht). lia.
      * rewrite lookup_insert_ne by done. intros Hh.
        destruct (H3 c' h Hh) as [Hlt Hold]. split; [lia|].
        intros t [Ht | ->%list_elem_of_singleton]%elem_of_app Hid; [by apply Hold|].
        simpl in Hid. lia.
    + intros t c' [Ht | ->%list_elem_of_singleton]%elem_of_app Htask.
      * pose proof (H4 t c' Ht Htask) as Hh.
        destruct (decide (c' = c)) as [->|Hne]; [congruence|].
        by rewrite lookup_insert_ne.
      * simpl in Htask. injection Htask as <-. by rewrite lookup_insert_eq.
  - destruct (ws_readyState (set_clock now s) c) as [rs|] eqn:Hrs; [|done].
    case_decide; [done|]. intros [-> _]%some_pair_inv.
    unfold on_message. destruct (parsed m) as [d|]; [|done].
    repeat case_decide; try done.
    + destruct (on_screenshot_timers c d now rnd (set_clock now s)) as [Ht Hn].
      apply (timers_wf_same (set_clock now s)); try done. apply on_screenshot_clients.
    + destruct (on_code_spec c m d now (set_clock now s)) as (Hc & _ & _ & _ & _ & Ht & Hn).
      by apply (timers_wf_same (set_clock now s)).
    + assert (Hex : is_Some (clients (set_clock now s) !! c)).
      { unfold ws_readyState in Hrs. by destruct (clients (set_clock now s) !! c). }
      destruct (register_browser_effect c now (set_clock now s) Hex) as (_ & Htm & _).
      destruct (on_register_browser_full c now (set_clock now s)) as [Hcl Hnx].
      unfold timers_wf, ws_registerTimer. rewrite Hcl, Htm, Hnx.
      pose proof (timer_handles_wf_cancel _ _ _ c Hwf0) as Hcan.
      eapply timer_handles_wf_ext;
        [intros c'; apply (registerTimer_alter_cancel c c' _ (write_isBrowser true)); done|].
      destruct (is_open (set_clock now s) c && bool_decide _).
      * apply (timer_handles_wf_arm _ _ _ (nextTimer (set_clock now s))); [done| | |lia].
        -- apply NoDup_singleton.
        -- intros t ->%list_elem_of_singleton. simpl. split; [lia | done].
      * by rewrite app_nil_r.
  - destruct (is_open _ c); [|done]. intros [= <- _].
    unfold timers_wf, ws_registerTimer. cbn.
    eapply timer_handles_wf_ext; [|exact Hwf].
    intros c'. by apply registerTimer_alter_keep.
  - destruct (clients (set_clock now s) !! c) as [w|] eqn:Hw; [|done].
    case_decide; [done|]. intros [-> _]%some_pair_inv.
    set (s1 := set_clients _ (set_clock now s)).
    destruct (on_close_spec c s1) as (_ & _ & _ & Htm & _ & _ & _ & Hnx).
    pose proof (on_close_clients c s1) as Hcl.
    assert (Hrt : ws_registerTimer s1 c = ws_registerTimer s c).
    { unfold ws_registerTimer, s1. cbn. by apply registerTimer_alter_keep. }
    unfold timers_wf, ws_registerTimer. rewrite Hcl, Htm, Hnx, Hrt.
    pose proof (timer_handles_wf_cancel _ _ _ c Hwf) as Hcan.
    eapply timer_handles_wf_ext; [|exact Hcan].
    intros c'. unfold s1. cbn.
    by apply (registerTimer_alter_cancel c c' _ (write_transport CLOSED (_socket w))).
  - simpl. destruct (next_due (timers s)) as [t|] eqn:Ht; [|done]. case_decide; [|done].
    intros [-> _]%some_pair_inv. apply run_task_timers_wf.
    unfold timers_wf.
    apply (timer_handles_wf_remove (ws_registerTimer s) _ (timers s));
      [done | apply sublist_filter |].
    intros c'. by left.
Qed.

Lemma reachable_timers_wf (s : State) : reachable s → timers_wf s.
Proof.
  apply (reachable_ind timers_wf).
  - intros t0. unfold timers_wf, timer_handles_wf, ws_registerTimer. cbn.
    split; [apply NoDup_singleton|]. split; [|split].
    + intros t ->%list_elem_of_singleton. simpl. lia.
    + intros c h. by rewrite lookup_empty.
    + intros t c ->%list_elem_of_singleton. done.
  - intros now e s0 s1 out. apply step_timers_wf.
Qed.

(** ** The registries *)

Lemma alter_is_Some (f : WebSocket → WebSocket) (c c' : Conn) (m : gmap nat WebSocket) :
  is_Some (alter f c m !! c') ↔ is_Some (m !! c').
Proof.
  rewrite lookup_alter. case_decide; subst; [|done]. by rewrite fmap_is_Some.
Qed.

Lemma isBrowser_connected (s : State) (c : Conn) :
  ws_isBrowser s c = true → is_Some (clients s !! c).
Proof. unfold ws_isBrowser. by destruct (clients s !! c). Qed.

Lemma registerTimer_connected (s : State) (c : Conn) (h : TimerId) :
  ws_registerTimer s c = Some h → is_Some (clients s !! c).
Proof. unfold ws_registerTimer. by destruct (clients s !! c). Qed.

Lemma keys_snoc {V : Type} (m : list (Conn * V)) (k : Conn) (v : V) :
  JsMap.keys (m ++ [(k, v)]) = JsMap.keys m ++ [k].
Proof. unfold JsMap.keys. by rewrite fmap_app. Qed.

Lemma NoDup_snoc_fresh (l : list Conn) (k : Conn) : NoDup l → k ∉ l → NoDup (l ++ [k]).
Proof.
  intros Hl Hk. apply NoDup_app. split; [done|]. split; [|apply NoDup_singleton].
  intros x Hx ->%list_elem_of_singleton. done.
Qed.

Lemma NoDup_keys_delete {V : Type} (m : list (Conn * V)) (k : Conn) :
  NoDup (JsMap.keys m) → NoDup (JsMap.keys (JsMap.delete k m)).
Proof.
  intros Hnd. eapply sublist_NoDup; [exact Hnd|].
  unfold JsMap.keys, JsMap.delete. apply fmap_sublist, sublist_filter.
Qed.

Lemma NoDup_set_add (l : list Conn) (k : Conn) : NoDup l → NoDup (JsSet.add k l).
Proof.
  intros Hl. unfold JsSet.add, JsSet.has. case_bool_decide; [done|].
  by apply NoDup_snoc_fresh.
Qed.

Lemma NoDup_set_delete (l : list Conn) (k : Conn) : NoDup l → NoDup (JsSet.delete k l).
Proof. intros Hl. unfold JsSet.delete. by apply NoDup_filter. Qed.

Lemma set_delete_elem (k k' : Conn) (l : list Conn) :
  k' ∈ JsSet.delete k l ↔ k' ≠ k ∧ k' ∈ l.
Proof. unfold JsSet.delete. by rewrite list_elem_of_filter. Qed.

Lemma registry_wf_same (s s' : State) :
  clients s' = clients s → senders s' = senders s → browserClients s' = browserClients s →
  registry_wf s → registry_wf s'.
Proof. unfold registry_wf, ws_isBrowser. by intros -> -> ->. Qed.

(** Adding [c], a connected [ws], at the end of [senders]. *)
Lemma registry_wf_new_sender (s s' : State) (c : Conn) (info : SenderInfo) :
  clients s' = clients s → browserClients s' = browserClients s →
  senders s' = senders s ++ [(c, info)] →
  c ∉ JsMap.keys (senders s) → is_Some (clients s !! c) →
  registry_wf s → registry_wf s'.
Proof.
  intros Hc Hb Hs Hn Hex (H1 & H2 & H3 & H4).
  unfold registry_wf, ws_isBrowser. rewrite Hc, Hb, Hs, keys_snoc.
  split; [by apply NoDup_snoc_fresh|]. split; [done|]. split; [|done].
  intros c' [Hin| ->%list_elem_of_singleton]%elem_of_app; [by apply H3 | done].
Qed.

Lemma step_registry_wf (now : Z) (e : Event) (s s' : State) (out : list Send) :
  timers_wf s → registry_wf s → step now e s = Some (s', out) → registry_wf s'.
Proof.
  intros Htw Hwf. unfold step. case_decide; [done|].
  assert (Hwf0 : registry_wf (set_clock now s)) by done.
  destruct Hwf as (H1 & H2 & H3 & H4).
  destruct e as [c sock|c m rnd|c sock|c|rnd].
  - destruct (clients (set_clock now s) !! c) eqn:Hc; [done|]. intros [= <- _].
    simpl in Hc. unfold registry_wf, ws_isBrowser, on_connection. cbn.
    split; [done|]. split; [done|]. split.
    + intros c' Hin. apply lookup_insert_is_Some'. right. by apply H3.
    + intros b Hb. specialize (H4 b Hb).
      assert (b ≠ c).
      { intros ->. apply isBrowser_connected in H4 as [w Hw]. congruence. }
      by rewrite lookup_insert_ne.
  - destruct (ws_readyState (set_clock now s) c) as [rs|] eqn:Hrs; [|done].
    case_decide; [done|]. intros [-> _]%some_pair_inv.
    assert (Hex : is_Some (clients (set_clock now s) !! c)).
    { unfold ws_readyState in Hrs. by destruct (clients (set_clock now s) !! c). }
    unfold on_message. destruct (parsed m) as [d|]; [|done].
    repeat case_decide; try done.
    + destruct (on_screenshot_spec c d now rnd (set_clock now s)) as (Hs & _ & _ & _ & Hb).
      pose proof (on_screenshot_clients c d now rnd (set_clock now s)) as Hc.
      destruct (JsMap.has c (senders (set_clock now s))) eqn:Hh.
      * by apply (registry_wf_same (set_clock now s)).
      * apply (registry_wf_new_sender (set_clock now s) _ c _ Hc Hb Hs); try done.
        by apply has_false_keys.
    + destruct (on_code_spec c m d now (set_clock now s)) as (Hc & Hs & Hb & _).
      by apply (registry_wf_same (set_clock now s)).
    + destruct (register_browser_effect c now (set_clock now s) Hex)
        as (_ & _ & Hs & _ & Hb & _ & Hib & _).
      destruct (on_register_browser_full c now (set_clock now s)) as [Hcl _].
      split; [|split; [|split]].
      * rewrite Hs. by apply (NoDup_keys_delete (senders s) c).
      * rewrite Hb. by apply NoDup_set_add.
      * intros c'. rewrite Hs, Hcl, !alter_is_Some.
        intros [_ Hin]%(keys_delete c c' (senders s)). by apply H3.
      * intros b. rewrite Hb. intros [-> |Hin]%set_add_elem; [done|].
        apply on_register_browser_isBrowser. left. by apply H4.
  - destruct (is_open _ c); [|done]. intros [= <- _].
    unfold registry_wf. cbn. split; [done|]. split; [done|]. split.
    + intros c' Hin. apply alter_is_Some. by apply H3.
    + intros b Hb. by apply isBrowser_alter; [|apply H4].
  - destruct (clients (set_clock now s) !! c) as [w|] eqn:Hw; [|done].
    case_decide; [done|]. intros [-> _]%some_pair_inv.
    set (s1 := set_clients _ (set_clock now s)).
    destruct (on_close_spec c s1) as (Hs & Hb & _).
    pose proof (on_close_clients c s1) as Hcl.
    split; [|split; [|split]].
    * rewrite Hs. by apply (NoDup_keys_delete (senders s) c).
    * rewrite Hb. by apply NoDup_set_delete.
    * intros c'. rewrite Hs, Hcl. unfold s1. cbn. rewrite !alter_is_Some.
      intros [_ Hin]%(keys_delete c c' (senders s)). by apply H3.
    * intros b. rewrite Hb. intros [_ Hin]%set_delete_elem.
      apply on_close_isBrowser. unfold s1. by apply isBrowser_alter; [|apply H4].
  - simpl. destruct (next_due (timers s)) as [t|] eqn:Ht; [|done]. case_decide; [|done].
    intros [-> _]%some_pair_inv.
    set (s1 := clearTimeout (timer_id t) (set_clock now s)).
    assert (Hwf1 : registry_wf s1) by done.
    destruct (task t) as [c|c|c msg| |] eqn:Htask; unfold run_task; cbn [fst]; try done.
    + destruct (on_registerTimer_frame c now rnd s1) as (Hc & _ & _ & Hb & _).
      destruct (negb (ws_isBrowser s1 c) && negb (JsMap.has c (senders s1))) eqn:Hcond.
      * apply andb_true_iff in Hcond as [Hnb Hnh].
        apply negb_true_iff in Hnb. apply negb_true_iff in Hnh.
        apply has_false_keys in Hnh.
        destruct (on_registerTimer_spec c now rnd s1 Hnb Hnh) as (Hs & _).
        apply (registry_wf_new_sender s1 _ c _ Hc Hb Hs); try done.
        destruct Htw as (_ & _ & _ & T4).
        apply (registerTimer_connected s c (timer_id t)), T4; [|done].
        by apply next_due_elem.
      * unfold on_registerTimer. by rewrite Hcond.
    + destruct (on_flushBuffered_registry c now s1) as (Hs & Hb & Hc).
      by apply (registry_wf_same s1).
Qed.

Lemma registries_wf_reachable (s : State) :
  reachable s → timers_wf s ∧ registry_wf s.
Proof.
  revert s. apply (reachable_ind (λ s, timers_wf s ∧ registry_wf s)).
  - intros t0. split; [by apply reachable_timers_wf; exists t0, [], []|].
    unfold registry_wf. cbn. repeat split; try apply NoDup_nil_2;
      by intros c ?%not_elem_of_nil.
  - intros now e s0 s1 out [Ht Hg] Hstep. split.
    + by apply (step_timers_wf now e s0 s1 out).
    + by apply (step_registry_wf now e s0 s1 out).
Qed.

(** X12.  In every reachable state the registries are well formed: no
    connection is twice in [senders] or twice in [browserClients], every
    registered sender and every registered browser is a connection the
    server holds a [ws] object for, and every member of [browserClients]
    carries the [_isBrowser] flag. *)
Theorem registries_are_well_formed (s : State) :
  reachable s →
  NoDup (JsMap.keys (senders s)) ∧
  NoDup (browserClients s) ∧
  (∀ c, c ∈ JsMap.keys (senders s) → is_Some (clients s !! c)) ∧
  (∀ c, c ∈ browserClients s → ws_isBrowser s c = true ∧ is_Some (clients s !! c)).
Proof.
  intros Hr.
  destruct (registries_wf_reachable s Hr) as [_ (H1 & H2 & H3 & H4)].
  repeat split; try done.
  - by apply H4.
  - by apply isBrowser_connected, H4.
Qed.

Lemma registries_are_well_formed_witness :
  NoDup (JsMap.keys (senders (state_after busy_day))) ∧
  NoDup (browserClients (state_after busy_day)) ∧
  browserClients (state_after busy_day) = [2%nat] ∧
  JsMap.keys (senders (state_after busy_day)) = [3%nat].
Proof.
  destruct (registries_are_well_formed (state_after busy_day)) as (H1 & H2 & _).
  - apply reachable_state_after. vm_compute. by eexists.
  - split; [exact H1|]. split; [exact H2|]. split; by vm_compute.
Defined.

(** ** Closed connections *)

Lemma readyState_alter_lookup (f : WebSocket → WebSocket) (c c' : Conn)
    (m : gmap nat WebSocket) :
  (∀ w, readyState (f w) = readyState w) →
  readyState <$> alter f c m !! c' = readyState <$> m !! c'.
Proof.
  intros Hf. rewrite lookup_alter. case_decide; subst; [|done].
  destruct (m !! c'); simpl; [by rewrite Hf | done].
Qed.

(** The part of [closed_gone] that speaks of the registries and the
    handle. *)
Lemma closed_gone_intro (s : State) :
  timers_wf s →
  (∀ c, ws_readyState s c = Some CLOSED →
     (c ∉ JsMap.keys (senders s)) ∧ (c ∉ browserClients s) ∧ ws_registerTimer s c = None) →
  closed_gone s.
Proof.
  intros (_ & _ & _ & T4) Hcore c Hc. destruct (Hcore c Hc) as (H1 & H2 & H3).
  repeat split; try done. intros t Ht Htask. specialize (T4 t c Ht Htask). congruence.
Qed.

Lemma step_closed_gone (now : Z) (e : Event) (s s' : State) (out : list Send) :
  timers_wf s → closed_gone s → step now e s = Some (s', out) → closed_gone s'.
Proof.
  intros Htw Hcg Hstep.
  apply closed_gone_intro; [by apply (step_timers_wf now e s s' out)|].
  assert (Hcore : ∀ c, ws_readyState s c = Some CLOSED →
            (c ∉ JsMap.keys (senders s)) ∧ (c ∉ browserClients s)
            ∧ ws_registerTimer s c = None).
  { intros c Hc. destruct (Hcg c Hc) as (? & ? & ? & _). done. }
  clear Hcg. revert Hstep. unfold step. case_decide; [done|].
  destruct e as [c0 sock|c0 m rnd|c0 sock|c0|rnd].
  - destruct (clients (set_clock now s) !! c0) eqn:Hc0; [done|]. intros [= <- _] c.
    unfold ws_readyState, ws_registerTimer, on_connection. cbn. simpl in Hc0.
    destruct (decide (c = c0)) as [->|Hne]; [by rewrite lookup_insert_eq|].
    rewrite !lookup_insert_ne by done. apply Hcore.
  - destruct (ws_readyState (set_clock now s) c0) as [rs|] eqn:Hrs; [|done].
    case_decide as Hnc; [done|]. intros [-> _]%some_pair_inv.
    assert (Hex : is_Some (clients (set_clock now s) !! c0)).
    { unfold ws_readyState in Hrs. by destruct (clients (set_clock now s) !! c0). }
    assert (Hne : ∀ c, ws_readyState s c = Some CLOSED → c ≠ c0).
    { intros c Hc ->. change (ws_readyState s c0 = Some rs) in Hrs. congruence. }
    unfold on_message. destruct (parsed m) as [d|]; [|apply Hcore].
    repeat case_decide; [| | |apply Hcore].
    + destruct (on_screenshot_spec c0 d now rnd (set_clock now s)) as (Hs & _ & _ & _ & Hb).
      pose proof (on_screenshot_clients c0 d now rnd (set_clock now s)) as Hc.
      intros c. unfold ws_readyState, ws_registerTimer. rewrite Hc, Hb, Hs. intros Hcl.
      destruct (Hcore c Hcl) as (Hk1 & Hk2 & Hk3). split; [|done].
      destruct (JsMap.has c0 (senders (set_clock now s))); [done|].
      rewrite keys_snoc, elem_of_app, list_elem_of_singleton.
      intros [?|?]; [done | by apply (Hne c)].
    + destruct (on_code_spec c0 m d now (set_clock now s)) as (Hc & Hs & Hb & _).
      intros c. unfold ws_readyState, ws_registerTimer. rewrite Hc, Hb, Hs. apply Hcore.
    + destruct (register_browser_effect c0 now (set_clock now s) Hex)
        as (_ & _ & Hs & _ & Hb & _).
      destruct (on_register_browser_full c0 now (set_clock now s)) as [Hcl _].
      intros c. unfold ws_readyState, ws_registerTimer. rewrite Hcl, Hb, Hs.
      rewrite (registerTimer_alter_cancel c0 c _ (write_isBrowser true)) by done.
      rewrite !readyState_alter_lookup by done. intros Hc.
      destruct (Hcore c Hc) as (Hk1 & Hk2 & Hk3). split; [|split].
      * intros [_ ?]%(keys_delete c0 c (senders s)). done.
      * intros [->|?]%set_add_elem; [by apply (Hne c0) | done].
      * by case_decide.
  - destruct (is_open (set_clock now s) c0) eqn:Ho; [|done]. intros [= <- _] c.
    unfold ws_readyState, ws_registerTimer. cbn.
    rewrite (registerTimer_alter_keep c0 c) by done.
    destruct (decide (c = c0)) as [->|Hne].
    + rewrite lookup_alter_eq. unfold is_open, ws_readyState in Ho.
      apply bool_decide_eq_true in Ho. cbn in Ho.
      by destruct (clients s !! c0).
    + rewrite lookup_alter_ne by done. apply Hcore.
  - destruct (clients (set_clock now s) !! c0) as [w|] eqn:Hw; [|done].
    case_decide; [done|]. intros [-> _]%some_pair_inv.
    set (s1 := set_clients _ (set_clock now s)).
    destruct (on_close_spec c0 s1) as (Hs & Hb & _).
    pose proof (on_close_clients c0 s1) as Hcl.
    intros c. unfold ws_readyState, ws_registerTimer. rewrite Hcl, Hb, Hs.
    unfold s1. cbn.
    rewrite (registerTimer_alter_cancel c0 c _ (write_transport CLOSED (_socket w))) by done.
    rewrite readyState_alter_lookup by done.
    destruct (decide (c = c0)) as [->|Hne].
    + intros _. split; [|split; [|done]].
      * intros [? _]%(keys_delete c0 c0 (senders s)). done.
      * apply set_delete_not_elem.
    + rewrite lookup_alter_ne by done. intros Hc.
      destruct (Hcore c Hc) as (Hk1 & Hk2 & Hk3). split; [|split; [|done]].
      * intros [_ ?]%(keys_delete c0 c (senders s)). done.
      * intros [_ ?]%set_delete_elem. done.
  - simpl. destruct (next_due (timers s)) as [t|] eqn:Ht; [|done]. case_decide; [|done].
    intros [-> _]%some_pair_inv.
    set (s1 := clearTimeout (timer_id t) (set_clock now s)).
    assert (Hcore1 : ∀ c, ws_readyState s1 c = Some CLOSED →
              (c ∉ JsMap.keys (senders s1)) ∧ (c ∉ browserClients s1)
              ∧ ws_registerTimer s1 c = None) by apply Hcore.
    destruct (task t) as [c0|c0|c0 msg| |] eqn:Htask; unfold run_task; cbn [fst];
      try apply Hcore1.
    + destruct (on_registerTimer_frame c0 now rnd s1) as (Hc & _ & _ & Hb & _).
      destruct (negb (ws_isBrowser s1 c0) && negb (JsMap.has c0 (senders s1))) eqn:Hcond.
      * apply andb_true_iff in Hcond as [Hnb Hnh].
        apply negb_true_iff in Hnb. apply negb_true_iff in Hnh.
        apply has_false_keys in Hnh.
        destruct (on_registerTimer_spec c0 now rnd s1 Hnb Hnh) as (Hs & _).
        intros c. unfold ws_readyState, ws_registerTimer. rewrite Hc, Hb, Hs. intros Hcl.
        destruct (Hcore c Hcl) as (Hk1 & Hk2 & Hk3). split; [|done].
        rewrite keys_snoc, elem_of_app, list_elem_of_singleton.
        intros [?| ->]; [done|].
        destruct Htw as (_ & _ & _ & T4).
        specialize (T4 t c0 (next_due_elem _ _ Ht) Htask). congruence.
      * unfold on_registerTimer. rewrite Hcond. apply Hcore1.
    + destruct (on_flushBuffered_registry c0 now s1) as (Hs & Hb & Hc).
      intros c. unfold ws_readyState, ws_registerTimer. rewrite Hc, Hb, Hs. apply Hcore.
Qed.

(** X13.  A closed connection is gone for good: in every reachable
    state a connection whose [readyState] is [CLOSED] is in neither
    registry, keeps no timer handle, and has no [registerTimer] pending,
    so nothing can classify it again. *)
Theorem closed_connections_are_gone (s : State) (c : Conn) :
  reachable s →
  ws_readyState s c = Some CLOSED →
  (c ∉ JsMap.keys (senders s)) ∧ (c ∉ browserClients s) ∧
  ws_registerTimer s c = None ∧
  ∀ t, t ∈ timers s → task t ≠ registerTimer c.
Proof.
  intros Hr.
  assert (Hinv : timers_wf s ∧ closed_gone s).
  { revert s Hr. apply (reachable_ind (λ s, timers_wf s ∧ closed_gone s)).
    - intros t0. split; [by apply reachable_timers_wf; exists t0, [], []|].
      intros c0. unfold ws_readyState. cbn. by rewrite lookup_empty.
    - intros now e s0 s1 out [Ht Hg] Hstep. split.
      + by apply (step_timers_wf now e s0 s1 out).
      + by apply (step_closed_gone now e s0 s1 out). }
  destruct Hinv as [_ Hcg]. apply Hcg.
Qed.

Lemma closed_connections_are_gone_witness :
  ws_readyState (state_after busy_day) 1 = Some CLOSED ∧
  (1%nat ∉ JsMap.keys (senders (state_after busy_day))) ∧
  (1%nat ∉ browserClients (state_after busy_day)) ∧
  ws_registerTimer (state_after busy_day) 1 = None.
Proof.
  assert (Hc : ws_readyState (state_after busy_day) 1 = Some CLOSED) by (by vm_compute).
  destruct (closed_connections_are_gone (state_after busy_day) 1) as (H1 & H2 & H3 & _).
  - apply reachable_state_after. vm_compute. by eexists.
  - exact Hc.
  - split; [exact Hc|]. split; [exact H1|]. split; [exact H2 | exact H3].
Defined.

(** ** The periodic sweep stays armed *)

Lemma timer_unique_by_id (ts : list Timer) (t t' : Timer) :
  NoDup (timer_id <$> ts) → t ∈ ts → t' ∈ ts → timer_id t' = timer_id t → t' = t.
Proof.
  induction ts as [|x ts IH]; [by intros _ ?%not_elem_of_nil|].
  rewrite fmap_cons, NoDup_cons. intros [Hx Hnd] Ht Ht' Hid.
  apply elem_of_cons in Ht as [->|Ht]; apply elem_of_cons in Ht' as [->|Ht']; try done.
  - exfalso. apply Hx. rewrite <- Hid. apply list_elem_of_fmap. eauto.
  - exfalso. apply Hx. rewrite Hid. apply list_elem_of_fmap. eauto.
  - by apply IH.
Qed.

Lemma pending_after_removal (P : Timer → Prop) `{!∀ t, Decision (P t)}
    (h : TimerId) (ts : list Timer) :
  (∀ t, t ∈ ts → timer_id t = h → ¬ P t) →
  filter P (filter (λ t : Timer, timer_id t ≠ h) ts) = filter P ts.
Proof.
  induction ts as [|x ts IH]; intros Hh; [done|].
  assert (IH' : filter P (filter (λ t : Timer, timer_id t ≠ h) ts) = filter P ts).
  { apply IH. intros t Ht. apply Hh. by right. }
  destruct (decide (timer_id x = h)) as [Hx|Hx].
  - rewrite (filter_cons_False (λ t, timer_id t ≠ h)) by (intros ?; done).
    rewrite (filter_cons_False P) by (apply Hh; [left | done]). done.
  - rewrite (filter_cons_True (λ t, timer_id t ≠ h)) by done.
    destruct (decide (P x)).
    + by rewrite !filter_cons_True, IH' by done.
    + by rewrite !filter_cons_False by done.
Qed.

(** Cancelling the classification timer of a connection removes no
    sweep. *)
Lemma pending_sweeps_cancel (s : State) (c : Conn) :
  timers_wf s →
  filter (λ t : Timer, task t = cleanExpired)
    (match ws_registerTimer s c with
     | Some h => filter (λ t : Timer, timer_id t ≠ h) (timers s)
     | None => timers s
     end)
  = pending_sweeps s.
Proof.
  intros (_ & _ & T3 & _). unfold pending_sweeps.
  destruct (ws_registerTimer s c) as [h|] eqn:Hh; [|done].
  apply pending_after_removal. intros t Ht Hid Htask.
  destruct (T3 c h Hh) as [_ Hreg]. specialize (Hreg t Ht Hid). congruence.
Qed.

Lemma pending_sweeps_arm (ts new : list Timer) :
  (∀ t, t ∈ new → task t ≠ cleanExpired) →
  filter (λ t : Timer, task t = cleanExpired) (ts ++ new)
  = filter (λ t : Timer, task t = cleanExpired) ts.
Proof.
  intros Hnew. rewrite filter_app.
  replace (filter (λ t : Timer, task t = cleanExpired) new) with (@nil Timer);
    [by rewrite app_nil_r|].
  symmetry. induction new as [|x new IH]; [done|].
  rewrite filter_cons_False by (apply Hnew; left). apply IH.
  intros t Ht. apply Hnew. by right.
Qed.

Lemma filter_none {A : Type} (P : A → Prop) `{!∀ x, Decision (P x)} (l : list A) :
  (∀ x, x ∈ l → ¬ P x) → filter P l = [].
Proof.
  induction l as [|x l IH]; intros Hall; [done|].
  rewrite filter_cons_False by (apply Hall; left). apply IH.
  intros y Hy. apply Hall. by right.
Qed.

Lemma pending_sweeps_same (s s' : State) :
  timers s' = timers s → pending_sweeps s' = pending_sweeps s.
Proof. unfold pending_sweeps. by intros ->. Qed.

Lemma step_sweep_armed (now : Z) (e : Event) (s s' : State) (out : list Send) :
  timers_wf s → length (pending_sweeps s) = 1%nat →
  step now e s = Some (s', out) → length (pending_sweeps s') = 1%nat.
Proof.
  intros Htw Harmed. unfold step. case_decide; [done|].
  destruct e as [c sock|c m rnd|c sock|c|rnd].
  - destruct (clients (set_clock now s) !! c); [done|]. intros [= <- _].
    unfold pending_sweeps, on_connection. cbn.
    rewrite pending_sweeps_arm; [done|].
    by intros t ->%list_elem_of_singleton.
  - destruct (ws_readyState (set_clock now s) c) as [rs|] eqn:Hrs; [|done].
    case_decide; [done|]. intros [-> _]%some_pair_inv.
    assert (Hex : is_Some (clients (set_clock now s) !! c)).
    { unfold ws_readyState in Hrs. by destruct (clients (set_clock now s) !! c). }
    unfold on_message. destruct (parsed m) as [d|]; [|done].
    repeat case_decide; try done.
    + destruct (on_screenshot_timers c d now rnd (set_clock now s)) as [Ht _].
      by rewrite (pending_sweeps_same (set_clock now s)).
    + destruct (on_code_spec c m d now (set_clock now s)) as (_ & _ & _ & _ & _ & Ht & _).
      by rewrite (pending_sweeps_same (set_clock now s)).
    + destruct (register_browser_effect c now (set_clock now s) Hex) as (_ & Htm & _).
      unfold pending_sweeps. rewrite Htm, pending_sweeps_arm.
      * by rewrite (pending_sweeps_cancel (set_clock now s)).
      * intros t. destruct (is_open _ c && bool_decide _).
        -- by intros ->%list_elem_of_singleton.
        -- by intros ?%not_elem_of_nil.
  - destruct (is_open _ c); [|done]. by intros [= <- _].
  - destruct (clients (set_clock now s) !! c) as [w|] eqn:Hw; [|done].
    case_decide; [done|]. intros [-> _]%some_pair_inv.
    set (s1 := set_clients _ (set_clock now s)).
    destruct (on_close_spec c s1) as (_ & _ & _ & Htm & _).
    assert (Htw1 : timers_wf s1).
    { unfold timers_wf, ws_registerTimer, s1. cbn.
      eapply timer_handles_wf_ext; [|exact Htw].
      intros c'. by apply registerTimer_alter_keep. }
    unfold pending_sweeps. rewrite Htm. by rewrite (pending_sweeps_cancel s1).
  - simpl. destruct (next_due (timers s)) as [t|] eqn:Ht; [|done]. case_decide; [|done].
    intros [-> _]%some_pair_inv.
    apply next_due_elem in Ht. destruct Htw as (T1 & _).
    set (s1 := clearTimeout (timer_id t) (set_clock now s)).
    destruct (decide (task t = cleanExpired)) as [Hsw|Hsw].
    + rewrite Hsw. unfold run_task, pending_sweeps. cbn.
      rewrite filter_app, length_app, filter_cons_True, filter_nil by done.
      rewrite list_filter_filter.
      assert (Hnone : filter (λ x : Timer, task x = cleanExpired ∧ timer_id x ≠ timer_id t)
                        (timers s) = []).
      { apply filter_none. intros x Hx [Hx1 Hx2].
        unfold pending_sweeps in Harmed.
        assert (Hxp : x ∈ filter (λ t0 : Timer, task t0 = cleanExpired) (timers s))
          by (by apply list_elem_of_filter).
        assert (Htp : t ∈ filter (λ t0 : Timer, task t0 = cleanExpired) (timers s))
          by (by apply list_elem_of_filter).
        destruct (filter (λ t0 : Timer, task t0 = cleanExpired) (timers s))
          as [|t1 [|t2 l]]; try done.
        apply list_elem_of_singleton in Hxp. apply list_elem_of_singleton in Htp.
        congruence. }
      by rewrite Hnone.
    + assert (Hp1 : pending_sweeps s1 = pending_sweeps s).
      { unfold pending_sweeps, s1. cbn. apply pending_after_removal.
        intros t' Ht' Hid. by rewrite (timer_unique_by_id (timers s) t t'). }
      destruct (task t) as [c|c|c msg| |] eqn:Htask; unfold run_task; cbn [fst];
        [| | by rewrite Hp1 | by rewrite (pending_sweeps_same s1), Hp1 | done].
      * destruct (on_registerTimer_frame c now rnd s1) as (_ & Htm & _).
        by rewrite (pending_sweeps_same s1), Hp1.
      * destruct (on_flushBuffered_spec c now s1) as (Htm & _).
        unfold pending_sweeps. rewrite Htm, pending_sweeps_arm;
          [exact (eq_trans (f_equal length Hp1) Harmed)|].
        intros t' Ht' Hcl. unfold paced_timers in Ht'.
        apply elem_of_app in Ht' as [Ht'|Ht'].
        -- apply elem_of_lookup_imap_1 in Ht' as (i & x & -> & _). done.
        -- apply list_elem_of_singleton in Ht' as ->. done.
Qed.

(** X14.  Nothing disarms the periodic sweep: in every reachable state
    exactly one expiry of [cleanExpiredBuffers] is pending, whatever
    timers were armed, cancelled or run in between. *)
Theorem sweep_stays_armed (s : State) :
  reachable s →
  ∃ t, filter (λ t : Timer, task t = cleanExpired) (timers s) = [t].
Proof.
  intros Hr.
  assert (Hinv : timers_wf s ∧ length (pending_sweeps s) = 1%nat).
  { revert s Hr.
    apply (reachable_ind (λ s, timers_wf s ∧ length (pending_sweeps s) = 1%nat)).
    - intros t0. split; [by apply reachable_timers_wf; exists t0, [], []|done].
    - intros now e s0 s1 out [Ht Hg] Hstep. split.
      + by apply (step_timers_wf now e s0 s1 out).
      + by apply (step_sweep_armed now e s0 s1 out). }
  destruct Hinv as [_ Hlen]. unfold pending_sweeps in Hlen.
  destruct (filter _ (timers s)) as [|t [|t' l]]; try done. by exists t.
Qed.

Lemma sweep_stays_armed_witness :
  ∃ t, filter (λ t : Timer, task t = cleanExpired) (timers (state_after busy_day)) = [t].
Proof.
  apply sweep_stays_armed, reachable_state_after. vm_compute. by eexists.
Defined.

(** ** Frames go to open connections only *)

Lemma sent_to_open_same (s s' : State) (out : list Send) :
  (∀ c, is_open s' c = is_open s c) → sent_to_open s out → sent_to_open s' out.
Proof.
  intros Heq Hall. unfold sent_to_open in *. eapply Forall_impl; [exact Hall|].
  intros x. simpl. by rewrite Heq.
Qed.

Lemma sent_to_open_filter (s : State) (l : list Conn) (m : Outbound) :
  sent_to_open s ((λ b, (b, m)) <$> filter (λ b, is_open s b) l).
Proof.
  unfold sent_to_open. rewrite Forall_fmap. apply Forall_forall.
  intros b [Hb _]%list_elem_of_filter. simpl. by apply Is_true_true.
Qed.

Lemma sent_to_open_guarded (s : State) (c : Conn) (l : list Outbound) :
  sent_to_open s (if is_open s c then (λ m, (c, m)) <$> l else []).
Proof.
  unfold sent_to_open. destruct (is_open s c) eqn:Ho; [|constructor].
  rewrite Forall_fmap. apply Forall_forall. by intros.
Qed.

Lemma is_open_clients (s s' : State) (f : WebSocket → WebSocket) (c : Conn) :
  (∀ w, readyState (f w) = readyState w) →
  clients s' = alter f c (clients s) → ∀ c', is_open s' c' = is_open s c'.
Proof.
  intros Hf Hc c'. unfold is_open, ws_readyState. rewrite Hc.
  by rewrite readyState_alter_lookup.
Qed.

Lemma on_message_sent_to_open (c : Conn) (m : Frame) (now : Z) (rnd : string) (s : State) :
  is_Some (clients s !! c) →
  sent_to_open (on_message c m now rnd s).1 (on_message c m now rnd s).2.
Proof.
  intros Hex. unfold on_message. destruct (parsed m) as [d|]; [|constructor].
  repeat case_decide; [| | |constructor].
  - destruct (on_screenshot_spec c d now rnd s) as (_ & _ & Hout & _).
    apply (sent_to_open_same s).
    { intros c'. apply is_open_same_clients, on_screenshot_clients. }
    rewrite Hout. apply Forall_app. split.
    + destruct (JsMap.has c (senders s)); [constructor | apply sent_to_open_filter].
    + case_decide; [constructor | apply sent_to_open_filter].
  - destruct (on_code_spec c m d now s) as (Hc & _).
    apply (sent_to_open_same s); [intros c'; by apply is_open_same_clients|].
    unfold on_code. case_decide; cbn [snd].
    + rewrite relay_fanout. unfold sent_to_open. rewrite Forall_fmap. apply Forall_forall.
      intros r [[_ Hr] _]%list_elem_of_filter. simpl. by apply Is_true_true.
    + unfold send_if_open. rewrite (is_open_same_clients s) by done.
      apply (sent_to_open_guarded s c [no_senders]).
  - destruct (register_browser_effect c now s Hex) as (_ & _ & _ & _ & _ & _ & _ & Hout & _).
    destruct (on_register_browser_full c now s) as [Hcl _].
    apply (sent_to_open_same s).
    { intros c'. unfold is_open, ws_readyState. rewrite Hcl.
      by rewrite !readyState_alter_lookup. }
    rewrite Hout. apply Forall_app. split.
    + destruct (JsMap.get c (senders s)); [apply sent_to_open_filter | constructor].
    + apply (sent_to_open_guarded s c [current_senders _]).
Qed.

Lemma on_close_sent_to_open (c : Conn) (s : State) :
  sent_to_open (on_close c s).1 (on_close c s).2.
Proof.
  destruct (on_close_spec c s) as (_ & _ & _ & _ & Hout & _).
  apply (sent_to_open_same s).
  { by apply (is_open_clients s _ (write_registerTimer None) c), on_close_clients. }
  rewrite Hout. destruct (JsMap.get c (senders s)); [apply sent_to_open_filter | constructor].
Qed.

Lemma run_task_sent_to_open (t : Task) (now : Z) (rnd : string) (s : State) :
  sent_to_open (run_task t now rnd s).1 (run_task t now rnd s).2.
Proof.
  apply (sent_to_open_same s).
  { intros c. apply is_open_same_clients, run_task_clients. }
  destruct t as [c|c|c msg| |]; unfold run_task; cbn [snd]; try constructor.
  - destruct (negb (ws_isBrowser s c) && negb (JsMap.has c (senders s))) eqn:Hcond.
    + apply andb_true_iff in Hcond as [Hnb Hnh].
      apply negb_true_iff in Hnb. apply negb_true_iff in Hnh. apply has_false_keys in Hnh.
      destruct (on_registerTimer_spec c now rnd s Hnb Hnh) as (_ & Hout & _).
      rewrite Hout. apply Forall_app. split; [apply sent_to_open_filter|].
      pose proof (sent_to_open_guarded s c (code ∘ c_data <$> codeBuffer s)) as Hg.
      by rewrite <- list_fmap_compose in Hg.
    + unfold on_registerTimer. rewrite Hcond. constructor.
  - unfold on_sendBuffered, send_if_open.
    apply (sent_to_open_guarded s c [screenshot _ _ _]).
Qed.

(** X15.  The engine never sends to a connection that is not open:
    every frame sent in a turn of the event loop is addressed to a
    connection whose [readyState] is [OPEN] when the turn ends. *)
Theorem frames_go_to_open_connections
    (now : Z) (e : Event) (s s' : State) (out : list Send) (c : Conn) (m : Outbound) :
  step now e s = Some (s', out) →
  (c, m) ∈ out →
  ws_readyState s' c = Some OPEN.
Proof.
  intros Hstep Hin.
  assert (Hall : sent_to_open s' out).
  { revert Hstep. clear Hin. unfold step. case_decide; [done|].
    destruct e as [c0 sock|c0 m0 rnd|c0 sock|c0|rnd].
    - destruct (clients _ !! c0); [done|]. intros [= <- <-]. constructor.
    - destruct (ws_readyState (set_clock now s) c0) as [rs|] eqn:Hrs; [|done].
      case_decide; [done|]. intros [-> ->]%some_pair_inv.
      apply on_message_sent_to_open.
      unfold ws_readyState in Hrs. by destruct (clients (set_clock now s) !! c0).
    - destruct (is_open _ c0); [|done]. intros [= <- <-]. constructor.
    - destruct (clients _ !! c0) as [w|]; [|done]. case_decide; [done|].
      intros [-> ->]%some_pair_inv. apply on_close_sent_to_open.
    - simpl. destruct (next_due (timers s)) as [t|]; [|done]. case_decide; [|done].
      intros [-> ->]%some_pair_inv. apply run_task_sent_to_open. }
  unfold sent_to_open in Hall. rewrite Forall_forall in Hall.
  specialize (Hall _ Hin). simpl in Hall. unfold is_open in Hall.
  by apply bool_decide_eq_true in Hall.
Qed.

Lemma frames_go_to_open_connections_witness :
  ws_readyState (on_message 1 (screenshot_frame "img") 150 "r" (set_clock 150 watched_sender)).1
    2 = Some OPEN.
Proof.
  apply (frames_go_to_open_connections 150 (message 1 (screenshot_frame "img") "r")
           watched_sender _
           (on_message 1 (screenshot_frame "img") 150 "r" (set_clock 150 watched_sender)).2
           2 (screenshot "img" (Some "sender-20-abcde") None)).
  - reflexivity.
  - vm_compute. left.
Defined.

(** ** One turn of the loop seen from one connection *)

Lemma step_clock (now : Z) (e : Event) (s s' : State) (out : list Send) :
  step now e s = Some (s', out) → clock s' = now ∧ clock s ≤ now.
Proof.
  unfold step. case_decide as Hlate; [done|]. intros Hstep. split; [|lia].
  destruct e as [c sock|c m rnd|c sock|c|rnd].
  - destruct (clients _ !! c); [done|]. by injection Hstep as <- _.
  - destruct (ws_readyState _ c); [|done]. case_decide; [done|].
    apply some_pair_inv in Hstep as [-> _]. unfold on_message.
    destruct (parsed m) as [d|]; [|done]. repeat case_decide; try done.
    + by destruct (on_screenshot_buffer c d now rnd (set_clock now s)) as [-> _].
    + by destruct (on_code_screenshotBuffer c m d now (set_clock now s)) as [_ ->].
    + by destruct (on_register_browser_frame c now (set_clock now s)) as (_ & _ & ->).
  - destruct (is_open _ c); [|done]. by injection Hstep as <- _.
  - destruct (clients _ !! c) as [w|]; [|done]. case_decide; [done|].
    apply some_pair_inv in Hstep as [-> _].
    by destruct (on_close_frame c (set_clients (alter (write_transport CLOSED (_socket w)) c
                   (clients (set_clock now s))) (set_clock now s))) as (_ & _ & ->).
  - simpl in Hstep. destruct (next_due (timers s)) as [t|]; [|done].
    case_decide; [|done]. apply some_pair_inv in Hstep as [-> _].
    set (s0 := clearTimeout (timer_id t) (set_clock now s)).
    destruct (task t) as [c|c|c msg| |]; unfold run_task; cbn [fst]; try done.
    + by destruct (on_registerTimer_screenshotBuffer c now rnd s0) as [_ ->].
    + by destruct (on_flushBuffered_spec c now s0) as (_ & _ & _ & ->).
Qed.

Lemma run_clock (tr : list (Z * Event)) :
  ∀ (s s' : State) (out : list Send),
    run tr s = Some (s', out) →
    clock s ≤ clock s' ∧ Forall (λ x : Z * Event, x.1 ≤ clock s') tr.
Proof.
  induction tr as [|[now e] tr IH]; intros s s' out Hrun; simpl in *.
  - by injection Hrun as <- _.
  - destruct (step now e s) as [[s1 out1]|] eqn:Hstep; [|done].
    destruct (run tr s1) as [[s2 out2]|] eqn:Hrun1; [|done]. injection Hrun as <- _.
    destruct (step_clock _ _ _ _ _ Hstep) as [Hk Hle].
    destruct (IH s1 s2 out2 Hrun1) as [Hle1 Hall].
    split; [lia|]. apply Forall_cons. split; [simpl; lia | done].
Qed.

(** The sender registry after one turn: unchanged, one entry more at the
    end for the connection the turn classified, or one entry less for
    the connection the turn retired. *)
Lemma step_senders (now : Z) (e : Event) (s s' : State) (out : list Send) :
  step now e s = Some (s', out) →
  senders s' = senders s
  ∨ (∃ c info,
       (c ∉ JsMap.keys (senders s)) ∧ senders s' = senders s ++ [(c, info)] ∧
       ((∃ m rnd, e = message c m rnd)
        ∨ ∃ rnd t, e = timeout rnd ∧ next_due (timers s) = Some t ∧
                   task t = registerTimer c))
  ∨ (∃ c, retires c e = true ∧ senders s' = JsMap.delete c (senders s)).
Proof.
  unfold step. case_decide as Hlate; [done|]. intros Hstep.
  destruct e as [c sock|c m rnd|c sock|c|rnd].
  - destruct (clients _ !! c); [done|]. injection Hstep as <- _. by left.
  - destruct (ws_readyState (set_clock now s) c) as [rs|] eqn:Hrs; [|done].
    case_decide; [done|]. apply some_pair_inv in Hstep as [-> _].
    assert (Hex : is_Some (clients (set_clock now s) !! c)).
    { unfold ws_readyState in Hrs. by destruct (clients (set_clock now s) !! c). }
    unfold on_message. destruct (parsed m) as [d|] eqn:Hp; [|by left].
    repeat case_decide; [| | |by left].
    + destruct (on_screenshot_spec c d now rnd (set_clock now s)) as (Hs & _).
      rewrite Hs. destruct (JsMap.has c (senders (set_clock now s))) eqn:Hh; [by left|].
      right. left. eexists c, _. split; [by apply has_false_keys|]. split; [done|].
      left. by eexists _, _.
    + destruct (on_code_spec c m d now (set_clock now s)) as (_ & Hs & _). by left.
    + destruct (register_browser_effect c now (set_clock now s) Hex) as (_ & _ & Hs & _).
      right. right. exists c. split; [|done]. simpl. rewrite Hp.
      by rewrite !bool_decide_eq_true_2.
  - destruct (is_open _ c); [|done]. injection Hstep as <- _. by left.
  - destruct (clients _ !! c) as [w|]; [|done]. case_decide; [done|].
    apply some_pair_inv in Hstep as [-> _].
    set (s1 := set_clients _ (set_clock now s)).
    destruct (on_close_spec c s1) as (Hs & _).
    right. right. exists c. split; [|done]. simpl. by rewrite bool_decide_eq_true_2.
  - simpl in Hstep. destruct (next_due (timers s)) as [t|] eqn:Ht; [|done].
    case_decide; [|done]. apply some_pair_inv in Hstep as [-> _].
    set (s1 := clearTimeout (timer_id t) (set_clock now s)).
    destruct (task t) as [c|c|c msg| |] eqn:Htask; unfold run_task; cbn [fst];
      try by left.
    + destruct (negb (ws_isBrowser s1 c) && negb (JsMap.has c (senders s1))) eqn:Hcond.
      * apply andb_true_iff in Hcond as [Hnb Hnh].
        apply negb_true_iff in Hnb. apply negb_true_iff in Hnh.
        apply has_false_keys in Hnh.
        destruct (on_registerTimer_spec c now rnd s1 Hnb Hnh) as (Hs & _).
        right. left. eexists c, _. split; [done|]. split; [done|].
        right. by eexists _, _.
      * unfold on_registerTimer. rewrite Hcond. by left.
    + destruct (on_flushBuffered_registry c now s1) as (Hs & _). by left.
Qed.

(** The browser set after one turn: only a [register_browser] frame adds
    to it, and only a close removes from it. *)
Lemma step_browserClients (now : Z) (e : Event) (s s' : State) (out : list Send) :
  step now e s = Some (s', out) →
  browserClients s' = browserClients s
  ∨ (∃ c m rnd, e = message c m rnd ∧ browserClients s' = JsSet.add c (browserClients s))
  ∨ (∃ c, e = close c ∧ browserClients s' = JsSet.delete c (browserClients s)).
Proof.
  unfold step. case_decide as Hlate; [done|]. intros Hstep.
  destruct e as [c sock|c m rnd|c sock|c|rnd].
  - destruct (clients _ !! c); [done|]. injection Hstep as <- _. by left.
  - destruct (ws_readyState (set_clock now s) c) as [rs|] eqn:Hrs; [|done].
    case_decide; [done|]. apply some_pair_inv in Hstep as [-> _].
    assert (Hex : is_Some (clients (set_clock now s) !! c)).
    { unfold ws_readyState in Hrs. by destruct (clients (set_clock now s) !! c). }
    unfold on_message. destruct (parsed m) as [d|] eqn:Hp; [|by left].
    repeat case_decide; [| | |by left].
    + destruct (on_screenshot_spec c d now rnd (set_clock now s)) as (_ & _ & _ & _ & Hb).
      by left.
    + destruct (on_code_spec c m d now (set_clock now s)) as (_ & _ & Hb & _). by left.
    + destruct (register_browser_effect c now (set_clock now s) Hex)
        as (_ & _ & _ & _ & Hb & _).
      right. left. by eexists c, _, _.
  - destruct (is_open _ c); [|done]. injection Hstep as <- _. by left.
  - destruct (clients _ !! c) as [w|]; [|done]. case_decide; [done|].
    apply some_pair_inv in Hstep as [-> _].
    set (s1 := set_clients _ (set_clock now s)).
    destruct (on_close_spec c s1) as (_ & Hb & _).
    right. right. by exists c.
  - simpl in Hstep. destruct (next_due (timers s)) as [t|] eqn:Ht; [|done].
    case_decide; [|done]. apply some_pair_inv in Hstep as [-> _].
    set (s1 := clearTimeout (timer_id t) (set_clock now s)).
    destruct (task t) as [c|c|c msg| |] eqn:Htask; unfold run_task; cbn [fst];
      try by left.
    + destruct (on_registerTimer_frame c now rnd s1) as (_ & _ & _ & Hb & _). by left.
    + destruct (on_flushBuffered_registry c now s1) as (_ & Hb & _). by left.
Qed.

(** The [_isBrowser] flag and the [_registerTimer] handle of a
    connection are written only by events of that connection. *)
Lemma step_other_fields (now : Z) (e : Event) (s s' : State) (out : list Send) (c : Conn) :
  step now e s = Some (s', out) →
  is_Some (clients s !! c) → concerns c e = false →
  ws_isBrowser s' c = ws_isBrowser s c ∧ ws_registerTimer s' c = ws_registerTimer s c.
Proof.
  unfold step. case_decide as Hlate; [done|]. intros Hstep Hc Hne.
  unfold ws_isBrowser, ws_registerTimer.
  destruct e as [c0 sock|c0 m rnd|c0 sock|c0|rnd]; simpl in Hne;
    try apply bool_decide_eq_false in Hne.
  - destruct (clients (set_clock now s) !! c0) eqn:Hc0; [done|]. injection Hstep as <- _.
    simpl in Hc0. unfold on_connection. cbn.
    assert (c ≠ c0) by (intros ->; destruct Hc; congruence).
    by rewrite lookup_insert_ne.
  - destruct (ws_readyState (set_clock now s) c0) as [rs|] eqn:Hrs; [|done].
    case_decide; [done|]. apply some_pair_inv in Hstep as [-> _].
    unfold on_message. destruct (parsed m) as [d|] eqn:Hp; [|done].
    repeat case_decide; [| | |done].
    + by rewrite (on_screenshot_clients c0 d now rnd (set_clock now s)).
    + by destruct (on_code_spec c0 m d now (set_clock now s)) as (-> & _).
    + destruct (on_register_browser_full c0 now (set_clock now s)) as [-> _]. cbn.
      by rewrite !lookup_alter_ne by done.
  - destruct (is_open _ c0); [|done]. injection Hstep as <- _. cbn.
    destruct (decide (c = c0)) as [->|Hn].
    + rewrite lookup_alter_eq. by destruct (clients s !! c0).
    + by rewrite lookup_alter_ne.
  - destruct (clients _ !! c0) as [w|]; [|done]. case_decide; [done|].
    apply some_pair_inv in Hstep as [-> _].
    rewrite on_close_clients. cbn. by rewrite !lookup_alter_ne by done.
  - simpl in Hstep. destruct (next_due (timers s)) as [t|] eqn:Ht; [|done].
    case_decide; [|done]. apply some_pair_inv in Hstep as [-> _].
    by rewrite run_task_clients.
Qed.

(** A pending [registerTimer] stays pending until it is due, unless its
    own connection cancels it; and no other timer stands in for it. *)
Lemma step_keeps_registerTimer (now : Z) (e : Event) (s s' : State) (out : list Send)
    (c : Conn) (T : Timer) :
  timers_wf s → step now e s = Some (s', out) → concerns c e = false →
  T ∈ timers s → task T = registerTimer c → now < due T →
  T ∈ timers s' ∧
  ∀ t, next_due (timers s) = Some t → due t ≤ now → task t ≠ registerTimer c.
Proof.
  intros (W1 & W2 & W3 & W4) Hstep Hne HT Htask Hdue.
  assert (Hid : ∀ c0 h, ws_registerTimer s c0 = Some h → c0 ≠ c → timer_id T ≠ h).
  { intros c0 h Hh Hc0 Heq. destruct (W3 c0 h Hh) as [_ Hown].
    specialize (Hown T HT Heq). congruence. }
  assert (Hother : ∀ t, t ∈ timers s → due t ≤ now → timer_id T ≠ timer_id t).
  { intros t Ht Hle Heq. assert (t = T) by by apply (timer_unique_by_id (timers s)).
    subst t. lia. }
  split.
  2:{ intros t Ht Hle Htt. apply next_due_elem in Ht.
      apply (Hother t Ht Hle). pose proof (W4 t c Ht Htt) as H1.
      pose proof (W4 T c HT Htask) as H2. congruence. }
  revert Hstep. unfold step. case_decide as Hlate; [done|]. intros Hstep.
  destruct e as [c0 sock|c0 m rnd|c0 sock|c0|rnd]; simpl in Hne;
    try apply bool_decide_eq_false in Hne.
  - destruct (clients (set_clock now s) !! c0) eqn:Hc0; [done|]. injection Hstep as <- _.
    unfold on_connection, setTimeout. cbn. apply elem_of_app. by left.
  - destruct (ws_readyState (set_clock now s) c0) as [rs|] eqn:Hrs; [|done].
    case_decide; [done|]. apply some_pair_inv in Hstep as [-> _].
    assert (Hex : is_Some (clients (set_clock now s) !! c0)).
    { unfold ws_readyState in Hrs. by destruct (clients (set_clock now s) !! c0). }
    unfold on_message. destruct (parsed m) as [d|] eqn:Hp; [|done].
    repeat case_decide; [| | |done].
    + by destruct (on_screenshot_timers c0 d now rnd (set_clock now s)) as [-> _].
    + by destruct (on_code_spec c0 m d now (set_clock now s)) as (_ & _ & _ & _ & _ & -> & _).
    + destruct (register_browser_effect c0 now (set_clock now s) Hex) as (_ & -> & _).
      apply elem_of_app. left.
      change (ws_registerTimer (set_clock now s) c0) with (ws_registerTimer s c0).
      destruct (ws_registerTimer s c0) as [h|] eqn:Hh; [|done].
      apply list_elem_of_filter. split; [|done]. by apply (Hid c0).
  - destruct (is_open _ c0); [|done]. by injection Hstep as <- _.
  - destruct (clients (set_clock now s) !! c0) as [w|] eqn:Hw; [|done].
    case_decide; [done|]. apply some_pair_inv in Hstep as [-> _].
    set (s1 := set_clients _ (set_clock now s)).
    destruct (on_close_spec c0 s1) as (_ & _ & _ & -> & _).
    assert (Hsame : ws_registerTimer s1 c0 = ws_registerTimer s c0).
    { unfold ws_registerTimer, s1. cbn. by apply registerTimer_alter_keep. }
    rewrite Hsame. destruct (ws_registerTimer s c0) as [h|] eqn:Hh; [|done].
    apply list_elem_of_filter. split; [|done]. by apply (Hid c0).
  - simpl in Hstep. destruct (next_due (timers s)) as [t|] eqn:Ht; [|done].
    case_decide as Hle; [|done]. apply some_pair_inv in Hstep as [-> _].
    set (s1 := clearTimeout (timer_id t) (set_clock now s)).
    assert (HT1 : T ∈ timers s1).
    { unfold s1, clearTimeout. cbn. apply list_elem_of_filter. split; [|done].
      apply Hother; [by apply next_due_elem | done]. }
    destruct (task t) as [c1|c1|c1 msg| |] eqn:Htk; unfold run_task; cbn [fst]; try done.
    + by destruct (on_registerTimer_frame c1 now rnd s1) as (_ & -> & _).
    + destruct (on_flushBuffered_spec c1 now s1) as (-> & _). apply elem_of_app. by left.
    + unfold setTimeout. cbn. apply elem_of_app. by left.
Qed.

Lemma step_timeout_due (now : Z) (rnd : string) (s s' : State) (out : list Send) :
  step now (timeout rnd) s = Some (s', out) →
  ∃ t, next_due (timers s) = Some t ∧ due t ≤ now.
Proof.
  unfold step. case_decide; [done|]. simpl.
  destruct (next_due (timers s)) as [t|]; [|done]. case_decide; [|done]. eauto.
Qed.

Lemma step_awaiting (now : Z) (e : Event) (s s' : State) (out : list Send)
    (c : Conn) (T : Timer) :
  timers_wf s → awaiting c T s →
  step now e s = Some (s', out) → concerns c e = false → now < due T →
  awaiting c T s'.
Proof.
  intros Hwf (A1 & A2 & A3 & A4 & A5 & A6) Hstep Hne Hdue.
  destruct (step_keeps_registerTimer now e s s' out c T Hwf Hstep Hne A5 A6 Hdue)
    as [HT Hnot].
  destruct (step_other_fields now e s s' out c Hstep) as [F1 F2];
    [by apply (registerTimer_connected s c (timer_id T)) | done |].
  split; [|split; [|split; [|split; [|split]]]]; try congruence; try done.
  - destruct (step_senders now e s s' out Hstep)
      as [-> |[(c0 & info & _ & -> & Hwho)|(c0 & _ & ->)]]; [done| |].
    + rewrite keys_snoc, elem_of_app, list_elem_of_singleton.
      intros [?| ->]; [done|].
      destruct Hwho as [(m & rnd & ->)|(rnd & t & -> & Ht & Htask)].
      * simpl in Hne. by apply bool_decide_eq_false in Hne.
      * destruct (step_timeout_due _ _ _ _ _ Hstep) as (t' & Ht' & Hle).
        rewrite Ht in Ht'. injection Ht' as <-. by apply (Hnot t).
    + by intros [_ ?]%(keys_delete c0 c (senders s)).
  - destruct (step_browserClients now e s s' out Hstep)
      as [-> |[(c0 & m & rnd & -> & ->)|(c0 & _ & ->)]]; [done| |].
    + simpl in Hne. apply bool_decide_eq_false in Hne.
      intros [->|?]%set_add_elem; done.
    + by intros [_ ?]%set_delete_elem.
Qed.

Lemma run_awaiting (c : Conn) (T : Timer) (tr : list (Z * Event)) :
  ∀ (s s' : State) (out : list Send),
    timers_wf s → awaiting c T s →
    run tr s = Some (s', out) →
    Forall (λ x : Z * Event, concerns c x.2 = false) tr →
    clock s' < due T →
    timers_wf s' ∧ awaiting c T s'.
Proof.
  induction tr as [|[now e] tr IH]; intros s s' out Hwf Ha Hrun Hall Hclk; simpl in *.
  - by injection Hrun as <- _.
  - destruct (step now e s) as [[s1 out1]|] eqn:Hstep; [|done].
    destruct (run tr s1) as [[s2 out2]|] eqn:Hrun1; [|done]. injection Hrun as <- _.
    apply Forall_cons in Hall as [He Hall]. simpl in He.
    destruct (step_clock _ _ _ _ _ Hstep) as [Hk _].
    destruct (run_clock _ _ _ _ Hrun1) as [Hle _].
    apply (IH s1 s2 out2); try done.
    + by apply (step_timers_wf now e s s1 out1).
    + apply (step_awaiting now e s s1 out1); try done. lia.
Qed.

Lemma filter_ext_in {A : Type} (P Q : A → Prop) `{!∀ x, Decision (P x)}
    `{!∀ x, Decision (Q x)} (l : list A) :
  (∀ x, x ∈ l → P x ↔ Q x) → filter P l = filter Q l.
Proof.
  induction l as [|x l IH]; intros Hext; [done|].
  assert (Hx : P x ↔ Q x) by (apply Hext; left).
  assert (Hl : filter P l = filter Q l) by (apply IH; intros y Hy; apply Hext; by right).
  destruct (decide (P x)) as [Hp|Hp].
  - rewrite !filter_cons_True by tauto. by rewrite Hl.
  - rewrite !filter_cons_False by tauto. done.
Qed.

(** X16.  A connection that closes less than 800 ms after it came,
    without having sent a frame, leaves no trace, whatever else happens
    in between: it starts unclassified with its [registerTimer] armed
    800 ms ahead, it is still in neither registry when it closes, its
    close sends nothing and changes neither registry nor buffer, and the
    timer queue only loses that [registerTimer]. *)
Theorem silent_connection_leaves_no_trace
    (s s1 s2 s3 : State) (c : Conn) (sock : option Socket) (now now' : Z)
    (tr : list (Z * Event)) (out1 out2 out3 : list Send) :
  reachable s →
  step now (connection c sock) s = Some (s1, out1) →
  run tr s1 = Some (s2, out2) →
  Forall (λ x : Z * Event, concerns c x.2 = false) tr →
  now' < now + 800 →
  step now' (close c) s2 = Some (s3, out3) →
  let T := mkTimer (nextTimer s) (now + 800) (registerTimer c) in
  out1 = [] ∧ timers s1 = timers s ++ [T] ∧
  ((c ∉ JsMap.keys (senders s2)) ∧ (c ∉ browserClients s2) ∧
   ws_isBrowser s2 c = false ∧ T ∈ timers s2) ∧
  out3 = [] ∧
  senders s3 = senders s2 ∧ browserClients s3 = browserClients s2 ∧
  screenshotBuffer s3 = screenshotBuffer s2 ∧ codeBuffer s3 = codeBuffer s2 ∧
  timers s3 = filter (λ t : Timer, t ≠ T) (timers s2).
Proof.
  intros Hreach Hconn Hrun Hsilent Hsoon Hclose T.
  destruct (registries_wf_reachable s Hreach) as [Hwf (_ & _ & R3 & R4)].
  assert (Hwf1 : timers_wf s1) by by apply (step_timers_wf _ _ _ _ _ Hwf Hconn).
  assert (H1 : out1 = [] ∧ timers s1 = timers s ++ [T] ∧ awaiting c T s1).
  { revert Hconn. unfold step. case_decide; [done|].
    destruct (clients (set_clock now s) !! c) eqn:Hc; [done|]. intros [= <- <-].
    simpl in Hc. split; [done|]. split; [done|].
    unfold awaiting, ws_isBrowser, ws_registerTimer, on_connection. cbn.
    rewrite !lookup_insert_eq. cbn. repeat split; try done.
    - intros Hin. destruct (R3 c Hin). congruence.
    - intros Hin. destruct (isBrowser_connected s c (R4 c Hin)). congruence.
    - apply elem_of_app. right. by left. }
  destruct H1 as (-> & Htm1 & Ha1).
  destruct (step_clock _ _ _ _ _ Hclose) as [_ Hk2].
  destruct (run_awaiting c T tr s1 s2 out2 Hwf1 Ha1 Hrun Hsilent) as [Hwf2 Ha2];
    [simpl; lia|].
  destruct Ha2 as (A1 & A2 & A3 & A4 & A5 & _).
  split; [done|]. split; [done|]. split; [done|].
  revert Hclose. unfold step. case_decide; [done|].
  destruct (clients (set_clock now' s2) !! c) as [w|] eqn:Hw; [|done].
  case_decide; [done|]. intros [-> ->]%some_pair_inv.
  set (s0 := set_clients _ (set_clock now' s2)).
  destruct (on_close_spec c s0) as (Hs & Hb & _ & Ht & Hout & Hsb & Hcb & _).
  assert (Hh : ws_registerTimer s0 c = Some (timer_id T)).
  { rewrite <- A4. unfold ws_registerTimer, s0. cbn. by apply registerTimer_alter_keep. }
  rewrite Hs, Hb, Ht, Hout, Hsb, Hcb, Hh.
  change (senders s0) with (senders s2). change (browserClients s0) with (browserClients s2).
  assert (Hg : JsMap.get c (senders s2) = None) by by apply get_None_keys.
  rewrite Hg, (delete_absent _ _ A1), (set_delete_absent _ _ A2).
  repeat split; try done.
  apply filter_ext_in. intros t Hin. destruct Hwf2 as (W1 & _). split.
  - intros Hid ->. done.
  - intros Hne Hid. apply Hne. by apply (timer_unique_by_id (timers s2)).
Qed.

Lemma silent_connection_leaves_no_trace_witness :
  let s2 := state_after (busy_day ++ short_visit) in
  let s3 := state_after (busy_day ++ short_visit ++ [(700500, close 9)]) in
  (9%nat ∉ JsMap.keys (senders s2)) ∧
  senders s3 = senders s2 ∧ browserClients s3 = browserClients s2 ∧
  timers s3
  = filter (λ t : Timer,
              t ≠ mkTimer (nextTimer (state_after busy_day)) (700000 + 800) (registerTimer 9))
           (timers s2).
Proof.
  intros s2 s3.
  set (s1 := state_after (busy_day ++ take 1 short_visit)).
  assert (H1 : step 700000 (connection 9 None) (state_after busy_day) = Some (s1, []))
    by (by vm_compute).
  assert (H2 : run (drop 1 short_visit) s1
               = Some (s2, default [] (run_sends (drop 1 short_visit) s1)))
    by (by vm_compute).
  assert (H3 : step 700500 (close 9) s2 = Some (s3, [])) by (by vm_compute).
  destruct (silent_connection_leaves_no_trace (state_after busy_day) s1 s2 s3 9 None
              700000 700500 (drop 1 short_visit) []
              (default [] (run_sends (drop 1 short_visit) s1)) [])
    as (_ & _ & (G1 & _) & _ & G2 & G3 & _ & _ & G4);
    [apply reachable_state_after; vm_compute; by eexists | exact H1 | exact H2
    | repeat constructor | lia | exact H3 |].
  split; [exact G1|]. split; [exact G2|]. split; [exact G3 | exact G4].
Defined.

(** ** The identity of a sender *)

Lemma get_app_Some {V : Type} (k : Conn) (v : V) (m m' : list (Conn * V)) :
  JsMap.get k m = Some v → JsMap.get k (m ++ m') = Some v.
Proof.
  induction m as [|[k' v'] m IH]; simpl; [done|]. by case_decide.
Qed.

Lemma get_delete_ne {V : Type} (k k' : Conn) (m : list (Conn * V)) :
  k' ≠ k → JsMap.get k (JsMap.delete k' m) = JsMap.get k m.
Proof.
  intros Hne. unfold JsMap.delete. induction m as [|[k0 v0] m IH]; [done|].
  destruct (decide (k0 = k')) as [->|Hk].
  - rewrite filter_cons_False by (simpl; tauto). simpl. by rewrite decide_False.
  - rewrite filter_cons_True by done. simpl. by rewrite IH.
Qed.

(** The identity of a registered sender is not rewritten: it stays what
    it is until the sender closes or registers as a browser. *)
Lemma step_keeps_identity (now : Z) (e : Event) (s s' : State) (out : list Send)
    (c : Conn) (info : SenderInfo) :
  step now e s = Some (s', out) → retires c e = false →
  JsMap.get c (senders s) = Some info → JsMap.get c (senders s') = Some info.
Proof.
  intros Hstep Hne Hg.
  destruct (step_senders now e s s' out Hstep)
    as [-> |[(c0 & info0 & _ & -> & _)|(c0 & Hret & ->)]]; [done| |].
  - by apply get_app_Some.
  - rewrite get_delete_ne; [done|]. intros ->. congruence.
Qed.

Lemma run_keeps_identity (c : Conn) (info : SenderInfo) (tr : list (Z * Event)) :
  ∀ (s s' : State) (out : list Send),
    run tr s = Some (s', out) →
    Forall (λ x : Z * Event, retires c x.2 = false) tr →
    JsMap.get c (senders s) = Some info → JsMap.get c (senders s') = Some info.
Proof.
  induction tr as [|[now e] tr IH]; intros s s' out Hrun Hall Hg; simpl in *.
  - by injection Hrun as <- _.
  - destruct (step now e s) as [[s1 out1]|] eqn:Hstep; [|done].
    destruct (run tr s1) as [[s2 out2]|] eqn:Hrun1; [|done]. injection Hrun as <- _.
    apply Forall_cons in Hall as [He Hall]. simpl in He.
    apply (IH s1 s2 out2); try done.
    by apply (step_keeps_identity now e s s1 out1).
Qed.

(** X8.  The identity a sender is announced with is the one it is
    retired with.  When the first payload of a connection registers it,
    the [sender_connected] frames carry its new identity; and when the
    connection closes, whatever happened in between short of its
    registering as a browser, the [sender_disconnected] frames carry
    that same identity.  They go to the browsers that are open then,
    the closing connection itself excepted, and the connection is out
    of the registry. *)
Theorem disconnect_carries_connect_identity
    (c : Conn) (m : Frame) (d : Json) (now now' : Z) (rnd : string)
    (tr : list (Z * Event)) (s s1 s2 s3 : State) (out1 out2 out3 : list Send) :
  parsed m = Some d → type d = "screenshot" →
  c ∉ JsMap.keys (senders s) →
  step now (message c m rnd) s = Some (s1, out1) →
  run tr s1 = Some (s2, out2) →
  Forall (λ x : Z * Event, retires c x.2 = false) tr →
  step now' (close c) s2 = Some (s3, out3) →
  let info := new_sender s c now rnd in
  (∃ forwarded,
     out1 = ((λ b, (b, sender_connected info))
               <$> filter (λ b, is_open s b) (browserClients s)) ++ forwarded ∧
     no_sender_connected forwarded) ∧
  out3 = (λ b, (b, sender_disconnected info))
           <$> filter (λ b, b ≠ c ∧ is_open s2 b) (browserClients s2) ∧
  (c ∉ JsMap.keys (senders s3)).
Proof.
  intros Hp Ht Hn Hmsg Hrun Hkeep Hclose info.
  assert (H1 : JsMap.get c (senders s1) = Some info ∧
               ∃ forwarded,
                 out1 = ((λ b, (b, sender_connected info))
                           <$> filter (λ b, is_open s b) (browserClients s)) ++ forwarded ∧
                 no_sender_connected forwarded).
  { revert Hmsg. unfold step. case_decide; [done|].
    destruct (ws_readyState (set_clock now s) c); [|done]. case_decide; [done|].
    intros [-> ->]%some_pair_inv. rewrite (on_message_screenshot _ _ _ _ _ _ Hp Ht).
    destruct (on_screenshot_spec c d now rnd (set_clock now s)) as (_ & Hg & Hout & _).
    assert (Hh : JsMap.has c (senders (set_clock now s)) = false) by by apply has_false_keys.
    assert (Hnone : JsMap.get c (senders (set_clock now s)) = None) by by apply get_None_keys.
    rewrite Hnone in Hg, Hout. rewrite Hh in Hout. cbn [default] in Hg, Hout.
    split; [exact Hg|]. eexists. split; [exact Hout|].
    case_decide; [by apply Forall_nil|].
    apply Forall_forall. intros x [b [-> _]]%list_elem_of_fmap. by intros info'. }
  destruct H1 as [Hg1 Hfw]. split; [exact Hfw|].
  pose proof (run_keeps_identity c info tr s1 s2 out2 Hrun Hkeep Hg1) as Hg2.
  revert Hclose. unfold step. case_decide; [done|].
  destruct (clients (set_clock now' s2) !! c) as [w|] eqn:Hw; [|done].
  case_decide; [done|]. intros [-> ->]%some_pair_inv.
  set (s0 := set_clients _ (set_clock now' s2)).
  destruct (on_close_spec c s0) as (Hs & _ & _ & _ & Hout & _).
  change (senders s0) with (senders s2) in Hs, Hout.
  change (browserClients s0) with (browserClients s2) in Hout.
  rewrite Hg2 in Hout. rewrite Hs, Hout. split.
  - f_equal. apply list_filter_iff. intros b.
    unfold is_open, ws_readyState, s0. cbn.
    destruct (decide (b = c)) as [->|Hne].
    + rewrite lookup_alter_eq. simpl in Hw. rewrite Hw. cbn.
      rewrite bool_decide_eq_false_2 by discriminate. simpl. tauto.
    + rewrite lookup_alter_ne by done. tauto.
  - by intros [? _]%(keys_delete c c (senders s2)).
Qed.

Lemma disconnect_carries_connect_identity_witness :
  default [] (run_sends (drop 7 sender_visit) (state_after (take 7 sender_visit)))
    = [(2%nat, sender_disconnected (mkSenderInfo "sender-900-abcde" "10.0.0.1:5000"))] ∧
  (1%nat ∉ JsMap.keys (senders (state_after sender_visit))).
Proof.
  set (s := state_after (take 4 sender_visit)).
  set (s1 := state_after (take 5 sender_visit)).
  set (s2 := state_after (take 7 sender_visit)).
  set (s3 := state_after sender_visit).
  set (out3 := default [] (run_sends (drop 7 sender_visit) s2)).
  assert (H1 : step 900 (message 1 (screenshot_frame "img") "abcde") s
               = Some (s1, default [] (run_sends (take 1 (drop 4 sender_visit)) s)))
    by (by vm_compute).
  assert (H2 : run (take 2 (drop 5 sender_visit)) s1
               = Some (s2, default [] (run_sends (take 2 (drop 5 sender_visit)) s1)))
    by (by vm_compute).
  assert (H3 : step 1000 (close 1) s2 = Some (s3, out3)) by (by vm_compute).
  destruct (disconnect_carries_connect_identity 1 (screenshot_frame "img")
              (mkJson "screenshot" "img") 900 1000 "abcde" (take 2 (drop 5 sender_visit))
              s s1 s2 s3 (default [] (run_sends (take 1 (drop 4 sender_visit)) s))
              (default [] (run_sends (take 2 (drop 5 sender_visit)) s1)) out3
              eq_refl eq_refl) as (_ & G2 & G3);
    [intros Hin; vm_compute in Hin; inversion Hin
    | exact H1 | exact H2 | repeat constructor | exact H3 |].
  split; [|exact G3]. rewrite G2. by vm_compute.
Defined.

(** ** The ways out of the command buffer *)

(** X10.  A buffered command leaves the command buffer in three ways
    only.  It is the oldest entry of a full buffer when one more command
    is buffered; or the sweep finds it at least the TTL old; or the
    [registerTimer] of a connection classifies it as a sender, which
    empties the buffer and, when that connection is open, sends it every
    buffered command as a [code] frame, in buffer order, after the
    announcements to the browsers. *)

Theorem buffered_command_leaves_three_ways
    (now : Z) (e : Event) (s s' : State) (out : list Send) (x : CodeEntry) :
  step now e s = Some (s', out) →
  x ∈ codeBuffer s → x ∉ codeBuffer s' →
  (∃ c m rnd d,
     e = message c m rnd ∧ parsed m = Some d ∧ type d = "code" ∧
     senders s = [] ∧ (100 ≤ length (codeBuffer s))%nat ∧ head (codeBuffer s) = Some x)
  ∨ (∃ rnd t,
       e = timeout rnd ∧ next_due (timers s) = Some t ∧ task t = cleanExpired ∧
       MESSAGE_TTL_MS ≤ now - c_timestamp x)
  ∨ (∃ rnd t c,
       e = timeout rnd ∧ next_due (timers s) = Some t ∧ task t = registerTimer c ∧
       codeBuffer s' = [] ∧
       (is_open s c = true →
        ∃ announce,
          no_code_frames announce ∧
          out = announce ++ ((λ y, (c, code (c_data y))) <$> codeBuffer s))).
Proof.
  unfold step. case_decide as Hlate; [done|]. intros Hstep Hin Hout.
  destruct e as [c sock|c m rnd|c sock|c|rnd].
  - destruct (clients _ !! c); [done|]. by injection Hstep as <- _.
  - destruct (ws_readyState (set_clock now s) c) as [rs|] eqn:Hrs; [|done].
    case_decide; [done|]. apply some_pair_inv in Hstep as [-> _].
    revert Hout. unfold on_message. destruct (parsed m) as [d|] eqn:Hp; [|done].
    repeat case_decide; [| | |done].
    + by rewrite on_screenshot_codeBuffer.
    + unfold on_code. cbn [senders set_clock]. case_decide as Hs; [done|].
      cbn. unfold push_bounded. intros Hout. left. exists c, m, rnd, d.
      assert (Hnone : senders s = []) by (destruct (senders s); simpl in Hs; [done | lia]).
      case_decide as Hfull.
      * split; [done|]. split; [done|]. split; [done|]. split; [done|].
        split; [exact Hfull|].
        destruct (codeBuffer s) as [|x0 l]; [by apply elem_of_nil in Hin|]. simpl in *.
        apply elem_of_cons in Hin as [->|Hin]; [done|].
        exfalso. apply Hout, elem_of_app. by left.
      * exfalso. apply Hout, elem_of_app. by left.
    + by destruct (on_register_browser_frame c now (set_clock now s)) as (_ & -> & _).
  - destruct (is_open _ c); [|done]. by injection Hstep as <- _.
  - destruct (clients _ !! c) as [w|]; [|done]. case_decide; [done|].
    apply some_pair_inv in Hstep as [-> _]. revert Hout.
    by destruct (on_close_frame c (set_clients (alter (write_transport CLOSED (_socket w)) c
                   (clients (set_clock now s))) (set_clock now s))) as (_ & -> & _).
  - simpl in Hstep. destruct (next_due (timers s)) as [t|] eqn:Ht; [|done].
    case_decide; [|done]. apply some_pair_inv in Hstep as [-> ->].
    revert Hout. set (s1 := clearTimeout (timer_id t) (set_clock now s)).
    destruct (task t) as [c|c|c msg| |] eqn:Htask; unfold run_task; cbn [fst snd].
    + destruct (negb (ws_isBrowser s1 c) && negb (JsMap.has c (senders s1))) eqn:Hcond.
      * apply andb_true_iff in Hcond as [Hnb Hnh].
        apply negb_true_iff in Hnb. apply negb_true_iff in Hnh.
        apply has_false_keys in Hnh.
        destruct (on_registerTimer_spec c now rnd s1 Hnb Hnh) as (_ & Ho & Hcb & _).
        intros _. right. right. exists rnd, t, c.
        split; [done|]. split; [done|]. split; [done|]. split; [exact Hcb|].
        intros Hopen. rewrite Ho.
        change (is_open s1 c) with (is_open s c). rewrite Hopen.
        eexists. split; [|reflexivity].
        apply Forall_forall. intros y [b [-> _]]%list_elem_of_fmap. by intros d.
      * assert (Hidle : on_registerTimer c now rnd s1 = (s1, []))
          by (unfold on_registerTimer; by rewrite Hcond).
        rewrite Hidle. intros Hout. exfalso. by apply Hout.
    + destruct (on_flushBuffered_spec c now s1) as (_ & _ & -> & _).
      intros Hout. exfalso. by apply Hout.
    + intros Hout. exfalso. by apply Hout.
    + intros Hout. exfalso. by apply Hout.
    + cbn. intros Hout. right. left. exists rnd, t.
      split; [done|]. split; [done|]. split; [done|].
      destruct (decide (now - c_timestamp x < MESSAGE_TTL_MS)) as [Hy|Hy]; [|lia].
      exfalso. apply Hout, list_elem_of_filter. by split.
Qed.

Lemma buffered_command_leaves_three_ways_witness :
  (5%nat, code "ls") ∈ default [] (snd <$> step 850 (timeout "x") idle_with_command).
Proof.
  destruct (step 850 (timeout "x") idle_with_command) as [[s' out]|] eqn:Hstep;
    [|by vm_compute in Hstep].
  assert (Hin : mkCodeEntry "ls" 40 ∈ codeBuffer idle_with_command) by (by left).
  assert (Hout : mkCodeEntry "ls" 40 ∉ codeBuffer s').
  { vm_compute in Hstep. injection Hstep as <- _. by intros ?%elem_of_nil. }
  destruct (buffered_command_leaves_three_ways 850 (timeout "x") idle_with_command s' out
              (mkCodeEntry "ls" 40) Hstep Hin Hout)
    as [(? & ? & ? & ? & ? & _)|[(? & t & ? & Ht & Htask & _)
                                |(rnd & t & c & _ & Ht & Htask & _ & Hopen)]].
  - done.
  - vm_compute in Ht. injection Ht as <-. done.
  - vm_compute in Ht. injection Ht as <-. injection Htask as <-.
    destruct Hopen as (announce & _ & ->); [reflexivity|].
    apply elem_of_app. right. simpl. by left.
Defined.


(** ** The order of the paced flush *)

Lemma paced_timers_lookup (c : Conn) (now : Z) (first : TimerId)
    (buf : list ScreenshotEntry) (i : nat) (t : Timer) :
  paced_timers c now first buf !! i = Some t →
  (∃ p, buf !! i = Some p ∧
        t = mkTimer (first + i) (now + Z.of_nat i * 50) (sendBuffered c p))
  ∨ (i = length buf ∧
     t = mkTimer (first + i) (now + Z.of_nat i * 50 + 100) clearBuffer).
Proof.
  unfold paced_timers. intros Hl.
  destruct (decide (i < length buf)%nat) as [Hlt|Hge].
  - rewrite lookup_app_l in Hl by (by rewrite length_imap).
    apply list_lookup_imap_Some in Hl as (p & Hp & ->). left. eauto.
  - rewrite lookup_app_r in Hl by (rewrite length_imap; lia).
    rewrite length_imap in Hl.
    destruct (i - length buf)%nat as [|k] eqn:Hk; simpl in Hl; [|done].
    injection Hl as <-. right. assert (i = length buf) as -> by lia. done.
Qed.

(** X17.  The paced flush is due in buffer order: the timers the settle
    callback arms are the last ones of the queue, each is due strictly
    later than the ones armed before it (50 ms apart for the sends), the
    first send is due at once, and the trailing clear is the last of
    them, due 100 ms after the slot one more send would have had. *)
Theorem paced_flush_is_due_in_order (c : Conn) (now : Z) (s : State) :
  ∃ armed,
    timers (on_flushBuffered c now s) = timers s ++ armed ∧
    length armed = S (length (screenshotBuffer s)) ∧
    (∀ i j ti tj, armed !! i = Some ti → armed !! j = Some tj →
       (i < j)%nat → due ti < due tj) ∧
    (∀ i p, screenshotBuffer s !! i = Some p →
       ∃ h, armed !! i = Some (mkTimer h (now + Z.of_nat i * 50) (sendBuffered c p))) ∧
    (∃ h, last armed
          = Some (mkTimer h (now + Z.of_nat (length (screenshotBuffer s)) * 50 + 100)
                          clearBuffer)).
Proof.
  destruct (on_flushBuffered_spec c now s) as (Htm & _).
  exists (paced_timers c now (nextTimer s) (screenshotBuffer s)).
  split; [done|]. split; [|split; [|split]].
  - unfold paced_timers. rewrite length_app, length_imap. simpl. lia.
  - intros i j ti tj Hi Hj Hlt.
    assert (Hjlen : (j ≤ length (screenshotBuffer s))%nat).
    { apply lookup_lt_Some in Hj. unfold paced_timers in Hj.
      rewrite length_app, length_imap in Hj. simpl in Hj. lia. }
    apply paced_timers_lookup in Hi as [(p & Hp & ->)|[-> ->]]; [|lia].
    apply paced_timers_lookup in Hj as [(q & Hq & ->)|[-> ->]]; simpl; lia.
  - intros i p Hp. exists (nextTimer s + i)%nat. unfold paced_timers.
    rewrite lookup_app_l by (rewrite length_imap; by apply lookup_lt_Some in Hp).
    by rewrite list_lookup_imap, Hp.
  - eexists. unfold paced_timers. by rewrite last_snoc.
Qed.

(** ** Two lemmas of the registry, with instances

    X19 is [registry_changes_only_on_classification_or_close]: the two
    registries change only while a payload or registration frame, a
    [registerTimer] expiry or a close is handled.  X20 is
    [registered_browser_not_classified_by_timer]: after a connection
    sent [register_browser], the expiry of its [registerTimer] neither
    registers it nor sends anything.  Both are proved above; here each
    is applied to a run. *)

Lemma registry_changes_only_on_classification_or_close_witness :
  classifies_or_closes (message 3 (screenshot_frame "img") "k3x9a")
    (set_clock 1000 waiting_commands).
Proof.
  apply (registry_changes_only_on_classification_or_close 1000
           (message 3 (screenshot_frame "img") "k3x9a") waiting_commands
           (on_message 3 (screenshot_frame "img") 1000 "k3x9a"
              (set_clock 1000 waiting_commands)).1
           (on_message 3 (screenshot_frame "img") 1000 "k3x9a"
              (set_clock 1000 waiting_commands)).2).
  - reflexivity.
  - left. vm_compute. discriminate.
Defined.

Lemma registered_browser_not_classified_by_timer_witness :
  on_registerTimer 1 810 "zzzzz" (state_after (take 2 browser_then_payload))
  = (state_after (take 2 browser_then_payload), []).
Proof.
  apply (registered_browser_not_classified_by_timer 1 register_frame
           (mkJson "register_browser" EmptyString) 20 "r" []
           (state_after (take 1 browser_then_payload))
           (state_after (take 2 browser_then_payload)) [(1%nat, current_senders [])]).
  - reflexivity.
  - reflexivity.
  - by vm_compute.
Defined.

(** ** One probe per client *)

(** X18.  One pass of the liveness interval asks exactly one thing of
    each client, in the order of [wss.clients]: [terminate] of those
    whose flag the previous pass cleared and no pong set again, [ping]
    of all the others. *)
Theorem one_probe_per_client (clients : list nat) (isAlive : gmap nat bool) :
  NoDup clients →
  (Liveness.sweep clients isAlive).2
  = (λ ws, if decide (isAlive !! ws = Some false)
           then Liveness.terminate ws else Liveness.ping ws) <$> clients.
Proof.
  revert isAlive. induction clients as [|c l IH]; intros isAlive Hnd; [done|].
  apply NoDup_cons in Hnd as [Hc Hnd]. simpl. unfold Liveness.probe.
  destruct (decide (isAlive !! c = Some false)) as [Hf|Hf].
  - specialize (IH isAlive Hnd).
    destruct (Liveness.sweep l isAlive) as [a2 out2]. simpl in *. by rewrite IH.
  - specialize (IH (<[c:=false]> isAlive) Hnd).
    destruct (Liveness.sweep l (<[c:=false]> isAlive)) as [a2 out2]. simpl in *.
    rewrite IH. f_equal. apply list_fmap_ext. intros i ws Hws.
    assert (ws ≠ c) as Hne.
    { intros ->. apply Hc. by eapply list_elem_of_lookup_2. }
    by rewrite lookup_insert_ne.
Qed.

Lemma one_probe_per_client_witness :
  (Liveness.sweep three_clients flags_after_silence).2
  = (λ ws, if decide (flags_after_silence !! ws = Some false)
           then Liveness.terminate ws else Liveness.ping ws) <$> three_clients.
Proof.
  apply (one_probe_per_client three_clients flags_after_silence).
  unfold three_clients. repeat constructor; set_solver.
Defined.
